(** * getdata.py: the batch-query-and-merge pipeline

    A shallow embedding of [src/getdata.py] and the properties its
    specification states about it.  Python integers are [Z]; Python lists and
    NumPy one-dimensional arrays are [list]; text and byte strings are
    [string]; an exception is a value of [exn] carried by [result]. *)

From Stdlib Require Import String Ascii.
From Stdlib Require Import ZArith List Bool Lia.
From Stdlib Require Import SpecFloat Decimal DecimalString DecimalN.
Import ListNotations.
Set Warnings "-register-all".
Open Scope string_scope.
Open Scope list_scope.
Open Scope Z_scope.

(** ** Exceptions and results *)

(** The exceptions the script can raise, with the payload Python gives them.
    [OutOfBoundsDatetime] is the error of pandas of that name, a
    [ValueError]; its message names the timestamp that does not fit and is
    left out. *)
Inductive exn : Type :=
| ValueError (msg : string)
| KeyError (key : string)
| TypeError (msg : string)
| AttributeError (msg : string)
| InvalidIndexError (msg : string)
| JSONDecodeError (doc : string)
| ZeroDivisionError
| OutOfBoundsDatetime.

Inductive result (A : Type) : Type :=
| Ok (a : A)
| Raise (e : exn).
Arguments Ok {A} a.
Arguments Raise {A} e.

Definition bind {A B : Type} (r : result A) (k : A -> result B) : result B :=
  match r with
  | Ok a => k a
  | Raise e => Raise e
  end.

Notation "x <- r ;; k" := (bind r (fun x => k))
  (at level 61, r at next level, right associativity).

(** ** Chunker: [np.arange], slicing and [np.array_split] *)

(** [-(-a // b)]: the length NumPy gives an integer [arange]. *)
Definition ceil_div (a b : Z) : Z := - ((- a) / b).

Fixpoint arange_from (k : nat) (start step : Z) : list Z :=
  match k with
  | O => []
  | S k' => start :: arange_from k' (start + step) step
  end.

(** [np.arange(start, stop, step)] on integers: [ceil((stop - start) / step)]
    values, none when that is not positive; a zero step is an error. *)
Definition arange (start stop step : Z) : result (list Z) :=
  if step =? 0 then Raise ZeroDivisionError
  else Ok (arange_from (Z.to_nat (ceil_div (stop - start) step)) start step).

(** A slice bound as Python normalises it against a length [n]. *)
Definition clamp_index (n i : Z) : Z :=
  if i <? 0 then Z.max 0 (i + n) else Z.min i n.

(** [l[st:en]]. *)
Definition py_slice {A : Type} (l : list A) (st en : Z) : list A :=
  let n := Z.of_nat (length l) in
  let s := clamp_index n st in
  let e := clamp_index n en in
  firstn (Z.to_nat (e - s)) (skipn (Z.to_nat s) l).

(** [np.array_split(ary, indices)] with a list of split points:
<<
    Nsections = len(indices) + 1
    div_points = [0] + list(indices) + [Ntotal]
    for i in range(Nsections):
        sub_arys.append(sary[div_points[i]:div_points[i + 1]])
>> *)
Definition array_split {A : Type} (ary : list A) (indices : list Z)
  : list (list A) :=
  let Ntotal := Z.of_nat (length ary) in
  let Nsections := S (length indices) in
  let div_points := [0] ++ indices ++ [Ntotal] in
  map (fun i => py_slice ary (nth i div_points 0) (nth (S i) div_points 0))
      (seq 0 Nsections).

(** Line 58:
    [np.array_split(requested_points,
                    np.arange(chunk_size, len(requested_points), chunk_size))]. *)
Definition sliced_requests (requested_points : list string) (chunk_size : Z)
  : result (list (list string)) :=
  indices <- arange chunk_size (Z.of_nat (length requested_points)) chunk_size ;;
  Ok (array_split requested_points indices).

(** The batches whose size is strictly below [n]. *)
Definition short_batches {A : Type} (n : Z) (batches : list (list A))
  : list (list A) :=
  filter (fun b => Z.of_nat (length b) <? n) batches.

(** The slices between successive division points, by recursion on the
    points: what the loop of [array_split] appends, one slice a turn. *)
Fixpoint sub_arys {A : Type} (sary : list A) (st : Z) (ends : list Z)
  : list (list A) :=
  match ends with
  | [] => []
  | en :: rest => py_slice sary st en :: sub_arys sary en rest
  end.

(** ** IdentifierExtractor: the reference column and ['{:.0f}'.format] *)

(** The frame [pd.read_csv] returns, as far as the script reads it: named
    columns of binary64 values, a missing entry being NaN.  A column holding
    a fractional or a missing entry has dtype float64; the entries of an
    all-integer column reach the format through [float()], so line 56 sees
    binary64 values there too. *)
Definition csv_frame : Type := list (string * list spec_float).

(** [df[name]]. *)
Definition getitem_column (df : csv_frame) (name : string)
  : result (list spec_float) :=
  match find (fun c => String.eqb (fst c) name) df with
  | Some c => Ok (snd c)
  | None => Raise (KeyError name)
  end.

Definition isna (x : spec_float) : bool :=
  match x with
  | S754_nan => true
  | _ => false
  end.

(** [Series.dropna()]: NaN goes, infinities stay. *)
Definition dropna (col : list spec_float) : list spec_float :=
  filter (fun x => negb (isna x)) col.

(** [str(k)] for a natural number [k]. *)
Definition decimal (k : Z) : string :=
  NilZero.string_of_uint (N.to_uint (Z.to_N k)).

(** The integer nearest to [m * 2^e], a tie going to the even one: the
    correctly rounded conversion that [format] applies to the exact value of
    the float. *)
Definition round_half_even (m : positive) (e : Z) : Z :=
  if 0 <=? e then Z.pos m * 2 ^ e
  else
    let d := 2 ^ (- e) in
    let q := Z.pos m / d in
    let r := Z.pos m mod d in
    if 2 * r <? d then q
    else if d <? 2 * r then q + 1
    else if Z.even q then q else q + 1.

Definition sign_text (s : bool) : string := if s then "-" else "".

(** ['{:.0f}'.format(x)]. *)
Definition format_0f (x : spec_float) : string :=
  match x with
  | S754_nan => "nan"
  | S754_infinity s => sign_text s ++ "inf"
  | S754_zero s => sign_text s ++ "0"
  | S754_finite s m e => sign_text s ++ decimal (round_half_even m e)
  end.

(** Line 56:
    [df["FromMwAnalogPointRef"].dropna().map('{:.0f}'.format).to_numpy()]. *)
Definition requested_points (df : csv_frame) : result (list string) :=
  col <- getitem_column df "FromMwAnalogPointRef" ;;
  Ok (map format_0f (dropna col)).

(** [k] is within one half of [m * 2^e]; for [e < 0] the inequality is
    written with the denominator [2^(-e)] cleared. *)
Definition nearest_integer (k : Z) (m : positive) (e : Z) : Prop :=
  if 0 <=? e then k = Z.pos m * 2 ^ e
  else 2 * Z.abs (k * 2 ^ (- e) - Z.pos m) <= 2 ^ (- e).

(** Every character of [s] is a decimal digit. *)
Fixpoint all_digits (s : string) : bool :=
  match s with
  | EmptyString => true
  | String c rest =>
      (48 <=? Z.of_N (N_of_ascii c)) && (Z.of_N (N_of_ascii c) <=? 57)
      && all_digits rest
  end.

(** The number a string of decimal digits denotes. *)
Definition decimal_value (s : string) : option Z :=
  option_map (fun d => Z.of_N (N.of_uint d)) (NilEmpty.uint_of_string s).

(** ** Time: instants, the proleptic Gregorian calendar and ISO-8601 text *)

(** A [datetime] or [pd.Timestamp] without time zone is its count of
    microseconds since 1970-01-01T00:00:00; [utcnow()] returns the UTC
    reading of the clock in that form. *)
Definition timestamp : Type := Z.

Definition us_per_second : Z := 1000000.
Definition seconds_per_day : Z := 86400.

(** [datetime.timedelta(minutes=k)]. *)
Definition timedelta_minutes (k : Z) : Z := k * 60 * us_per_second.

(** The civil date of a day number (days since 1970-01-01) in the proleptic
    Gregorian calendar, which [datetime] and pandas both use; years are
    counted from March inside a 400-year era of 146097 days. *)
Definition civil_from_days (z : Z) : Z * Z * Z :=
  let z := z + 719468 in
  let era := z / 146097 in
  let doe := z - era * 146097 in
  let yoe := (doe - doe / 1460 + doe / 36524 - doe / 146096) / 365 in
  let doy := doe - (365 * yoe + yoe / 4 - yoe / 100) in
  let mp := (5 * doy + 2) / 153 in
  let d := doy - (153 * mp + 2) / 5 + 1 in
  let m := if mp <? 10 then mp + 3 else mp - 9 in
  (yoe + era * 400 + (if m <=? 2 then 1 else 0), m, d).

(** The day number of a civil date. *)
Definition days_from_civil (y m d : Z) : Z :=
  let y := if m <=? 2 then y - 1 else y in
  let era := y / 400 in
  let yoe := y - era * 400 in
  let doy := (153 * (if 2 <? m then m - 3 else m + 9) + 2) / 5 + d - 1 in
  let doe := yoe * 365 + yoe / 4 - yoe / 100 + doy in
  era * 146097 + doe - 719468.

Definition is_leap (y : Z) : bool :=
  (y mod 4 =? 0) && (negb (y mod 100 =? 0) || (y mod 400 =? 0)).

Definition days_in_month (y m : Z) : Z :=
  if m =? 2 then (if is_leap y then 29 else 28)
  else if (m =? 4) || (m =? 6) || (m =? 9) || (m =? 11) then 30
  else 31.

Definition digit (d : Z) : ascii := ascii_of_N (Z.to_N (48 + d)).

(** ["%02d" % x] for [0 <= x < 100] and ["%04d" % x] for [0 <= x < 10000]. *)
Definition pad2 (x : Z) : string :=
  String (digit (x / 10)) (String (digit (x mod 10)) "").

Definition pad4 (x : Z) : string :=
  String (digit (x / 1000)) (String (digit (x / 100 mod 10)) (pad2 (x mod 100))).

(** [YYYY-MM-DD], the separator, [HH:MM:SS], for a date and a second of
    the day. *)
Definition iso_text (sep : string) (y m d sod : Z) : string :=
  pad4 y ++ "-" ++ pad2 m ++ "-" ++ pad2 d ++ sep
  ++ pad2 (sod / 3600) ++ ":" ++ pad2 (sod mod 3600 / 60) ++ ":"
  ++ pad2 (sod mod 60).

(** [t.isoformat(timespec="seconds")] on a value without time zone: the
    microseconds are cut off, not rounded. *)
Definition isoformat_seconds (t : timestamp) : string :=
  let secs := t / us_per_second in
  let '(y, m, d) := civil_from_days (secs / seconds_per_day) in
  iso_text "T" y m d (secs mod seconds_per_day).

(** The values [datetime] can hold: 0001-01-01T00:00:00 to
    9999-12-31T23:59:59.999999. *)
Definition datetime_min : timestamp := -62135596800 * us_per_second.
Definition datetime_max : timestamp := 253402300800 * us_per_second - 1.

(** *** Rounding to a frequency

    [Timestamp.round(freq)] rounds the integer value to the nearest multiple
    of the frequency, a tie going to the even multiple (pandas,
    [round_nsint64] in mode [NEAREST_HALF_EVEN]):
<<
    if unit % 2:
        return _rounddown_int64(values, unit)
    quotient, remainder = np.divmod(values, unit)
    mask = np.logical_or(remainder > (unit // 2),
                         np.logical_and(remainder == (unit // 2), quotient % 2))
    quotient[mask] += 1
    return quotient * unit
>> *)
Definition ceil_int64 (value unit : Z) : Z :=
  let remainder := value mod unit in
  if remainder =? 0 then value else value + (unit - remainder).

Definition rounddown_int64 (value unit : Z) : Z :=
  ceil_int64 (value - unit / 2) unit.

Definition round_nsint64 (value unit : Z) : Z :=
  if unit mod 2 =? 1 then rounddown_int64 value unit
  else
    let quotient := value / unit in
    let remainder := value mod unit in
    if (unit / 2 <? remainder) || ((remainder =? unit / 2) && Z.odd quotient)
    then (quotient + 1) * unit
    else quotient * unit.

(** The frequency ["5T"]: five minutes. *)
Definition freq_5T : Z := 5 * 60 * us_per_second.

Definition timestamp_round (t : timestamp) (freq : Z) : timestamp :=
  round_nsint64 t freq.

(** [floor]: the largest multiple of the frequency not above the value; the
    specification's [round_down]. *)
Definition round_down (t : timestamp) (freq : Z) : timestamp :=
  t - t mod freq.

(** Lines 63-65: the text of [params['start_time']] for a clock reading
    [now] and the configured [timedelta] in minutes. *)
Definition start_time_text (now : timestamp) (timedelta : Z) : string :=
  isoformat_seconds (timestamp_round (now - timedelta_minutes timedelta) freq_5T).

(** ** Python values: [repr], dictionaries, URL encoding *)

Definition squote : ascii := "039"%char.
Definition dquote : ascii := "034"%char.
Definition backslash : ascii := "092"%char.

Fixpoint contains (c : ascii) (s : string) : bool :=
  match s with
  | EmptyString => false
  | String c' rest => Ascii.eqb c' c || contains c rest
  end.

Definition hex_lower (n : N) : ascii :=
  if (n <? 10)%N then ascii_of_N (48 + n) else ascii_of_N (87 + n).

Definition hex_upper (n : N) : ascii :=
  if (n <? 10)%N then ascii_of_N (48 + n) else ascii_of_N (55 + n).

(** One byte inside the quotes [q] of a [repr]. *)
Definition repr_char (q c : ascii) : string :=
  let n := N_of_ascii c in
  if Ascii.eqb c backslash then String backslash (String backslash "")
  else if Ascii.eqb c q then String backslash (String q "")
  else if (n =? 9)%N then String backslash "t"
  else if (n =? 10)%N then String backslash "n"
  else if (n =? 13)%N then String backslash "r"
  else if ((n <? 32) || (127 <=? n))%N
       then String backslash
              (String "x" (String (hex_lower (n / 16)) (String (hex_lower (n mod 16)) "")))
  else String c "".

Fixpoint repr_chars (q : ascii) (s : string) : string :=
  match s with
  | EmptyString => ""
  | String c rest => repr_char q c ++ repr_chars q rest
  end.

(** Single quotes, unless the text holds one and no double quote. *)
Definition repr_quote (s : string) : ascii :=
  if contains squote s && negb (contains dquote s) then dquote else squote.

(** [repr(s)] for an ASCII [str]. *)
Definition repr_str (s : string) : string :=
  String (repr_quote s) (repr_chars (repr_quote s) s ++ String (repr_quote s) "").

(** [repr(b)] for [bytes], which is also what an f-string shows of it. *)
Definition repr_bytes (b : string) : string :=
  String "b" (repr_str b).

(** The values the script stores in [params]: a text or an array of texts. *)
Inductive pyval : Type :=
| PStr (s : string)
| PArr (a : list string).

(** A [dict] keeps its keys in insertion order; assigning to a key that is
    present replaces the value in place. *)
Definition dict : Type := list (string * pyval).

Fixpoint dict_get (d : dict) (k : string) : option pyval :=
  match d with
  | [] => None
  | (k', v) :: rest => if String.eqb k' k then Some v else dict_get rest k
  end.

Definition dict_mem (d : dict) (k : string) : bool :=
  match dict_get d k with
  | Some _ => true
  | None => false
  end.

Fixpoint dict_set (d : dict) (k : string) (v : pyval) : dict :=
  match d with
  | [] => [(k, v)]
  | (k', v') :: rest =>
      if String.eqb k' k then (k, v) :: rest else (k', v') :: dict_set rest k v
  end.

Definition is_unreserved (c : ascii) : bool :=
  let n := N_of_ascii c in
  (((48 <=? n) && (n <=? 57)) || ((65 <=? n) && (n <=? 90))
   || ((97 <=? n) && (n <=? 122)))%N
  || Ascii.eqb c "_" || Ascii.eqb c "." || Ascii.eqb c "-" || Ascii.eqb c "~".

(** [urllib.parse.quote_plus]: unreserved characters stay, a space becomes a
    plus sign, any other byte is percent-encoded. *)
Definition quote_char (c : ascii) : string :=
  let n := N_of_ascii c in
  if is_unreserved c then String c ""
  else if Ascii.eqb c " " then "+"
  else String "%" (String (hex_upper (n / 16)) (String (hex_upper (n mod 16)) "")).

Fixpoint quote_plus (s : string) : string :=
  match s with
  | EmptyString => ""
  | String c rest => quote_char c ++ quote_plus rest
  end.

(** The [key=value] pairs [urlencode(query, doseq=True)] writes for one
    entry: one pair for a text, one pair per element for a sequence. *)
Definition urlencode_item (kv : string * pyval) : list string :=
  let k := quote_plus (fst kv) in
  match snd kv with
  | PStr v => [(k ++ "=" ++ quote_plus v)%string]
  | PArr elts => map (fun elt => (k ++ "=" ++ quote_plus elt)%string) elts
  end.

Fixpoint join (sep : string) (l : list string) : string :=
  match l with
  | [] => ""
  | [x] => x
  | x :: rest => x ++ sep ++ join sep rest
  end.

Definition urlencode (query : dict) : string :=
  join "&" (flat_map urlencode_item query).

(** ** JSON payloads, HTTP responses and frames *)

(** What [.json()] returns: [None], a [bool], an [int] for a number written
    without fraction and exponent, a [float] for any other number, a [str],
    a [list], or a [dict] with its members in order.  The messages of
    [json_getitem] are those of CPython 3.11. *)
Inductive json : Type :=
| JNull
| JBool (b : bool)
| JInt (n : Z)
| JNumber (x : spec_float)
| JString (s : string)
| JArray (items : list json)
| JObject (members : list (string * json)).

(** A [requests.Response]: the raw body, and what [.json()] returns for it,
    [None] when the body is not JSON and [.json()] raises
    [requests.exceptions.JSONDecodeError]. *)
Record response : Type := {
  content : string;
  json_body : option json
}.

Fixpoint members_get (members : list (string * json)) (k : string)
  : option json :=
  match members with
  | [] => None
  | (k', v) :: rest => if String.eqb k' k then Some v else members_get rest k
  end.

(** [value[key]] for a decoded JSON value and a text key. *)
Definition json_getitem (value : json) (key : string) : result json :=
  match value with
  | JObject members =>
      match members_get members key with
      | Some v => Ok v
      | None => Raise (KeyError key)
      end
  | JArray _ => Raise (TypeError "list indices must be integers or slices, not str")
  | JString _ => Raise (TypeError "string indices must be integers, not 'str'")
  | JInt _ => Raise (TypeError "'int' object is not subscriptable")
  | JNumber _ => Raise (TypeError "'float' object is not subscriptable")
  | JBool _ => Raise (TypeError "'bool' object is not subscriptable")
  | JNull => Raise (TypeError "'NoneType' object is not subscriptable")
  end.

(** A cell of a table; [None] is the missing-value marker NaN. *)
Definition cell : Type := option json.

(** A [pd.DataFrame]: row labels, the name of the index, and named columns,
    each with one cell per row label. *)
Record frame : Type := {
  index : list string;
  index_name : option string;
  columns : list (string * list cell)
}.

(** ** The run: configuration, the outside world, state and effects *)

(** The [global] section of the configuration file, as the script reads it,
    and the path it was read from. *)
Record config : Type := {
  url : string;
  project_id : string;
  source_path : string;
  upload_path : string;
  branch : string;
  private_token : string;
  ssl_verify : bool;
  chunk_size : Z;
  timedelta : Z;
  db_api : string;
  config_path : string
}.

(** What the script cannot decide: the successive readings of the clock,
    the reply of the data API to the [k]-th request for a URL, the reading
    [pd.DataFrame] makes of a payload, the offset from UTC (in seconds) that
    the time-zone database gives Europe/Tallinn at a UTC instant (in
    seconds), the labels lines 98 to 100 make of an index that is not of
    the ISO-8601 shapes modelled below, and the reply of the file store to
    the upload. *)
Record world : Type := {
  utcnow : nat -> timestamp;
  isr_api : nat -> string -> response;
  DataFrame : json -> result frame;
  tz_utcoffset : Z -> Z;
  normalize_other : list string -> result (list string);
  gitlab_put : response
}.

Inductive event : Type :=
| Utcnow (reading : timestamp)
| Print (text : string)
| PrintFrame (t : frame)
| PrintJson (j : json)
| Get (query : string)
| Put (target : string) (to_branch : string) (commit_message : string)
      (table : frame).

(** The variables the loop assigns, the number of clock readings and of
    requests to the data API made so far, and what the run did from line 56
    on, oldest first. *)
Record state : Type := {
  params : dict;
  results : list frame;
  clock_reads : nat;
  requests_sent : nat;
  trace : list event
}.

(** The state when line 56 begins: the source file has been fetched (line
    44) and read (line 54), and nothing else has been done. *)
Definition initial_state : state :=
  {| params := []; results := []; clock_reads := 0; requests_sent := 0;
     trace := [] |}.

(** A computation reads and updates the state and returns or raises; the
    state reached stays visible when it raises. *)
Definition M (A : Type) : Type := state -> result A * state.

Definition ret {A : Type} (a : A) : M A := fun s => (Ok a, s).

Definition raise {A : Type} (e : exn) : M A := fun s => (Raise e, s).

Definition lift {A : Type} (r : result A) : M A := fun s => (r, s).

Definition mbind {A B : Type} (m : M A) (k : A -> M B) : M B :=
  fun s =>
    match m s with
    | (Ok a, s') => k a s'
    | (Raise e, s') => (Raise e, s')
    end.

Notation "x <~ m ;; k" := (mbind m (fun x => k))
  (at level 61, m at next level, right associativity).
Notation "m ;;; k" := (mbind m (fun _ => k))
  (at level 61, right associativity).

Definition get_params : M dict := fun s => (Ok (params s), s).

Definition set_params (p : dict) : M unit :=
  fun s =>
    (Ok tt, {| params := p; results := results s;
               clock_reads := clock_reads s;
               requests_sent := requests_sent s; trace := trace s |}).

Definition get_results : M (list frame) := fun s => (Ok (results s), s).

Definition set_results (r : list frame) : M unit :=
  fun s =>
    (Ok tt, {| params := params s; results := r;
               clock_reads := clock_reads s;
               requests_sent := requests_sent s; trace := trace s |}).

Definition emit (e : event) : M unit :=
  fun s =>
    (Ok tt, {| params := params s; results := results s;
               clock_reads := clock_reads s;
               requests_sent := requests_sent s;
               trace := trace s ++ [e] |}).

(** [datetime.datetime.utcnow()]. *)
Definition read_clock (w : world) : M timestamp :=
  fun s =>
    (Ok (utcnow w (clock_reads s)),
     {| params := params s; results := results s;
        clock_reads := S (clock_reads s);
        requests_sent := requests_sent s;
        trace := trace s ++ [Utcnow (utcnow w (clock_reads s))] |}).

(** [requests.get(query, verify=False)] against the data API. *)
Definition requests_get (w : world) (query : string) : M response :=
  fun s =>
    (Ok (isr_api w (requests_sent s) query),
     {| params := params s; results := results s;
        clock_reads := clock_reads s;
        requests_sent := S (requests_sent s);
        trace := trace s ++ [Get query] |}).

Definition nl : string := String "010"%char "".

(** [d[k]]. *)
Definition dict_getitem (d : dict) (k : string) : result pyval :=
  match dict_get d k with
  | Some v => Ok v
  | None => Raise (KeyError k)
  end.

(** [repr] of a stored value; an array of texts as NumPy shows a short one. *)
Definition pyval_repr (v : pyval) : string :=
  match v with
  | PStr s => repr_str s
  | PArr a => "array([" ++ join ", " (map repr_str a) ++ "], dtype=object)"
  end.

(** Lines 88-90: the message of the [ValueError] raised when the body of a
    reply is not JSON:
<<
    f'Could not receive data from the server at current time: '
    f'{params["start_time"], params["end_time"]}\n{isr_response.content}\n'
    f'Change timedelta in {config_path}'
>> *)
Definition fetch_error_message (start_time end_time : pyval)
           (body : string) (path : string) : string :=
  "Could not receive data from the server at current time: "
  ++ "(" ++ pyval_repr start_time ++ ", " ++ pyval_repr end_time ++ ")"
  ++ nl ++ repr_bytes body ++ nl ++ "Change timedelta in " ++ path.

(** Lines 73-93: one turn of the loop, for the batch [points] at position
    [index]. *)
Definition loop_body (w : world) (cfg : config)
           (index : nat) (points : list string) : M unit :=
  p <~ get_params ;;
  set_params (dict_set p "scada_point" (PArr points)) ;;;
  p <~ get_params ;;
  (if dict_mem p "end_time" then ret tt
   else
     start <~ lift (dict_getitem p "start_time") ;;
     set_params (dict_set p "end_time" start)) ;;;
  p <~ get_params ;;
  let isr_query := (db_api cfg ++ "?" ++ urlencode p)%string in
  emit (Print ("QUERY " ++ decimal (Z.of_nat index + 1) ++ ":" ++ nl
               ++ isr_query ++ nl)) ;;;
  isr_response <~ requests_get w isr_query ;;
  data <~ match json_body isr_response with
          | Some body => lift (json_getitem body "data")
          | None =>
              start <~ lift (dict_getitem p "start_time") ;;
              stop <~ lift (dict_getitem p "end_time") ;;
              raise (ValueError
                       (fetch_error_message start stop
                          (content isr_response) (config_path cfg)))
          end ;;
  table <~ lift (DataFrame w data) ;;
  r <~ get_results ;;
  set_results (r ++ [table]).

(** [for index, points in enumerate(batches)], counting from [index]. *)
Fixpoint for_each {A : Type} (body : nat -> A -> M unit)
         (index : nat) (batches : list A) : M unit :=
  match batches with
  | [] => ret tt
  | points :: rest => body index points ;;; for_each body (S index) rest
  end.

(** ** ResultMerger: [pd.concat(results, axis=1)] *)

Fixpoint labels_eqb (a b : list string) : bool :=
  match a, b with
  | [], [] => true
  | x :: a', y :: b' => String.eqb x y && labels_eqb a' b'
  | _, _ => false
  end.

Fixpoint mem (x : string) (l : list string) : bool :=
  match l with
  | [] => false
  | y :: rest => String.eqb y x || mem x rest
  end.

(** [Index.is_unique]. *)
Fixpoint is_unique (l : list string) : bool :=
  match l with
  | [] => true
  | x :: rest => negb (mem x rest) && is_unique rest
  end.

(** The labels of [l] not yet in [seen], each once, in order of first
    appearance. *)
Fixpoint unseen (seen l : list string) : list string :=
  match l with
  | [] => []
  | x :: rest =>
      if mem x seen then unseen seen rest else x :: unseen (x :: seen) rest
  end.

(** The union of several indexes without sorting. *)
Definition union_indexes (indexes : list (list string)) : list string :=
  unseen [] (concat indexes).

(** [Index.get_loc]: the position of a label. *)
Fixpoint get_loc (l : list string) (x : string) : option nat :=
  match l with
  | [] => None
  | y :: rest =>
      if String.eqb y x then Some O else option_map S (get_loc rest x)
  end.

(** A column read at a label of the frame it belongs to; a label the frame
    does not have gives the missing-value marker. *)
Definition cell_at (old_index : list string) (cells : list cell)
           (label : string) : cell :=
  match get_loc old_index label with
  | Some i => nth i cells None
  | None => None
  end.

(** [reindex]: a column laid out again on another index. *)
Definition reindex (old_index new_index : list string)
           (column : string * list cell) : string * list cell :=
  (fst column, map (cell_at old_index (snd column)) new_index).

(** [pd.concat(objs, axis=1)] with the default outer join: the frames side
    by side, in the order given, on the union of their row labels.  Frames
    with one and the same index are put together as they are; otherwise each
    is reindexed on the union, which pandas refuses when an index holds a
    label twice. *)
Definition pd_concat_axis1 (objs : list frame) : result frame :=
  match objs with
  | [] => Raise (ValueError "No objects to concatenate")
  | first :: _ =>
      if forallb (fun f => labels_eqb (index f) (index first)) objs then
        Ok {| index := index first; index_name := None;
              columns := flat_map columns objs |}
      else if forallb (fun f => is_unique (index f)) objs then
        let joined := union_indexes (map index objs) in
        Ok {| index := joined; index_name := None;
              columns :=
                flat_map (fun f => map (reindex (index f) joined) (columns f))
                         objs |}
      else
        Raise (InvalidIndexError
                 "Reindexing only valid with uniquely valued Index objects")
  end.

(** The cell of a frame at a row label and a column position. *)
Definition loc (t : frame) (label : string) (j : nat) : option cell :=
  match nth_error (columns t) j with
  | Some column =>
      if mem label (index t)
      then Some (cell_at (index t) (snd column) label)
      else None
  | None => None
  end.

(** The number of columns of the frames before position [i]. *)
Definition columns_before (objs : list frame) (i : nat) : nat :=
  length (flat_map columns (firstn i objs)).

(** ** Timestamps as text: [pd.to_datetime] on ISO-8601 labels *)

Definition digit_value (c : ascii) : option Z :=
  let n := Z.of_N (N_of_ascii c) in
  if (48 <=? n) && (n <=? 57) then Some (n - 48) else None.

Definition two_digits (a b : ascii) : option Z :=
  match digit_value a, digit_value b with
  | Some x, Some y => Some (10 * x + y)
  | _, _ => None
  end.

Definition four_digits (a b c d : ascii) : option Z :=
  match two_digits a b, two_digits c d with
  | Some x, Some y => Some (100 * x + y)
  | _, _ => None
  end.

(** *** The labels read here

    [pd.to_datetime] reads far more texts than this file spells out: it
    guesses a format from the first label with [dateutil] and falls back to
    [dateutil] for each label when it finds none.  What is modelled is the
    case every release of pandas from 1.x to 2.x treats alike: an index of
    ISO-8601 labels that all have one shape,
<<
    YYYY-MM-DD  T or blank  hh:mm:ss  [.f to .ffffff]  [Z | +hh | +hhmm | +hh:mm]
>>
    with the same separator, the same number of digits in the fraction, and
    the same kind of zone designator.  On any other index [to_datetime]
    answers [None], and what lines 98 to 100 make of it is left to the world
    ([normalize_other]). *)

(** The kind of zone designator a label ends in. *)
Inductive zone_form : Type :=
| NoZone
| ZuluZone
| HourZone
| HourMinuteZone
| ColonZone.

(** The shape of a label: the character between date and time, the number
    of digits of the fraction (none for a label without fraction), and the
    kind of zone designator. *)
Record iso_shape : Type := {
  separator : ascii;
  fraction_width : nat;
  zone : zone_form
}.

Definition zone_form_eqb (a b : zone_form) : bool :=
  match a, b with
  | NoZone, NoZone | ZuluZone, ZuluZone | HourZone, HourZone
  | HourMinuteZone, HourMinuteZone | ColonZone, ColonZone => true
  | _, _ => false
  end.

Definition iso_shape_eqb (a b : iso_shape) : bool :=
  Ascii.eqb (separator a) (separator b)
  && Nat.eqb (fraction_width a) (fraction_width b)
  && zone_form_eqb (zone a) (zone b).

(** Up to [n] digits of a fraction of a second, read as a number of [n]
    digits: a digit that is not written counts as zero.  The ISO parser of
    pandas reads the microseconds so, in six turns of a loop that multiplies
    by ten and adds the next digit if there is one.  The value, the number
    of digits read, and what is left of the text. *)
Fixpoint fraction_digits (n : nat) (l : list ascii) : Z * nat * list ascii :=
  match n with
  | O => (0, O, l)
  | S n' =>
      match l with
      | c :: rest =>
          match digit_value c with
          | Some d =>
              let '(v, k, rest') := fraction_digits n' rest in
              (d * 10 ^ Z.of_nat n' + v, S k, rest')
          | None => (0, O, l)
          end
      | [] => (0, O, [])
      end
  end.

(** The fraction of a second after the seconds, in microseconds, and the
    number of its digits: a point and one to six digits, or nothing.  A point
    with no digit after it, or a seventh digit, is outside the shapes read
    here. *)
Definition parse_fraction (l : list ascii) : option (Z * nat * list ascii) :=
  match l with
  | c :: d :: rest =>
      if Ascii.eqb c "." then
        match digit_value d with
        | Some _ =>
            let '(us, k, rest') := fraction_digits 6 (d :: rest) in
            match rest' with
            | e :: _ =>
                match digit_value e with
                | Some _ => None
                | None => Some (us, k, rest')
                end
            | [] => Some (us, k, rest')
            end
        | None => None
        end
      else Some (0, O, l)
  | _ => Some (0, O, l)
  end.

(** The sign of an offset: [+] or [-]. *)
Definition offset_sign (c : ascii) : option Z :=
  if Ascii.eqb c "+" then Some 1
  else if Ascii.eqb c "-" then Some (-1)
  else None.

(** An offset of [h] hours and [m] minutes, in seconds; the hours stay below
    24 and the minutes below 60. *)
Definition offset_seconds (sg : ascii) (h m : option Z) : option Z :=
  match offset_sign sg, h, m with
  | Some sign, Some h, Some m =>
      if (h <=? 23) && (m <=? 59) then Some (sign * (h * 3600 + m * 60))
      else None
  | _, _, _ => None
  end.

(** The designator of the offset from UTC, in seconds, and its kind: none,
    [Z], [+hh], [+hhmm] or [+hh:mm], the sign being [+] or [-]. *)
Definition parse_offset (l : list ascii) : option (option Z * zone_form) :=
  match l with
  | [] => Some (None, NoZone)
  | [c] => if Ascii.eqb c "Z" then Some (Some 0, ZuluZone) else None
  | [sg; h1; h2] =>
      option_map (fun off => (Some off, HourZone))
                 (offset_seconds sg (two_digits h1 h2) (Some 0))
  | [sg; h1; h2; m1; m2] =>
      option_map (fun off => (Some off, HourMinuteZone))
                 (offset_seconds sg (two_digits h1 h2) (two_digits m1 m2))
  | [sg; h1; h2; colon; m1; m2] =>
      if Ascii.eqb colon ":" then
        option_map (fun off => (Some off, ColonZone))
                   (offset_seconds sg (two_digits h1 h2) (two_digits m1 m2))
      else None
  | _ => None
  end.

(** A label read as a time: the wall-clock reading it shows, the offset
    from UTC it states, if any, and its shape. *)
Record parsed_time : Type := {
  wall : timestamp;
  utcoffset : option Z;
  shape : iso_shape
}.

(** The wall-clock reading of a civil date and time of day. *)
Definition timestamp_of_civil (y m d hh mi ss : Z) : timestamp :=
  (days_from_civil y m d * seconds_per_day + hh * 3600 + mi * 60 + ss)
  * us_per_second.

(** [YYYY-MM-DD], [T] or a space, [hh:mm:ss], an optional fraction, an
    optional offset; the date and the time of day must exist. *)
Definition parse_iso (label : string) : option parsed_time :=
  match list_ascii_of_string label with
  | y1 :: y2 :: y3 :: y4 :: c1 :: m1 :: m2 :: c2 :: d1 :: d2 :: sep
    :: h1 :: h2 :: c3 :: i1 :: i2 :: c4 :: s1 :: s2 :: rest =>
      match four_digits y1 y2 y3 y4, two_digits m1 m2, two_digits d1 d2,
            two_digits h1 h2, two_digits i1 i2, two_digits s1 s2 with
      | Some y, Some m, Some d, Some hh, Some mi, Some ss =>
          if Ascii.eqb c1 "-" && Ascii.eqb c2 "-"
             && (Ascii.eqb sep "T" || Ascii.eqb sep " ")
             && Ascii.eqb c3 ":" && Ascii.eqb c4 ":"
             && (1 <=? y) && (1 <=? m) && (m <=? 12)
             && (1 <=? d) && (d <=? days_in_month y m)
             && (hh <=? 23) && (mi <=? 59) && (ss <=? 59)
          then
            match parse_fraction rest with
            | Some (us, width, rest') =>
                match parse_offset rest' with
                | Some (off, z) =>
                    Some {| wall := timestamp_of_civil y m d hh mi ss + us;
                            utcoffset := off;
                            shape := {| separator := sep;
                                        fraction_width := width;
                                        zone := z |} |}
                | None => None
                end
            | None => None
            end
          else None
      | _, _, _, _, _, _ => None
      end
  | _ => None
  end.

(** What [pd.to_datetime] makes of an index of labels: a [DatetimeIndex] of
    instants, without time zone or with a fixed offset as its time zone, or
    an [Index] of dtype [object] holding one [Timestamp] a label. *)
Inductive datetimes : Type :=
| DatetimeIndex (values : list timestamp) (tz : option Z)
| ObjectIndex.

Fixpoint parse_all (labels : list string) : option (list parsed_time) :=
  match labels with
  | [] => Some []
  | l :: rest =>
      match parse_iso l, parse_all rest with
      | Some p, Some ps => Some (p :: ps)
      | _, _ => None
      end
  end.

Definition option_Z_eqb (a b : option Z) : bool :=
  match a, b with
  | Some x, Some y => x =? y
  | None, None => true
  | _, _ => false
  end.

(** The instants a [datetime64[ns]] value can hold, in microseconds:
    1677-09-21T00:12:43.145225 to 2262-04-11T23:47:16.854775. *)
Definition ns_min : timestamp := -9223372036854775.
Definition ns_max : timestamp := 9223372036854775.

Definition in_ns_bounds (t : timestamp) : bool :=
  (ns_min <=? t) && (t <=? ns_max).

(** The instant a label denotes: its wall-clock reading less its offset. *)
Definition utc_instant (p : parsed_time) : timestamp :=
  match utcoffset p with
  | Some off => wall p - off * us_per_second
  | None => wall p
  end.

(** [pd.to_datetime(index)] on labels of one shape, [None] on any other
    index.  An empty index gives an empty index without time zone.  A
    wall-clock reading outside the nanosecond range raises
    [OutOfBoundsDatetime].  Labels without offset give an index without time
    zone; labels that all state the same offset give an index of UTC
    instants with that offset as its time zone; labels whose offsets differ
    give no [DatetimeIndex].  Where an instant, not the reading, leaves the
    nanosecond range the outcome is not modelled. *)
Definition to_datetime (labels : list string) : option (result datetimes) :=
  match labels with
  | [] => Some (Ok (DatetimeIndex [] None))
  | _ :: _ =>
      match parse_all labels with
      | Some (p :: ps) =>
          if forallb (fun q => iso_shape_eqb (shape q) (shape p)) ps then
            if forallb (fun q => in_ns_bounds (wall q)) (p :: ps) then
              match utcoffset p with
              | None => Some (Ok (DatetimeIndex (map wall (p :: ps)) None))
              | Some off =>
                  if forallb (fun q => in_ns_bounds (utc_instant q)) (p :: ps)
                  then
                    if forallb (fun q => option_Z_eqb (utcoffset q) (Some off))
                               ps
                    then Some (Ok (DatetimeIndex (map utc_instant (p :: ps))
                                                 (Some off)))
                    else Some (Ok ObjectIndex)
                  else None
              end
            else Some (Raise OutOfBoundsDatetime)
          else None
      | _ => None
      end
  end.

(** [.tz_convert("Europe/Tallinn")]: the instants stay, the zone changes; an
    index without time zone cannot be converted. *)
Definition tz_convert (d : datetimes) : result (list timestamp) :=
  match d with
  | DatetimeIndex values (Some _) => Ok values
  | DatetimeIndex _ None =>
      Raise (TypeError
               "Cannot convert tz-naive timestamps, use tz_localize to localize")
  | ObjectIndex =>
      Raise (AttributeError "'Index' object has no attribute 'tz_convert'")
  end.

(** [.tz_localize(None)] after the conversion: the wall-clock reading in
    the zone, the offset left out. *)
Definition tz_localize_none (w : world) (utc : timestamp) : timestamp :=
  utc + tz_utcoffset w (utc / us_per_second) * us_per_second.

(** The table with its index replaced and named, lines 98 to 102. *)
Definition with_index (endresult : frame) (labels : list string) : frame :=
  {| index := labels;
     index_name := Some "Europe/Tallinn";
     columns := columns endresult |}.

(** Lines 98-102.  On labels of one shape the index is read, moved to the
    zone, stripped of the zone and written as text to the second; a local
    reading outside the nanosecond range, like an index of any other
    labels, is left to the world. *)
Definition normalize_index (w : world) (endresult : frame) : result frame :=
  let other :=
    labels <- normalize_other w (index endresult) ;;
    Ok (with_index endresult labels) in
  match to_datetime (index endresult) with
  | Some r =>
      parsed <- r ;;
      utc <- tz_convert parsed ;;
      let local := map (tz_localize_none w) utc in
      if forallb in_ns_bounds local
      then Ok (with_index endresult (map isoformat_seconds local))
      else other
  | None => other
  end.

(** [str(pd.to_datetime(t.isoformat(timespec='seconds')))]: date and time
    of day with a space between. *)
Definition timestamp_str (t : timestamp) : string :=
  let secs := t / us_per_second in
  let '(y, m, d) := civil_from_days (secs / seconds_per_day) in
  iso_text " " y m d (secs mod seconds_per_day).

(** Lines 106-119: the upload and the last two lines of output.  The time
    in the commit message is written as line 114 writes it for a reading of
    the clock inside the nanosecond range of pandas ([commit_time_text]). *)
Definition upload (w : world) (cfg : config) (endresult : frame) : M unit :=
  now <~ read_clock w ;;
  emit (Put (url cfg ++ "projects/" ++ project_id cfg ++ "/repository/files/"
             ++ quote_plus (upload_path cfg))
            (branch cfg)
            ("Automatic upload at: " ++ timestamp_str now ++ " UTC")
            endresult) ;;;
  match json_body (gitlab_put w) with
  | None => raise (JSONDecodeError (content (gitlab_put w)))
  | Some reply => emit (PrintJson reply) ;;; emit (Print "Done!")
  end.

(** Lines 96-119: the merge, the normalisation of the index and the
    upload. *)
Definition merge_and_upload (w : world) (cfg : config) : M unit :=
  fetched <~ get_results ;;
  endresult <~ lift (pd_concat_axis1 fetched) ;;
  endresult <~ lift (normalize_index w endresult) ;;
  emit (PrintFrame endresult) ;;;
  upload w cfg endresult.

(** Lines 56-119: the script from the decoded source file on. *)
Definition main (w : world) (cfg : config) (df : csv_frame) : M unit :=
  points <~ lift (requested_points df) ;;
  batches <~ lift (sliced_requests points (chunk_size cfg)) ;;
  emit (Print ("Number of requests: "
               ++ decimal (Z.of_nat (length batches)))) ;;;
  now <~ read_clock w ;;
  set_params [("start_time", PStr (start_time_text now (timedelta cfg)))] ;;;
  set_results [] ;;;
  for_each (loop_body w cfg) 0 batches ;;;
  merge_and_upload w cfg.

Definition run (w : world) (cfg : config) (df : csv_frame)
  : result unit * state :=
  main w cfg df initial_state.

(** ** Text shapes and specification-level views of the run *)

Definition is_digit (c : ascii) : bool :=
  match digit_value c with
  | Some _ => true
  | None => false
  end.

(** Exactly [DDDD-DD-DDTDD:DD:DD]: ISO-8601 to the second, with no fraction
    of a second and no offset after it. *)
Definition iso_seconds_shape (s : string) : bool :=
  match list_ascii_of_string s with
  | [y1; y2; y3; y4; c1; m1; m2; c2; d1; d2; sep; h1; h2; c3; i1; i2; c4;
     s1; s2] =>
      is_digit y1 && is_digit y2 && is_digit y3 && is_digit y4
      && Ascii.eqb c1 "-" && is_digit m1 && is_digit m2
      && Ascii.eqb c2 "-" && is_digit d1 && is_digit d2
      && Ascii.eqb sep "T" && is_digit h1 && is_digit h2
      && Ascii.eqb c3 ":" && is_digit i1 && is_digit i2
      && Ascii.eqb c4 ":" && is_digit s1 && is_digit s2
  | _ => false
  end.

(** [needle] occurs in [text]. *)
Definition includes (needle text : string) : Prop :=
  exists before after : string, text = (before ++ needle ++ after)%string.

(** The [params] of a query for the window text [T] and a batch. *)
Definition window_params (T : string) (points : list string) : dict :=
  [("start_time", PStr T); ("scada_point", PArr points); ("end_time", PStr T)].

(** The query string for the window text [T] and a batch. *)
Definition query_for (cfg : config) (T : string) (points : list string)
  : string :=
  db_api cfg ++ "?" ++ urlencode (window_params T points).

(** The diagnostic line printed before a query. *)
Definition query_line (index : nat) (query : string) : string :=
  "QUERY " ++ decimal (Z.of_nat index + 1) ++ ":" ++ nl ++ query ++ nl.

(** Lines 84-93 for the [k]-th request of a run whose window text is [T]:
    the table the batch yields, or the exception that ends the run. *)
Definition outcome (w : world) (cfg : config) (T : string) (k : nat)
           (points : list string) : result frame :=
  let isr_response := isr_api w k (query_for cfg T points) in
  match json_body isr_response with
  | Some body =>
      data <- json_getitem body "data" ;;
      DataFrame w data
  | None =>
      Raise (ValueError
               (fetch_error_message (PStr T) (PStr T)
                  (content isr_response) (config_path cfg)))
  end.

(** The events of the dispatches for the batches, numbered from [index]. *)
Fixpoint dispatch_events (cfg : config) (T : string) (index : nat)
         (batches : list (list string)) : list event :=
  match batches with
  | [] => []
  | points :: rest =>
      Print (query_line index (query_for cfg T points))
      :: Get (query_for cfg T points)
      :: dispatch_events cfg T (S index) rest
  end.

(** The outcomes of the batches in turn, the [k]-th request first: the
    tables of the batches before the first failure, and that failure. *)
Fixpoint outcomes (w : world) (cfg : config) (T : string) (k : nat)
         (batches : list (list string)) : list frame * option exn :=
  match batches with
  | [] => ([], None)
  | points :: rest =>
      match outcome w cfg T k points with
      | Ok table =>
          let '(tables, failure) := outcomes w cfg T (S k) rest in
          (table :: tables, failure)
      | Raise e => ([], Some e)
      end
  end.

Definition is_get (e : event) : bool :=
  match e with
  | Get _ => true
  | _ => false
  end.

Definition is_put (e : event) : bool :=
  match e with
  | Put _ _ _ _ => true
  | _ => false
  end.

Definition is_print_frame (e : event) : bool :=
  match e with
  | PrintFrame _ => true
  | _ => false
  end.

(** [str(e)] as far as the script's errors go; for [OutOfBoundsDatetime]
    the words the message starts with. *)
Definition exn_text (e : exn) : string :=
  match e with
  | ValueError msg => msg
  | KeyError key => repr_str key
  | TypeError msg => msg
  | AttributeError msg => msg
  | InvalidIndexError msg => msg
  | JSONDecodeError doc => doc
  | ZeroDivisionError => "division by zero"
  | OutOfBoundsDatetime => "Out of bounds nanosecond timestamp"
  end.

(** For each query of a trace, in order: the number of clock readings
    made before it, and the query. *)
Fixpoint readings_before_queries (seen : nat) (tr : list event)
  : list (nat * string) :=
  match tr with
  | [] => []
  | Utcnow _ :: rest => readings_before_queries (S seen) rest
  | Get query :: rest => (seen, query) :: readings_before_queries seen rest
  | _ :: rest => readings_before_queries seen rest
  end.

(** The number of batches a run dispatched, given the outcomes. *)
Definition dispatched (o : list frame * option exn) : nat :=
  match snd o with
  | Some _ => S (length (fst o))
  | None => length (fst o)
  end.

(** What the loop may rely on about [params]: the window text is in place,
    under [start_time] alone before the first turn, under both keys after. *)
Definition window_ready (T : string) (p : dict) : Prop :=
  p = [("start_time", PStr T)] \/ exists points, p = window_params T points.

(** ** A sample run

    Five identifiers, batches of two; a data API that answers every query
    with a one-column table over two rows, and variants of it that fail. *)

Definition sample_df : csv_frame :=
  [("FromMwAnalogPointRef",
    [S754_finite false 101 0; S754_finite false 102 0; S754_nan;
     S754_finite false 103 0; S754_finite false 104 0;
     S754_finite false 105 0])].

Definition sample_cfg : config :=
  {| url := "https://gitlab.local/api/v4/";
     project_id := "7";
     source_path := "in/points.csv";
     upload_path := "out/data.csv";
     branch := "main";
     private_token := "token";
     ssl_verify := false;
     chunk_size := 2;
     timedelta := 5;
     db_api := "https://isr.local/api";
     config_path := "settings.cfg" |}.

Definition sample_table (name : string) : frame :=
  {| index := ["2024-01-15T10:00:00+02:00"; "2024-01-15T10:05:00+02:00"];
     index_name := None;
     columns := [(name, [Some (JNumber (S754_finite false 1 0));
                         Some (JNumber (S754_finite false 2 0))])] |}.

Definition sample_reply (query : string) : response :=
  {| content := "{...}";
     json_body := Some (JObject [("data", JString query)]) |}.

(** A world whose data API gives [reply k query] to the [k]-th request. *)
Definition sample_world (reply : nat -> string -> response) : world :=
  {| utcnow := fun k => 1705313280000000 + Z.of_nat k * 7000000;
     isr_api := reply;
     DataFrame := fun data =>
       match data with
       | JString name => Ok (sample_table name)
       | _ => Raise (ValueError "DataFrame constructor not properly called!")
       end;
     tz_utcoffset := fun _ => 7200;
     normalize_other := fun _ =>
       Raise (ValueError "Unknown datetime string format");
     gitlab_put := {| content := "{}"; json_body := Some (JObject []) |} |}.

Definition world_ok : world := sample_world (fun _ => sample_reply).

Definition not_json : response :=
  {| content := "<html>Bad Gateway</html>"; json_body := None |}.

(** The request number [j] gets a body that is not JSON. *)
Definition world_bad_body (j : nat) : world :=
  sample_world (fun k query => if Nat.eqb k j then not_json
                               else sample_reply query).

(** The request number [j] gets JSON without a [data] member. *)
Definition world_no_data (j : nat) : world :=
  sample_world
    (fun k query =>
       if Nat.eqb k j
       then {| content := "{}"; json_body := Some (JObject []) |}
       else sample_reply query).

(** The run ends with the exception [e] after the queries of the batches up
    to position [j], with no merged table shown and nothing uploaded. *)
Definition aborts_after (w : world) (cfg : config) (df : csv_frame)
           (batches : list (list string)) (j : nat) (e : exn) : Prop :=
  exists s,
    run w cfg df = (Raise e, s)
    /\ filter is_get (trace s)
       = map (fun points =>
                Get (query_for cfg
                       (start_time_text (utcnow w 0) (timedelta cfg)) points))
             (firstn (S j) batches)
    /\ forallb (fun ev => negb (is_put ev) && negb (is_print_frame ev))
               (trace s) = true.

(** What lines 98-100 make of one label that states its offset: the
    wall-clock reading in Europe/Tallinn of the instant it denotes. *)
Definition localized_text (w : world) (label : string) : option string :=
  match parse_iso label with
  | Some p =>
      match utcoffset p with
      | Some _ =>
          Some (isoformat_seconds (tz_localize_none w (utc_instant p)))
      | None => None
      end
  | None => None
  end.

(** The date and the time of day a label shows, to the second, with [T]
    between them: the label with its fraction and its offset cut off. *)
Definition wall_clock_text (label : string) : string :=
  substring 0 10 label ++ "T" ++ substring 11 8 label.

(** ** Views of texts used by the further properties *)

(** Every character of [s] satisfies [p]. *)
Fixpoint string_forall (p : ascii -> bool) (s : string) : bool :=
  match s with
  | EmptyString => true
  | String c rest => p c && string_forall p rest
  end.

(** The number of occurrences of a character. *)
Fixpoint count_char (c : ascii) (s : string) : nat :=
  match s with
  | EmptyString => O
  | String c' rest =>
      if Ascii.eqb c' c then S (count_char c rest) else count_char c rest
  end.

(** The characters [quote_plus] can write. *)
Definition is_quoted_char (c : ascii) : bool :=
  is_unreserved c || Ascii.eqb c "+" || Ascii.eqb c "%".

Definition hex_value (c : ascii) : N :=
  let n := N_of_ascii c in
  if (n <? 58)%N then (n - 48)%N else (n - 55)%N.

(** [urllib.parse.unquote_plus] on what [quote_plus] writes: the reading a
    server makes of a quoted value. *)
Fixpoint unquote_plus (s : string) : string :=
  match s with
  | EmptyString => ""
  | String c rest =>
      if Ascii.eqb c "+" then String " " (unquote_plus rest)
      else if Ascii.eqb c "%" then
        match rest with
        | String h1 (String h2 rest') =>
            String (ascii_of_N (16 * hex_value h1 + hex_value h2))
                   (unquote_plus rest')
        | _ => String c (unquote_plus rest)
        end
      else String c (unquote_plus rest)
  end.

(** Lines 106-116: the request that uploads the table, made after [reads]
    readings of the clock. *)
Definition upload_event (w : world) (cfg : config) (reads : nat)
           (endresult : frame) : event :=
  Put (url cfg ++ "projects/" ++ project_id cfg ++ "/repository/files/"
       ++ quote_plus (upload_path cfg))
      (branch cfg)
      ("Automatic upload at: " ++ timestamp_str (utcnow w reads) ++ " UTC")
      endresult.

(** [+hh:mm] or [-hh:mm], as [str] shows the offset of a [Timestamp] with a
    time zone. *)
Definition offset_text (off : Z) : string :=
  (if off <? 0 then "-" else "+")
  ++ pad2 (Z.abs off / 3600) ++ ":" ++ pad2 (Z.abs off mod 3600 / 60).

(** Line 114, the time in the commit message:
    [pd.to_datetime(datetime.datetime.utcnow().isoformat(timespec='seconds'))]
    as the f-string shows it.  The reading of the clock is written as text,
    read back by [pd.to_datetime], which raises [OutOfBoundsDatetime] outside
    the nanosecond range, and written again by [str].  The text of a
    [datetime] always reads back and states no offset
    ([isoformat_seconds_reads_back]); the other two branches are for
    numbers that are no [datetime]. *)
Definition commit_time_text (now : timestamp) : result string :=
  match parse_iso (isoformat_seconds now) with
  | Some p =>
      if in_ns_bounds (wall p) then
        match utcoffset p with
        | None => Ok (timestamp_str (wall p))
        | Some off => Ok (timestamp_str (wall p) ++ offset_text off)%string
        end
      else Raise OutOfBoundsDatetime
  | None => Raise (ValueError "Unknown datetime string format")
  end.

Definition is_printable (c : ascii) : bool :=
  ((32 <=? N_of_ascii c) && (N_of_ascii c <=? 126))%N.

(** ** The source file: [base64.b64decode] (line 54) *)

(** [table_a2b_base64]: the value of a character of the base64 alphabet,
    none for any other character. *)
Definition b64_value (c : ascii) : option Z :=
  let n := Z.of_N (N_of_ascii c) in
  if (65 <=? n) && (n <=? 90) then Some (n - 65)
  else if (97 <=? n) && (n <=? 122) then Some (n - 71)
  else if (48 <=? n) && (n <=? 57) then Some (n + 4)
  else if n =? 43 then Some 62
  else if n =? 47 then Some 63
  else None.

(** A value stored into an [unsigned char]. *)
Definition byte_of (x : Z) : ascii := ascii_of_N (Z.to_N (Z.land x 255)).

(** One more byte in front of what the rest of the input decodes to; an
    error of the rest is the error of the whole. *)
Definition cons_byte (b : ascii) (r : result string) : result string :=
  match r with
  | Ok s => Ok (String b s)
  | Raise e => Raise e
  end.

(** [binascii.a2b_base64] without strict mode, from the state of its loop:
    the position in the group of four, the bits left over from the last
    character, the padding characters seen in a row, and the number of bytes
    written.  A padding character ends the data once it completes a group;
    any character outside the alphabet is passed over.
<<
    if (this_ch == BASE64_PAD) {
        if (quad_pos >= 2 && quad_pos + ++pads >= 4) goto done;
        continue;
    }
    this_ch = table_a2b_base64[this_ch];
    if (this_ch >= 64) continue;
    pads = 0;
    switch (quad_pos) {
    case 0: quad_pos = 1; leftchar = this_ch; break;
    case 1: quad_pos = 2;
            *bin_data++ = (leftchar << 2) | (this_ch >> 4);
            leftchar = this_ch & 0x0f; break;
    case 2: quad_pos = 3;
            *bin_data++ = (leftchar << 4) | (this_ch >> 2);
            leftchar = this_ch & 0x03; break;
    case 3: quad_pos = 0;
            *bin_data++ = (leftchar << 6) | (this_ch);
            leftchar = 0; break;
    }
>>
    [binascii.Error] is a [ValueError]. *)
Fixpoint a2b_base64 (s : string) (quad_pos leftchar pads written : Z)
  : result string :=
  match s with
  | EmptyString =>
      if quad_pos =? 0 then Ok ""
      else if quad_pos =? 1 then
        Raise (ValueError
                 ("Invalid base64-encoded string: number of data characters ("
                  ++ decimal (written / 3 * 4 + 1)
                  ++ ") cannot be 1 more than a multiple of 4"))
      else Raise (ValueError "Incorrect padding")
  | String c rest =>
      if Ascii.eqb c "=" then
        if (2 <=? quad_pos) && (4 <=? quad_pos + (pads + 1)) then Ok ""
        else a2b_base64 rest quad_pos leftchar
                        (if 2 <=? quad_pos then pads + 1 else pads) written
      else
        match b64_value c with
        | None => a2b_base64 rest quad_pos leftchar pads written
        | Some this_ch =>
            if quad_pos =? 0 then a2b_base64 rest 1 this_ch 0 written
            else if quad_pos =? 1 then
              cons_byte
                (byte_of (Z.lor (Z.shiftl leftchar 2) (Z.shiftr this_ch 4)))
                (a2b_base64 rest 2 (Z.land this_ch 15) 0 (written + 1))
            else if quad_pos =? 2 then
              cons_byte
                (byte_of (Z.lor (Z.shiftl leftchar 4) (Z.shiftr this_ch 2)))
                (a2b_base64 rest 3 (Z.land this_ch 3) 0 (written + 1))
            else
              cons_byte
                (byte_of (Z.lor (Z.shiftl leftchar 6) this_ch))
                (a2b_base64 rest 0 0 0 (written + 1))
        end
  end.

Definition is_ascii (c : ascii) : bool := (N_of_ascii c <? 128)%N.

(** [base64.b64decode(s)] for a text [s]: the text must be ASCII. *)
Definition b64decode (s : string) : result string :=
  if string_forall is_ascii s then a2b_base64 s 0 0 0 0
  else Raise (ValueError "string argument should contain only ASCII characters").

(** The character of the base64 alphabet for a value below 64. *)
Definition b64_char (v : Z) : ascii :=
  ascii_of_N
    (Z.to_N (if v <? 26 then v + 65
             else if v <? 52 then v + 71
             else if v <? 62 then v - 4
             else if v =? 62 then 43 else 47)).

Definition byte_value (c : ascii) : Z := Z.of_N (N_of_ascii c).

(** Standard base64 (RFC 4648), which the file store applies to the file:
    three bytes become four characters, and the last one or two bytes are
    padded with [=]. *)
Fixpoint b64encode_bytes (data : list ascii) : string :=
  match data with
  | [] => ""
  | [a] =>
      let x := byte_value a in
      String (b64_char (x / 4)) (String (b64_char (x mod 4 * 16)) "==")
  | [a; b] =>
      let x := byte_value a in
      let y := byte_value b in
      String (b64_char (x / 4))
        (String (b64_char (x mod 4 * 16 + y / 16))
           (String (b64_char (y mod 16 * 4)) "="))
  | a :: b :: c :: rest =>
      let x := byte_value a in
      let y := byte_value b in
      let z := byte_value c in
      String (b64_char (x / 4))
        (String (b64_char (x mod 4 * 16 + y / 16))
           (String (b64_char (y mod 16 * 4 + z / 64))
              (String (b64_char (z mod 64)) (b64encode_bytes rest))))
  end.

Definition b64encode (data : string) : string :=
  b64encode_bytes (list_ascii_of_string data).

(** The characters the decoder does not pass over. *)
Definition is_b64_char (c : ascii) : bool :=
  Ascii.eqb c "="
  || match b64_value c with
     | Some _ => true
     | None => false
     end.

Fixpoint string_filter (p : ascii -> bool) (s : string) : string :=
  match s with
  | EmptyString => ""
  | String c rest =>
      if p c then String c (string_filter p rest) else string_filter p rest
  end.

(** * Properties *)

(** ** Chunker *)

Section ChunkerFacts.
Context {A : Type}.
Implicit Types (l ary : list A) (n st : Z).

Lemma map_adjacent_sub_arys ary (pts : list Z) :
  forall st,
    map (fun i => py_slice ary (nth i (st :: pts) 0) (nth (S i) (st :: pts) 0))
        (seq 0 (length pts))
    = sub_arys ary st pts.
Proof.
  induction pts as [|en rest IH]; intros st; [reflexivity|].
  cbn [length seq map sub_arys]. f_equal.
  rewrite <- seq_shift, map_map. apply IH.
Qed.

Lemma array_split_sub_arys ary (indices : list Z) :
  array_split ary indices
  = sub_arys ary 0 (indices ++ [Z.of_nat (length ary)]).
Proof.
  unfold array_split.
  replace (S (length indices))
    with (length (indices ++ [Z.of_nat (length ary)]))
    by (rewrite length_app; simpl; lia).
  apply map_adjacent_sub_arys.
Qed.

Lemma py_slice_inner l st en :
  0 <= st -> st <= en -> en <= Z.of_nat (length l) ->
  py_slice l st en
  = firstn (Z.to_nat (en - st)) (skipn (Z.to_nat st) l).
Proof.
  intros Hs Hse He. unfold py_slice, clamp_index.
  destruct (Z.ltb_spec st 0); [lia|].
  destruct (Z.ltb_spec en 0); [lia|].
  rewrite !Z.min_l by lia. reflexivity.
Qed.

Lemma py_slice_tail l st :
  0 <= st -> st <= Z.of_nat (length l) ->
  py_slice l st (Z.of_nat (length l)) = skipn (Z.to_nat st) l.
Proof.
  intros Hs He. rewrite py_slice_inner by lia.
  apply firstn_all2. rewrite length_skipn. lia.
Qed.

Lemma py_slice_step l st n :
  0 <= st -> 0 <= n ->
  skipn (Z.to_nat st) l
  = firstn (Z.to_nat n) (skipn (Z.to_nat st) l)
    ++ skipn (Z.to_nat (st + n)) l.
Proof.
  intros Hs Hn.
  replace (Z.to_nat (st + n)) with (Z.to_nat n + Z.to_nat st)%nat by lia.
  rewrite <- skipn_skipn. symmetry. apply firstn_skipn.
Qed.

(** The chunks from offset [st] on, when [k] full steps of [n] still fit
    strictly before the end of the list. *)
Lemma sub_arys_arange l n :
  0 < n ->
  forall (k : nat) st,
    0 <= st ->
    st + n * Z.of_nat k < Z.of_nat (length l) ->
    Z.of_nat (length l) <= st + n * (Z.of_nat k + 1) ->
    let bs := sub_arys l st (arange_from k (st + n) n
                             ++ [Z.of_nat (length l)]) in
    concat bs = skipn (Z.to_nat st) l
    /\ Forall (fun b => 0 < Z.of_nat (length b) <= n) bs
    /\ (length (short_batches n bs) <= 1)%nat
    /\ length bs = S k.
Proof.
  intros Hn. induction k as [|k IH]; intros st Hst Hlo Hhi; cbn zeta.
  - cbn [arange_from List.app sub_arys concat].
    rewrite py_slice_tail by lia. rewrite app_nil_r.
    assert (Hlen : Z.of_nat (length (skipn (Z.to_nat st) l))
                   = Z.of_nat (length l) - st)
      by (rewrite length_skipn; lia).
    repeat split.
    + constructor; [lia | constructor].
    + unfold short_batches. cbn [filter].
      destruct (_ <? _); simpl; lia.
  - cbn [arange_from List.app sub_arys concat].
    destruct (IH (st + n)) as (Hcat & Hall & Hshort & Hcount);
      [lia | lia | lia |].
    replace (st + n + n) with (st + n + n) in * by lia.
    rewrite py_slice_inner by lia.
    replace (st + n - st) with n by lia.
    assert (Hfull : Z.of_nat (length (firstn (Z.to_nat n)
                                        (skipn (Z.to_nat st) l))) = n).
    { rewrite length_firstn, length_skipn. lia. }
    repeat split.
    + rewrite Hcat. symmetry. apply py_slice_step; lia.
    + constructor; [lia | exact Hall].
    + unfold short_batches in *. cbn [filter]. rewrite Hfull.
      rewrite Z.ltb_irrefl. exact Hshort.
    + simpl. rewrite Hcount. reflexivity.
Qed.

Lemma arange_steps n len :
  0 < n -> 0 < len ->
  let k := Z.to_nat (ceil_div (len - n) n) in
  n * Z.of_nat k < len /\ len <= n * (Z.of_nat k + 1).
Proof.
  intros Hn Hlen. cbn zeta. unfold ceil_div.
  pose proof (Z.div_mod (- (len - n)) n ltac:(lia)) as Hdm.
  pose proof (Z.mod_pos_bound (- (len - n)) n Hn) as Hmod.
  destruct (Z_le_gt_dec len n) as [Hle|Hgt].
  - assert (- (len - n) / n = 0) as -> by (apply Z.div_small; lia).
    simpl. lia.
  - assert (- (len - n) / n < 0) by (apply Z.div_lt_upper_bound; lia).
    rewrite Z2Nat.id by lia. nia.
Qed.

End ChunkerFacts.

(** C1.  For a non-empty identifier list [L] and a chunk size [n > 0] the
    chunker returns batches whose concatenation in order is [L]; every batch
    is non-empty and has at most [n] entries; at most one batch has fewer than
    [n]; and when [n >= |L|] the result is the single batch [L]. *)
Theorem chunker_partitions (L : list string) (n : Z) :
  L <> [] -> 0 < n ->
  exists batches,
    sliced_requests L n = Ok batches
    /\ concat batches = L
    /\ Forall (fun b => 0 < Z.of_nat (length b) <= n) batches
    /\ (length (short_batches n batches) <= 1)%nat
    /\ (Z.of_nat (length L) <= n -> batches = [L]).
Proof.
  intros HL Hn.
  assert (Hlen : 0 < Z.of_nat (length L)) by (destruct L; [congruence | simpl; lia]).
  unfold sliced_requests, arange.
  destruct (Z.eqb_spec n 0) as [->|_]; [lia|]. cbn [bind].
  eexists; split; [reflexivity|].
  rewrite array_split_sub_arys.
  destruct (arange_steps n (Z.of_nat (length L)) Hn Hlen) as [Hlo Hhi].
  pose proof (sub_arys_arange L n Hn
                (Z.to_nat (ceil_div (Z.of_nat (length L) - n) n)) 0
                ltac:(lia) ltac:(lia) ltac:(lia)) as H.
  cbn zeta in H. rewrite Z.add_0_l in H.
  destruct H as (Hcat & Hall & Hshort & Hcount).
  repeat split; try assumption.
  intros Hbig.
  assert (Hk : Z.to_nat (ceil_div (Z.of_nat (length L) - n) n) = 0%nat).
  { unfold ceil_div.
    assert (- (Z.of_nat (length L) - n) / n = 0) as ->
        by (apply Z.div_small; lia).
    reflexivity. }
  rewrite Hk in *. cbn [arange_from List.app sub_arys] in *.
  rewrite py_slice_tail by lia. reflexivity.
Qed.

Lemma chunker_partitions_witness :
  exists batches,
    sliced_requests ["101"; "102"; "103"; "104"; "105"] 2 = Ok batches
    /\ concat batches = ["101"; "102"; "103"; "104"; "105"]
    /\ Forall (fun b => 0 < Z.of_nat (length b) <= 2) batches
    /\ (length (short_batches 2 batches) <= 1)%nat
    /\ (Z.of_nat (length ["101"; "102"; "103"; "104"; "105"]) <= 2 ->
        batches = [["101"; "102"; "103"; "104"; "105"]]).
Proof.
  apply (chunker_partitions ["101"; "102"; "103"; "104"; "105"] 2).
  - discriminate.
  - lia.
Defined.

Example sliced_requests_five_by_two :
  sliced_requests ["101"; "102"; "103"; "104"; "105"] 2
  = Ok [["101"; "102"]; ["103"; "104"]; ["105"]].
Proof. reflexivity. Qed.

Example sliced_requests_empty :
  sliced_requests [] 3 = Ok [[]].
Proof. reflexivity. Qed.

(** ** IdentifierExtractor *)

Lemma all_digits_string_of_uint (d : uint) :
  all_digits (NilEmpty.string_of_uint d) = true.
Proof. induction d; simpl; auto. Qed.

Lemma all_digits_decimal (k : Z) : all_digits (decimal k) = true.
Proof.
  unfold decimal, NilZero.string_of_uint.
  destruct (N.to_uint (Z.to_N k)) eqn:E; try reflexivity;
    rewrite <- E; apply all_digits_string_of_uint.
Qed.

Lemma decimal_value_string_of_uint (d : uint) :
  decimal_value (NilZero.string_of_uint d) = Some (Z.of_N (N.of_uint d)).
Proof.
  unfold decimal_value.
  destruct d; try reflexivity;
    unfold NilZero.string_of_uint; now rewrite NilEmpty.usu.
Qed.

Lemma decimal_value_decimal (k : Z) :
  0 <= k -> decimal_value (decimal k) = Some k.
Proof.
  intros Hk. unfold decimal.
  rewrite decimal_value_string_of_uint, DecimalN.Unsigned.of_to.
  f_equal. lia.
Qed.

Lemma round_half_even_nonneg (m : positive) (e : Z) :
  0 <= round_half_even m e.
Proof.
  unfold round_half_even. destruct (Z.leb_spec 0 e).
  - pose proof (Z.pow_nonneg 2 e). lia.
  - assert (0 < 2 ^ (- e)) by (apply Z.pow_pos_nonneg; lia).
    assert (0 <= Z.pos m / 2 ^ (- e)) by (apply Z.div_pos; lia).
    repeat destruct (_ <? _); try destruct (Z.even _); lia.
Qed.

Lemma round_half_even_nearest (m : positive) (e : Z) :
  nearest_integer (round_half_even m e) m e.
Proof.
  unfold nearest_integer, round_half_even.
  destruct (Z.leb_spec 0 e); [reflexivity|].
  assert (Hd : 0 < 2 ^ (- e)) by (apply Z.pow_pos_nonneg; lia).
  set (d := 2 ^ (- e)) in *.
  pose proof (Z.div_mod (Z.pos m) d ltac:(lia)) as Hdm.
  pose proof (Z.mod_pos_bound (Z.pos m) d Hd) as Hr.
  set (q := Z.pos m / d) in *. set (r := Z.pos m mod d) in *.
  destruct (Z.ltb_spec (2 * r) d); [lia|].
  destruct (Z.ltb_spec d (2 * r)); [lia|].
  destruct (Z.even q); lia.
Qed.




(** ** TimeWindowResolver *)

Ltac bool_to_prop :=
  repeat progress
    (rewrite ?Bool.andb_true_iff, ?Bool.orb_true_iff, ?Bool.andb_false_iff,
       ?Bool.orb_false_iff, ?Bool.negb_true_iff, ?Bool.negb_false_iff,
       ?Z.eqb_eq, ?Z.eqb_neq, ?Z.ltb_lt, ?Z.ltb_ge, ?Z.leb_le, ?Z.leb_gt
      in *).

Ltac split_ifs :=
  repeat match goal with
         | H : context [if ?b then _ else _] |- _ => destruct b eqn:?
         | |- context [if ?b then _ else _] => destruct b eqn:?
         end;
  bool_to_prop.

Lemma civil_from_days_range (z : Z) :
  -719162 <= z <= 2932896 ->
  let '(y, m, d) := civil_from_days z in
  1 <= y <= 9999 /\ 1 <= m <= 12 /\ 1 <= d <= 31.
Proof.
  intros H. unfold civil_from_days. cbn zeta. split_ifs.
  all: Z.div_mod_to_equations; lia.
Qed.

Lemma month_roundtrip (mp d : Z) :
  0 <= mp <= 11 -> 1 <= d <= 31 ->
  (mp = 1 \/ mp = 3 \/ mp = 6 \/ mp = 8 -> d <= 30) ->
  (mp = 11 -> d <= 29) ->
  let doy := (153 * mp + 2) / 5 + d - 1 in
  (5 * doy + 2) / 153 = mp /\ 0 <= doy <= 365 /\ (doy = 365 -> mp = 11 /\ d = 29).
Proof.
  intros Hmp Hd H30 H29. cbn zeta.
  assert (mp = 0 \/ mp = 1 \/ mp = 2 \/ mp = 3 \/ mp = 4 \/ mp = 5 \/ mp = 6
          \/ mp = 7 \/ mp = 8 \/ mp = 9 \/ mp = 10 \/ mp = 11) as Hc by lia.
  repeat (destruct Hc as [->|Hc]; [Z.div_mod_to_equations; lia|]).
  subst. Z.div_mod_to_equations; lia.
Qed.

Lemma year_roundtrip (yoe doy : Z) :
  0 <= yoe <= 399 -> 0 <= doy <= 365 ->
  (doy = 365 -> (yoe + 1) mod 4 = 0 /\ ((yoe + 1) mod 100 <> 0 \/ yoe = 399)) ->
  let doe := yoe * 365 + yoe / 4 - yoe / 100 + doy in
  0 <= doe <= 146096
  /\ (doe - doe / 1460 + doe / 36524 - doe / 146096) / 365 = yoe.
Proof.
  intros Hy Hd Hl. cbn zeta.
  Z.div_mod_to_equations; lia.
Qed.

Lemma civil_from_days_era (era doe : Z) :
  0 <= doe <= 146096 ->
  civil_from_days (era * 146097 + doe - 719468) =
  (let yoe := (doe - doe / 1460 + doe / 36524 - doe / 146096) / 365 in
   let doy := doe - (365 * yoe + yoe / 4 - yoe / 100) in
   let mp := (5 * doy + 2) / 153 in
   let d := doy - (153 * mp + 2) / 5 + 1 in
   let m := if mp <? 10 then mp + 3 else mp - 9 in
   (yoe + era * 400 + (if m <=? 2 then 1 else 0), m, d)).
Proof.
  intros H. unfold civil_from_days. cbn zeta.
  replace (era * 146097 + doe - 719468 + 719468) with (doe + era * 146097)
    by ring.
  rewrite Z.div_add by lia. rewrite (Z.div_small doe) by lia.
  replace (doe + era * 146097 - (0 + era) * 146097) with doe by ring.
  reflexivity.
Qed.

Lemma civil_from_days_from_civil (y m d : Z) :
  1 <= m <= 12 -> 1 <= d <= days_in_month y m ->
  civil_from_days (days_from_civil y m d) = (y, m, d).
Proof.
  intros Hm Hd. unfold days_from_civil. cbn zeta.
  set (y' := if m <=? 2 then y - 1 else y).
  set (era := y' / 400). set (yoe := y' - era * 400).
  set (mp := if 2 <? m then m - 3 else m + 9).
  set (doy := (153 * mp + 2) / 5 + d - 1).
  assert (Hyoe : 0 <= yoe <= 399)
    by (subst yoe era; Z.div_mod_to_equations; lia).
  assert (Hmp : 0 <= mp <= 11 /\ m = (if mp <? 10 then mp + 3 else mp - 9))
    by (subst mp; destruct (Z.ltb_spec 2 m);
        [destruct (Z.ltb_spec (m - 3) 10) | destruct (Z.ltb_spec (m + 9) 10)];
        lia).
  destruct Hmp as [Hmp Hm'].
  assert (Hdim : d <= 31 /\ (mp = 1 \/ mp = 3 \/ mp = 6 \/ mp = 8 -> d <= 30)
                 /\ (mp = 11 -> d <= 29
                     /\ (d = 29 -> y mod 4 = 0
                                   /\ (y mod 100 <> 0 \/ y mod 400 = 0)))).
  { clear doy. unfold days_in_month, is_leap in Hd. subst mp.
    destruct (Z.ltb_spec 2 m);
      repeat match type of Hd with
             | context [if ?b then _ else _] => destruct b eqn:?
             end;
      rewrite ?Bool.andb_true_iff, ?Bool.orb_true_iff, ?Bool.andb_false_iff,
        ?Bool.orb_false_iff, ?Bool.negb_true_iff, ?Bool.negb_false_iff,
        ?Z.eqb_eq, ?Z.eqb_neq in *; lia. }
  destruct Hdim as (Hd31 & Hd30 & Hd29).
  destruct (month_roundtrip mp d Hmp ltac:(lia) Hd30 ltac:(intros; now apply Hd29))
    as (Hmonth & Hdoy & Hlast).
  fold doy in Hmonth, Hdoy, Hlast.
  assert (Hleap : doy = 365 ->
                  (yoe + 1) mod 4 = 0
                  /\ ((yoe + 1) mod 100 <> 0 \/ yoe = 399)).
  { intros E. destruct (Hlast E) as [E1 E2].
    destruct (Hd29 E1) as [_ Hl]. specialize (Hl E2).
    assert (y' = y - 1) by (subst y' mp; destruct (Z.ltb_spec 2 m);
                            destruct (Z.leb_spec m 2); lia).
    subst yoe era. Z.div_mod_to_equations. lia. }
  destruct (year_roundtrip yoe doy Hyoe Hdoy Hleap) as (Hdoe & Hyear).
  rewrite civil_from_days_era by exact Hdoe. cbn zeta.
  rewrite Hyear.
  replace (yoe * 365 + yoe / 4 - yoe / 100 + doy
           - (365 * yoe + yoe / 4 - yoe / 100)) with doy by ring.
  rewrite Hmonth. rewrite <- Hm'.
  f_equal; [f_equal|].
  - subst yoe y'. destruct (Z.leb_spec m 2); lia.
  - subst doy. lia.
Qed.

Lemma is_digit_digit (a : Z) : 0 <= a <= 9 -> is_digit (digit a) = true.
Proof.
  intros H.
  assert (a = 0 \/ a = 1 \/ a = 2 \/ a = 3 \/ a = 4 \/ a = 5 \/ a = 6
          \/ a = 7 \/ a = 8 \/ a = 9) as Hc by lia.
  repeat (destruct Hc as [->|Hc]; [reflexivity|]). subst. reflexivity.
Qed.

Lemma iso_text_shape (y m d sod : Z) :
  0 <= y <= 9999 -> 0 <= m <= 99 -> 0 <= d <= 99 -> 0 <= sod < 86400 ->
  iso_seconds_shape (iso_text "T" y m d sod) = true.
Proof.
  intros Hy Hm Hd Hs. unfold iso_seconds_shape, iso_text, pad4, pad2.
  cbn [append list_ascii_of_string].
  rewrite !is_digit_digit by (Z.div_mod_to_equations; lia).
  reflexivity.
Qed.

Lemma isoformat_seconds_shape (t : timestamp) :
  datetime_min <= t <= datetime_max ->
  iso_seconds_shape (isoformat_seconds t) = true.
Proof.
  unfold datetime_min, datetime_max, isoformat_seconds, us_per_second,
    seconds_per_day.
  intros H.
  pose proof (civil_from_days_range (t / 1000000 / 86400)) as Hr.
  destruct (civil_from_days (t / 1000000 / 86400)) as [[y m] d].
  destruct Hr as (Hy & Hm & Hd); [Z.div_mod_to_equations; lia|].
  apply iso_text_shape; try lia.
  Z.div_mod_to_equations; lia.
Qed.

(** Rounding to an even frequency lands on a nearest multiple, and on the
    even multiple when two are equally near. *)
Lemma round_nsint64_nearest (value unit : Z) :
  0 < unit -> unit mod 2 = 0 ->
  let r := round_nsint64 value unit in
  r mod unit = 0
  /\ 2 * Z.abs (r - value) <= unit
  /\ (2 * Z.abs (r - value) = unit -> Z.even (r / unit) = true).
Proof.
  intros Hu Heven. cbn zeta. unfold round_nsint64.
  rewrite Heven. cbn [Z.eqb].
  pose proof (Z.div_mod value unit ltac:(lia)) as Hdm.
  pose proof (Z.mod_pos_bound value unit Hu) as Hr.
  pose proof (Z.div_mod unit 2 ltac:(lia)) as Hu2. rewrite Heven in Hu2.
  set (q := value / unit) in *. set (rem := value mod unit) in *.
  set (h := unit / 2) in *.
  assert (Hodd : Z.odd q = negb (Z.even q)) by (rewrite Z.negb_even; reflexivity).
  destruct ((h <? rem) || ((rem =? h) && Z.odd q)) eqn:E.
  - rewrite Z.mod_mul, Z.div_mul by lia.
    bool_to_prop. repeat split; try lia.
    intros Htie. destruct E as [E|[E Hq]]; [lia|].
    rewrite Z.even_add, <- Z.negb_odd, Hq. reflexivity.
  - rewrite Z.mod_mul, Z.div_mul by lia.
    bool_to_prop. destruct E as [E1 E2]. repeat split; try lia.
    intros Htie. destruct E2 as [E2|E2]; [lia|].
    rewrite Hodd in E2. now apply Bool.negb_false_iff in E2.
Qed.

(** ** The run *)

Section RunFacts.
Variable w : world.
Variable cfg : config.

Lemma loop_body_run (T : string) (i : nat) (points : list string) (s : state) :
  window_ready T (params s) ->
  loop_body w cfg i points s
  = (match outcome w cfg T (requests_sent s) points with
     | Ok _ => Ok tt
     | Raise e => Raise e
     end,
     {| params := window_params T points;
        results := match outcome w cfg T (requests_sent s) points with
                   | Ok table => results s ++ [table]
                   | Raise _ => results s
                   end;
        clock_reads := clock_reads s;
        requests_sent := S (requests_sent s);
        trace := trace s
                 ++ [Print (query_line i (query_for cfg T points));
                     Get (query_for cfg T points)] |}).
Proof.
  intros Hready. destruct s as [p r c k tr].
  cbn [params results clock_reads requests_sent trace] in *.
  unfold outcome.
  set (resp := isr_api w k (query_for cfg T points)).
  set (line := query_line i (query_for cfg T points)).
  destruct Hready as [->|[pts ->]].
  all: unfold loop_body, mbind, get_params, set_params, lift, ret, emit,
    requests_get, raise, get_results, set_results, window_params.
  all: cbn [params results clock_reads requests_sent trace dict_set
              dict_mem dict_get dict_getitem String.eqb Ascii.eqb Bool.eqb].
  all: change (isr_api w k _) with resp.
  all: rewrite <- ?app_assoc; cbn [List.app].
  all: destruct (json_body resp) as [body|]; [|reflexivity].
  all: destruct (json_getitem body "data") as [data|e]; cbn [bind];
    [destruct (DataFrame w data)|]; reflexivity.
Qed.

Lemma for_each_run (T : string) :
  forall (batches : list (list string)) (i : nat) (s : state),
    window_ready T (params s) ->
    let o := outcomes w cfg T (requests_sent s) batches in
    exists s',
      for_each (loop_body w cfg) i batches s
      = (match snd o with
         | None => Ok tt
         | Some e => Raise e
         end, s')
      /\ results s' = results s ++ fst o
      /\ clock_reads s' = clock_reads s
      /\ trace s' = trace s
                    ++ dispatch_events cfg T i (firstn (dispatched o) batches)
      /\ window_ready T (params s').
Proof.
  induction batches as [|points rest IH]; intros i s Hready; cbn zeta.
  - exists s. cbn. rewrite !app_nil_r. auto.
  - cbn [for_each outcomes]. unfold mbind at 1.
    rewrite (loop_body_run T i points s Hready).
    destruct (outcome w cfg T (requests_sent s) points) as [table|e].
    + match goal with
      | |- context [for_each _ _ _ ?s1] =>
          destruct (IH (S i) s1) as (s' & Hrun & Hres & Hclock & Htrace & Hp)
      end.
      { right. now exists points. }
      cbn [params results clock_reads requests_sent trace] in *.
      destruct (outcomes w cfg T (S (requests_sent s)) rest)
        as [tables failure].
      exists s'. unfold dispatched in *. cbn [fst snd] in *.
      rewrite Hrun, Hres, Hclock, Htrace, <- !app_assoc.
      repeat split; auto.
      destruct failure; reflexivity.
    + eexists. cbn [fst snd dispatched length firstn dispatch_events].
      unfold dispatched. cbn [fst snd length firstn dispatch_events
                                params results clock_reads trace].
      rewrite app_nil_r. repeat split. right. now exists points.
Qed.

(** The script up to the end of the loop: one reading of the clock,
    then the dispatches; it goes on to the merge only when no batch
    failed. *)
Lemma run_loop (df : csv_frame) (points : list string)
      (batches : list (list string)) :
  requested_points df = Ok points ->
  sliced_requests points (chunk_size cfg) = Ok batches ->
  let T := start_time_text (utcnow w 0) (timedelta cfg) in
  let o := outcomes w cfg T 0 batches in
  exists s1,
    results s1 = fst o
    /\ clock_reads s1 = 1%nat
    /\ trace s1
       = Print ("Number of requests: " ++ decimal (Z.of_nat (length batches)))
         :: Utcnow (utcnow w 0)
         :: dispatch_events cfg T 0 (firstn (dispatched o) batches)
    /\ window_ready T (params s1)
    /\ run w cfg df
       = match snd o with
         | Some e => (Raise e, s1)
         | None => merge_and_upload w cfg s1
         end.
Proof.
  intros Hpoints Hbatches. cbn zeta.
  set (T := start_time_text (utcnow w 0) (timedelta cfg)).
  unfold run, main. unfold mbind at 1, lift at 1. rewrite Hpoints.
  unfold mbind at 1, lift at 1. rewrite Hbatches.
  unfold mbind at 1, emit at 1. unfold mbind at 1, read_clock at 1.
  unfold mbind at 1, set_params at 1. unfold mbind at 1, set_results at 1.
  cbn [initial_state params results clock_reads requests_sent trace
         List.app].
  fold T. unfold mbind at 1.
  match goal with
  | |- context [for_each _ _ _ ?s0] =>
      destruct (for_each_run T batches 0 s0)
        as (s1 & Hrun & Hres & Hclock & Htrace & Hp);
        [left; reflexivity|]
  end.
  cbn [params results clock_reads requests_sent trace List.app] in *.
  exists s1. rewrite Hrun.
  repeat split; auto.
  destruct (snd (outcomes w cfg T 0 batches)); reflexivity.
Qed.

(** The merge and the upload send no query. *)
Lemma merge_and_upload_trace (s : state) :
  exists evs,
    trace (snd (merge_and_upload w cfg s)) = trace s ++ evs
    /\ forallb (fun e => negb (is_get e)) evs = true.
Proof.
  unfold merge_and_upload, upload.
  unfold mbind, get_results, lift, emit, read_clock, raise.
  destruct (pd_concat_axis1 (results s)) as [merged|e];
    [|exists []; cbn; now rewrite app_nil_r].
  destruct (normalize_index w merged) as [endresult|e];
    [|exists []; cbn; now rewrite app_nil_r].
  cbn [params results clock_reads requests_sent trace].
  destruct (json_body (gitlab_put w));
    cbn [params results clock_reads requests_sent trace snd];
    rewrite <- ?app_assoc; cbn [List.app]; eexists; split; reflexivity.
Qed.

End RunFacts.

Section TraceFacts.
Variable cfg : config.
Variable T : string.

Lemma readings_before_queries_dispatch (n i : nat)
      (batches : list (list string)) :
  readings_before_queries n (dispatch_events cfg T i batches)
  = map (fun points => (n, query_for cfg T points)) batches.
Proof.
  revert i. induction batches as [|points rest IH]; intros i;
    [reflexivity|].
  cbn [dispatch_events readings_before_queries map]. now rewrite IH.
Qed.

Lemma filter_get_dispatch (i : nat) (batches : list (list string)) :
  filter is_get (dispatch_events cfg T i batches)
  = map (fun points => Get (query_for cfg T points)) batches.
Proof.
  revert i. induction batches as [|points rest IH]; intros i;
    [reflexivity|].
  cbn [dispatch_events filter is_get map]. now rewrite IH.
Qed.

Lemma no_put_dispatch (i : nat) (batches : list (list string)) :
  forallb (fun e => negb (is_put e) && negb (is_print_frame e))
          (dispatch_events cfg T i batches) = true.
Proof.
  revert i. induction batches as [|points rest IH]; intros i;
    [reflexivity|].
  cbn [dispatch_events forallb is_put is_print_frame negb andb]. apply IH.
Qed.

End TraceFacts.

Lemma readings_before_queries_no_get (n : nat) (evs : list event) :
  forallb (fun e => negb (is_get e)) evs = true ->
  readings_before_queries n evs = [].
Proof.
  revert n. induction evs as [|e evs IH]; intros n H; [reflexivity|].
  cbn [forallb] in H. apply Bool.andb_true_iff in H. destruct H as [He H].
  destruct e; try discriminate; cbn [readings_before_queries]; auto.
Qed.

Lemma readings_before_queries_app_no_get (n : nat) (tr evs : list event) :
  forallb (fun e => negb (is_get e)) evs = true ->
  readings_before_queries n (tr ++ evs) = readings_before_queries n tr.
Proof.
  intros H. revert n. induction tr as [|e tr IH]; intros n.
  - now apply readings_before_queries_no_get.
  - destruct e; cbn [List.app readings_before_queries]; now rewrite IH.
Qed.

Lemma filter_get_no_get (evs : list event) :
  forallb (fun e => negb (is_get e)) evs = true -> filter is_get evs = [].
Proof.
  induction evs as [|e evs IH]; intros H; [reflexivity|].
  cbn [forallb] in H. apply Bool.andb_true_iff in H. destruct H as [He H].
  cbn [filter]. destruct (is_get e); [discriminate|auto].
Qed.

Lemma run_no_points (w : world) (cfg : config) (df : csv_frame) (e : exn) :
  requested_points df = Raise e -> run w cfg df = (Raise e, initial_state).
Proof. intros H. unfold run, main, mbind, lift. now rewrite H. Qed.

Lemma run_no_batches (w : world) (cfg : config) (df : csv_frame)
      (points : list string) (e : exn) :
  requested_points df = Ok points ->
  sliced_requests points (chunk_size cfg) = Raise e ->
  run w cfg df = (Raise e, initial_state).
Proof.
  intros Hp H. unfold run, main. unfold mbind at 1, lift at 1. rewrite Hp.
  unfold mbind at 1, lift at 1. now rewrite H.
Qed.

(** The queries of a run, each with the number of clock readings made
    before it: one reading, and the window text of that reading. *)
Lemma run_queries (w : world) (cfg : config) (df : csv_frame) :
  let T := start_time_text (utcnow w 0) (timedelta cfg) in
  exists sent : list (list string),
    readings_before_queries 0 (trace (snd (run w cfg df)))
    = map (fun points => (1%nat, query_for cfg T points)) sent.
Proof.
  cbn zeta.
  destruct (requested_points df) as [points|e] eqn:Hpoints;
    [|exists []; now rewrite (run_no_points w cfg df e Hpoints)].
  destruct (sliced_requests points (chunk_size cfg)) as [batches|e] eqn:Hb;
    [|exists []; now rewrite (run_no_batches w cfg df points e Hpoints Hb)].
  destruct (run_loop w cfg df points batches Hpoints Hb)
    as (s1 & _ & _ & Htrace & _ & Hrun).
  cbn zeta in *.
  set (T := start_time_text (utcnow w 0) (timedelta cfg)) in *.
  set (o := outcomes w cfg T 0 batches) in *.
  exists (firstn (dispatched o) batches).
  assert (Hs1 : readings_before_queries 0 (trace s1)
                = map (fun points => (1%nat, query_for cfg T points))
                      (firstn (dispatched o) batches)).
  { rewrite Htrace. cbn [readings_before_queries].
    apply readings_before_queries_dispatch. }
  rewrite Hrun. destruct (snd o); [exact Hs1|].
  destruct (merge_and_upload_trace w cfg s1) as (evs & -> & Hevs).
  now rewrite readings_before_queries_app_no_get.
Qed.

(** C3.  Whatever the clock shows later and however long the run takes,
    exactly one reading of the clock has been made before each query the run
    sends, the first of the run, and each query carries, as start and as end
    of its window, the text computed from that reading: two queries of a run
    never differ in their window. *)
Theorem time_window_computed_once (w : world) (cfg : config) (df : csv_frame) :
  Forall (fun nq : nat * string =>
            fst nq = 1%nat
            /\ exists points,
                 snd nq
                 = (db_api cfg ++ "?"
                    ++ urlencode
                         [("start_time",
                           PStr (start_time_text (utcnow w 0) (timedelta cfg)));
                          ("scada_point", PArr points);
                          ("end_time",
                           PStr (start_time_text (utcnow w 0) (timedelta cfg)))])%string)
         (readings_before_queries 0 (trace (snd (run w cfg df)))).
Proof.
  destruct (run_queries w cfg df) as (sent & ->).
  apply Forall_forall. intros nq Hin. apply in_map_iff in Hin.
  destruct Hin as (points & <- & _). split; [reflexivity|].
  now exists points.
Qed.

Example sample_run_queries :
  readings_before_queries 0 (trace (snd (run world_ok sample_cfg sample_df)))
  = [(1%nat, query_for sample_cfg "2024-01-15T10:05:00" ["101"; "102"]);
     (1%nat, query_for sample_cfg "2024-01-15T10:05:00" ["103"; "104"]);
     (1%nat, query_for sample_cfg "2024-01-15T10:05:00" ["105"])].
Proof. reflexivity. Qed.

(** C4, as the script has it.  Line 64 subtracts the look-back from the
    reading of the clock as [datetime] values, and raises [OverflowError]
    when the look-back instant is none; line 65 rounds it.  For a reading, a
    look-back instant and a rounded instant that a [datetime] can hold, the
    start of the window is the look-back instant rounded to the nearest
    multiple of five minutes, a tie going to the even multiple; it may
    therefore lie above the look-back instant.  With no end configured the
    first turn of the loop stores the same text as end.  The text is
    ISO-8601 to the second, with no fraction of a second. *)
Theorem start_time_nearest_five_minutes (now td : Z) :
  let t := now - timedelta_minutes td in
  let r := timestamp_round t freq_5T in
  datetime_min <= now <= datetime_max ->
  datetime_min <= t <= datetime_max ->
  datetime_min <= r <= datetime_max ->
  start_time_text now td = isoformat_seconds r
  /\ r mod freq_5T = 0
  /\ 2 * Z.abs (r - t) <= freq_5T
  /\ (2 * Z.abs (r - t) = freq_5T -> Z.even (r / freq_5T) = true)
  /\ iso_seconds_shape (start_time_text now td) = true
  /\ (forall (w : world) (cfg : config) (i : nat) (points : list string)
             (s : state),
         params s = [("start_time", PStr (start_time_text now td))] ->
         let p := params (snd (loop_body w cfg i points s)) in
         dict_get p "start_time" = Some (PStr (start_time_text now td))
         /\ dict_get p "end_time" = Some (PStr (start_time_text now td))).
Proof.
  cbn zeta. intros Hnow Hback Hrange.
  destruct (round_nsint64_nearest (now - timedelta_minutes td) freq_5T)
    as (Hmul & Hnear & Htie); [reflexivity | reflexivity |].
  repeat split; try assumption.
  - now apply isoformat_seconds_shape.
  - rewrite (loop_body_run w cfg (start_time_text now td) i points s)
      by (left; assumption).
    reflexivity.
  - rewrite (loop_body_run w cfg (start_time_text now td) i points s)
      by (left; assumption).
    reflexivity.
Qed.

Lemma start_time_nearest_five_minutes_witness :
  start_time_text 1705313280000000 5 = "2024-01-15T10:05:00"
  /\ start_time_text 1705313280000000 5
     = isoformat_seconds
         (timestamp_round (1705313280000000 - timedelta_minutes 5) freq_5T)
  /\ iso_seconds_shape (start_time_text 1705313280000000 5) = true.
Proof.
  split; [reflexivity|].
  pose proof (start_time_nearest_five_minutes 1705313280000000 5) as H.
  cbn zeta in H.
  destruct H as (H1 & _ & _ & _ & H5 & _).
  - vm_compute. split; discriminate.
  - vm_compute. split; discriminate.
  - vm_compute. split; discriminate.
  - split; [exact H1 | exact H5].
Defined.

(** The claim as the specification words it, with [round_down], fails three
    minutes past a multiple of five: the script gives 10:05, rounding down
    gives 10:00. *)
Lemma start_time_round_down_counterexample :
  start_time_text 1705313280000000 5
  <> isoformat_seconds
       (round_down (1705313280000000 - timedelta_minutes 5) freq_5T).
Proof. vm_compute. discriminate. Qed.

(** ** Failures of a dispatch *)

Lemma outcomes_first_failure (w : world) (cfg : config) (T : string) (e : exn) :
  forall (batches : list (list string)) (k j : nat),
    (j < length batches)%nat ->
    (forall i, (i < j)%nat ->
               exists table,
                 outcome w cfg T (k + i) (nth i batches []) = Ok table) ->
    outcome w cfg T (k + j) (nth j batches []) = Raise e ->
    snd (outcomes w cfg T k batches) = Some e
    /\ length (fst (outcomes w cfg T k batches)) = j.
Proof.
  induction batches as [|points rest IH]; intros k j Hj Hbefore Hfail;
    [simpl in Hj; lia|].
  cbn [outcomes]. destruct j as [|j].
  - cbn [nth] in Hfail. rewrite Nat.add_0_r in Hfail. rewrite Hfail.
    split; reflexivity.
  - destruct (Hbefore 0%nat ltac:(lia)) as [table Htable].
    cbn [nth] in Htable. rewrite Nat.add_0_r in Htable. rewrite Htable.
    destruct (IH (S k) j) as [Hsnd Hlen].
    + simpl in Hj. lia.
    + intros i Hi. destruct (Hbefore (S i) ltac:(lia)) as [t Ht].
      exists t. cbn [nth] in Ht. now rewrite Nat.add_succ_comm.
    + cbn [nth] in Hfail. now rewrite Nat.add_succ_comm.
    + destruct (outcomes w cfg T (S k) rest) as [tables failure].
      cbn [fst snd length] in *. split; congruence.
Qed.

(** A run whose batch number [j] is the first to fail: the exception of that
    batch ends the run; the batches up to it have been queried, no later one;
    nothing has been shown or uploaded. *)
Lemma run_first_failure (w : world) (cfg : config) (df : csv_frame)
      (points : list string) (batches : list (list string))
      (j : nat) (e : exn) :
  requested_points df = Ok points ->
  sliced_requests points (chunk_size cfg) = Ok batches ->
  let T := start_time_text (utcnow w 0) (timedelta cfg) in
  (j < length batches)%nat ->
  (forall i, (i < j)%nat ->
             exists table, outcome w cfg T i (nth i batches []) = Ok table) ->
  outcome w cfg T j (nth j batches []) = Raise e ->
  exists s,
    run w cfg df = (Raise e, s)
    /\ filter is_get (trace s)
       = map (fun points => Get (query_for cfg T points))
             (firstn (S j) batches)
    /\ forallb (fun ev => negb (is_put ev) && negb (is_print_frame ev))
               (trace s) = true
    /\ length (results s) = j.
Proof.
  intros Hpoints Hbatches T Hj Hbefore Hfail.
  destruct (run_loop w cfg df points batches Hpoints Hbatches)
    as (s1 & Hres & _ & Htrace & _ & Hrun).
  cbn zeta in *. fold T in Hres, Htrace, Hrun.
  destruct (outcomes_first_failure w cfg T e batches 0 j Hj Hbefore Hfail)
    as [Hsnd Hlen].
  unfold dispatched in Htrace. rewrite Hsnd in Hrun, Htrace.
  rewrite Hlen in Htrace.
  exists s1. repeat split.
  - exact Hrun.
  - rewrite Htrace. cbn [filter is_get]. apply filter_get_dispatch.
  - rewrite Htrace. cbn [forallb is_put is_print_frame negb andb].
    apply no_put_dispatch.
  - now rewrite Hres.
Qed.

(** C6.  When the batch at position [j] is the first whose dispatch fails,
    the run ends with the exception of that dispatch as its result; the
    tables of the [j] batches before it stay in the dead state, unmerged; the
    queries sent are those of the batches up to position [j]; no merged
    table is shown and nothing is uploaded. *)
Theorem failed_dispatch_aborts_run (w : world) (cfg : config) (df : csv_frame)
        (points : list string) (batches : list (list string))
        (j : nat) (e : exn) :
  requested_points df = Ok points ->
  sliced_requests points (chunk_size cfg) = Ok batches ->
  (j < length batches)%nat ->
  (forall i, (i < j)%nat ->
             exists table,
               outcome w cfg (start_time_text (utcnow w 0) (timedelta cfg))
                       i (nth i batches []) = Ok table) ->
  outcome w cfg (start_time_text (utcnow w 0) (timedelta cfg))
          j (nth j batches []) = Raise e ->
  exists s,
    run w cfg df = (Raise e, s)
    /\ filter is_get (trace s)
       = map (fun points =>
                Get (query_for cfg
                       (start_time_text (utcnow w 0) (timedelta cfg)) points))
             (firstn (S j) batches)
    /\ forallb (fun ev => negb (is_put ev) && negb (is_print_frame ev))
               (trace s) = true
    /\ length (results s) = j.
Proof.
  intros Hpoints Hbatches Hj Hbefore Hfail.
  exact (run_first_failure w cfg df points batches j e
           Hpoints Hbatches Hj Hbefore Hfail).
Qed.

(** Batch 2 of 3 gets a body that is not JSON. *)
Lemma failed_dispatch_aborts_run_witness :
  exists s,
    run (world_bad_body 1) sample_cfg sample_df
    = (Raise (ValueError
                (fetch_error_message (PStr "2024-01-15T10:05:00")
                   (PStr "2024-01-15T10:05:00")
                   "<html>Bad Gateway</html>" "settings.cfg")), s)
    /\ filter is_get (trace s)
       = map (fun points =>
                Get (query_for sample_cfg
                       (start_time_text (utcnow (world_bad_body 1) 0)
                          (timedelta sample_cfg)) points))
             (firstn 2 [["101"; "102"]; ["103"; "104"]; ["105"]])
    /\ forallb (fun ev => negb (is_put ev) && negb (is_print_frame ev))
               (trace s) = true
    /\ length (results s) = 1%nat.
Proof.
  apply (failed_dispatch_aborts_run (world_bad_body 1) sample_cfg sample_df
           ["101"; "102"; "103"; "104"; "105"]
           [["101"; "102"]; ["103"; "104"]; ["105"]] 1).
  - reflexivity.
  - reflexivity.
  - simpl. lia.
  - intros i Hi. assert (i = 0%nat) as -> by lia.
    eexists. vm_compute. reflexivity.
  - vm_compute. reflexivity.
Defined.

Lemma length_append (a b : string) :
  String.length (a ++ b) = (String.length a + String.length b)%nat.
Proof. induction a as [|c a IH]; simpl; [reflexivity | now rewrite IH]. Qed.

Lemma includes_length (needle text : string) :
  includes needle text -> (String.length needle <= String.length text)%nat.
Proof.
  intros (before & after & ->). rewrite !length_append. lia.
Qed.

Lemma append_assoc (a b c : string) :
  ((a ++ b) ++ c)%string = (a ++ (b ++ c))%string.
Proof. induction a as [|x a IH]; simpl; [reflexivity | now rewrite IH]. Qed.

Lemma append_nil_r (a : string) : (a ++ "")%string = a.
Proof. induction a as [|x a IH]; simpl; [reflexivity | now rewrite IH]. Qed.

Lemma includes_head (needle rest : string) :
  includes needle (needle ++ rest).
Proof. exists "", rest. reflexivity. Qed.

Lemma includes_self (needle : string) : includes needle needle.
Proof. exists "", "". simpl. now rewrite append_nil_r. Qed.

Lemma includes_after (needle first text : string) :
  includes needle text -> includes needle (first ++ text).
Proof.
  intros (before & after & ->). exists (first ++ before)%string, after.
  now rewrite append_assoc.
Qed.

Lemma fetch_error_message_includes (T body path : string) :
  let msg := fetch_error_message (PStr T) (PStr T) body path in
  includes (repr_str T) msg
  /\ includes (repr_bytes body) msg
  /\ includes path msg.
Proof.
  cbn zeta. unfold fetch_error_message, pyval_repr. repeat split.
  - do 2 apply includes_after. apply includes_head.
  - do 7 apply includes_after. apply includes_head.
  - do 10 apply includes_after. apply includes_self.
Qed.

(** C5, as the script has it.  When the reply to the batch at position [j]
    is the first that fails: a body that is not JSON raises a [ValueError]
    whose message shows the window, start and end, the raw body as Python
    shows bytes, and the path of the configuration file; the batch position
    is no part of it.  A JSON object without a [data] member raises the
    [KeyError] for [data] instead, and a JSON body that is no object (a
    list, a text, a number, true, false or null) raises the [TypeError] of
    the subscript.  In each case the run ends there: no later batch is
    queried and nothing is uploaded. *)
Theorem malformed_reply_aborts_run (w : world) (cfg : config) (df : csv_frame)
        (points : list string) (batches : list (list string)) (j : nat) :
  requested_points df = Ok points ->
  sliced_requests points (chunk_size cfg) = Ok batches ->
  (j < length batches)%nat ->
  (forall i, (i < j)%nat ->
             exists table,
               outcome w cfg (start_time_text (utcnow w 0) (timedelta cfg))
                       i (nth i batches []) = Ok table) ->
  let T := start_time_text (utcnow w 0) (timedelta cfg) in
  let reply := isr_api w j (query_for cfg T (nth j batches [])) in
  let msg := fetch_error_message (PStr T) (PStr T) (content reply)
                                 (config_path cfg) in
  (json_body reply = None ->
   aborts_after w cfg df batches j (ValueError msg)
   /\ includes (repr_str T) msg
   /\ includes (repr_bytes (content reply)) msg
   /\ includes (config_path cfg) msg)
  /\ (forall members,
         json_body reply = Some (JObject members) ->
         members_get members "data" = None ->
         aborts_after w cfg df batches j (KeyError "data"))
  /\ (forall body,
         json_body reply = Some body ->
         (forall members, body <> JObject members) ->
         exists text,
           json_getitem body "data" = Raise (TypeError text)
           /\ aborts_after w cfg df batches j (TypeError text)).
Proof.
  intros Hpoints Hbatches Hj Hbefore T reply msg. split; [|split].
  - intros Hbody.
    assert (Hfail : outcome w cfg T j (nth j batches []) = Raise (ValueError msg))
      by (unfold outcome; fold reply; now rewrite Hbody).
    destruct (run_first_failure w cfg df points batches j _
                Hpoints Hbatches Hj Hbefore Hfail) as (s & Hrun & Hget & Hput & _).
    split; [now exists s|].
    apply fetch_error_message_includes.
  - intros members Hbody Hmissing.
    assert (Hfail : outcome w cfg T j (nth j batches [])
                    = Raise (KeyError "data")).
    { unfold outcome. fold reply. rewrite Hbody. cbn [json_getitem].
      now rewrite Hmissing. }
    destruct (run_first_failure w cfg df points batches j _
                Hpoints Hbatches Hj Hbefore Hfail) as (s & Hrun & Hget & Hput & _).
    now exists s.
  - intros body Hbody Hobject.
    assert (Hitem : exists text,
               json_getitem body "data" = Raise (TypeError text)).
    { destruct body; cbn [json_getitem]; try (eexists; reflexivity).
      now destruct (Hobject members). }
    destruct Hitem as [text Hitem]. exists text. split; [exact Hitem|].
    assert (Hfail : outcome w cfg T j (nth j batches [])
                    = Raise (TypeError text)).
    { unfold outcome. fold reply. rewrite Hbody, Hitem. reflexivity. }
    destruct (run_first_failure w cfg df points batches j _
                Hpoints Hbatches Hj Hbefore Hfail) as (s & Hrun & Hget & Hput & _).
    now exists s.
Qed.

Lemma malformed_reply_aborts_run_witness :
  aborts_after (world_bad_body 1) sample_cfg sample_df
    [["101"; "102"]; ["103"; "104"]; ["105"]] 1
    (ValueError
       (fetch_error_message (PStr "2024-01-15T10:05:00")
          (PStr "2024-01-15T10:05:00") "<html>Bad Gateway</html>"
          "settings.cfg")).
Proof.
  refine (proj1 (proj1 (malformed_reply_aborts_run (world_bad_body 1)
                          sample_cfg sample_df
                          ["101"; "102"; "103"; "104"; "105"]
                          [["101"; "102"]; ["103"; "104"]; ["105"]] 1
                          _ _ _ _) _)).
  - reflexivity.
  - reflexivity.
  - simpl. lia.
  - intros i Hi. assert (i = 0%nat) as -> by lia.
    eexists. vm_compute. reflexivity.
  - reflexivity.
Defined.

(** The claim as the specification words it fails twice.  A JSON object
    without [data] ends the run with [KeyError('data')], whose text cannot
    hold the window.  And a body that is not JSON gives the same exception
    whether the first or the second batch received it, so the exception does
    not tell the batch. *)
Lemma fetch_error_counterexample :
  fst (run (world_no_data 0) sample_cfg sample_df) = Raise (KeyError "data")
  /\ ~ includes "2024-01-15T10:05:00" (exn_text (KeyError "data"))
  /\ fst (run (world_bad_body 0) sample_cfg sample_df)
     = fst (run (world_bad_body 1) sample_cfg sample_df).
Proof.
  repeat split.
  intros H. apply includes_length in H. vm_compute in H. lia.
Qed.

(** ** The empty identifier list *)

Lemma sliced_requests_nil (n : Z) : 0 < n -> sliced_requests [] n = Ok [[]].
Proof.
  intros Hn. unfold sliced_requests, arange.
  destruct (Z.eqb_spec n 0) as [->|_]; [lia|].
  cbn [length Z.of_nat bind]. unfold ceil_div.
  replace (- (0 - n)) with (1 * n) by lia.
  rewrite Z.div_mul by lia. reflexivity.
Qed.

(** With no identifier the loop still makes one turn: one query goes out,
    with the window and no [scada_point]. *)
Lemma run_empty_points (w : world) (cfg : config) (df : csv_frame) :
  requested_points df = Ok [] ->
  0 < chunk_size cfg ->
  filter is_get (trace (snd (run w cfg df)))
  = [Get (query_for cfg (start_time_text (utcnow w 0) (timedelta cfg)) [])].
Proof.
  intros Hpoints Hn.
  destruct (run_loop w cfg df [] [[]] Hpoints (sliced_requests_nil _ Hn))
    as (s1 & _ & _ & Htrace & _ & Hrun).
  cbn zeta in *.
  set (T := start_time_text (utcnow w 0) (timedelta cfg)) in *.
  assert (Hs1 : filter is_get (trace s1) = [Get (query_for cfg T [])]).
  { rewrite Htrace. unfold dispatched. cbn [outcomes].
    destruct (outcome w cfg T 0 []); reflexivity. }
  rewrite Hrun. destruct (snd (outcomes w cfg T 0 [[]])); [exact Hs1|].
  destruct (merge_and_upload_trace w cfg s1) as (evs & -> & Hevs).
  rewrite filter_app, Hs1, (filter_get_no_get evs Hevs). reflexivity.
Qed.

Lemma query_for_no_points (cfg : config) (T : string) :
  query_for cfg T []
  = (db_api cfg ++ "?" ++ ("start_time=" ++ quote_plus T) ++ "&"
     ++ ("end_time=" ++ quote_plus T))%string.
Proof. reflexivity. Qed.

(** C8, as the script has it.  For a chunk size [n > 0] the chunker turns
    the empty identifier list into one batch, the empty one, not into no
    batch; it raises nothing; and a run over the empty list sends exactly one
    query, which names the window and no identifier. *)
Theorem chunker_empty_list_one_empty_batch (n : Z) :
  0 < n ->
  sliced_requests [] n = Ok [[]]
  /\ forall (w : world) (cfg : config) (df : csv_frame),
       chunk_size cfg = n ->
       requested_points df = Ok [] ->
       filter is_get (trace (snd (run w cfg df)))
       = [Get (db_api cfg ++ "?"
               ++ ("start_time="
                   ++ quote_plus (start_time_text (utcnow w 0) (timedelta cfg)))
               ++ "&"
               ++ ("end_time="
                   ++ quote_plus (start_time_text (utcnow w 0) (timedelta cfg))))%string].
Proof.
  intros Hn. split; [now apply sliced_requests_nil|].
  intros w cfg df Hsize Hpoints.
  rewrite <- query_for_no_points. apply run_empty_points; [assumption | lia].
Qed.

Lemma chunker_empty_list_one_empty_batch_witness :
  sliced_requests [] 3 = Ok [[]].
Proof.
  refine (proj1 (chunker_empty_list_one_empty_batch 3 _)). lia.
Defined.

(** The claim as the specification words it, no batch at all for the empty
    list, fails for chunk size 3. *)
Lemma chunker_empty_list_counterexample :
  0 < 3 /\ sliced_requests [] 3 <> Ok [].
Proof. split; [lia | discriminate]. Qed.

(** C9, as the script has it.  When the reference column is there and no
    entry of it survives [dropna], the extractor returns the empty
    identifier list and raises nothing, and the run goes on: it sends one
    query, without identifiers. *)
Theorem no_usable_value_no_error (df : csv_frame) (col : list spec_float) :
  getitem_column df "FromMwAnalogPointRef" = Ok col ->
  dropna col = [] ->
  requested_points df = Ok []
  /\ forall (w : world) (cfg : config),
       0 < chunk_size cfg ->
       filter is_get (trace (snd (run w cfg df)))
       = [Get (query_for cfg
                 (start_time_text (utcnow w 0) (timedelta cfg)) [])].
Proof.
  intros Hcol Hdrop.
  assert (Hpoints : requested_points df = Ok [])
    by (unfold requested_points; rewrite Hcol; cbn [bind]; now rewrite Hdrop).
  split; [exact Hpoints|].
  intros w cfg Hn. now apply run_empty_points.
Qed.

Lemma no_usable_value_no_error_witness :
  requested_points [("FromMwAnalogPointRef", [S754_nan; S754_nan])] = Ok [].
Proof.
  refine (proj1 (no_usable_value_no_error
                   [("FromMwAnalogPointRef", [S754_nan; S754_nan])]
                   [S754_nan; S754_nan] _ _)); reflexivity.
Defined.

(** The claim as the specification words it, an error when no usable value
    remains, fails on a column of two missing entries: the extractor returns
    the empty list, and the run that follows completes with an upload. *)
Lemma empty_input_counterexample :
  dropna [S754_nan; S754_nan] = []
  /\ requested_points [("FromMwAnalogPointRef", [S754_nan; S754_nan])] = Ok []
  /\ fst (run world_ok sample_cfg
            [("FromMwAnalogPointRef", [S754_nan; S754_nan])]) = Ok tt
  /\ existsb is_put
       (trace (snd (run world_ok sample_cfg
                      [("FromMwAnalogPointRef", [S754_nan; S754_nan])])))
     = true.
Proof. repeat split. Qed.

(** ** ResultMerger: the outer join *)

Lemma mem_In (x : string) (l : list string) : mem x l = true <-> In x l.
Proof.
  induction l as [|y l IH]; simpl; [split; [discriminate | tauto]|].
  rewrite Bool.orb_true_iff, String.eqb_eq, IH. tauto.
Qed.

Lemma mem_not_In (x : string) (l : list string) : mem x l = false <-> ~ In x l.
Proof.
  rewrite <- mem_In. destruct (mem x l); split; congruence.
Qed.

Lemma labels_eqb_eq (a b : list string) : labels_eqb a b = true <-> a = b.
Proof.
  revert b. induction a as [|x a IH]; destruct b as [|y b]; simpl;
    try (split; [discriminate | congruence]); [tauto|].
  rewrite Bool.andb_true_iff, String.eqb_eq, IH.
  split; [intros [-> ->]; reflexivity | intros [= -> ->]; auto].
Qed.

Lemma In_unseen (x : string) (l seen : list string) :
  In x (unseen seen l) <-> In x l /\ ~ In x seen.
Proof.
  revert seen. induction l as [|y l IH]; intros seen; simpl; [tauto|].
  destruct (mem y seen) eqn:E.
  - apply mem_In in E. rewrite IH. split; [tauto|].
    intros [[->|H] Hn]; tauto.
  - apply mem_not_In in E. simpl. rewrite IH. simpl.
    destruct (String.eqb_spec y x) as [->|Hne]; tauto.
Qed.

Lemma NoDup_unseen (l seen : list string) : NoDup (unseen seen l).
Proof.
  revert seen. induction l as [|y l IH]; intros seen; simpl;
    [constructor|].
  destruct (mem y seen); [apply IH|].
  constructor; [|apply IH].
  rewrite In_unseen. simpl. tauto.
Qed.

Lemma In_union_indexes (x : string) (objs : list frame) :
  In x (union_indexes (map index objs))
  <-> exists f, In f objs /\ In x (index f).
Proof.
  unfold union_indexes. rewrite In_unseen, in_concat. split.
  - intros [(idx & Hidx & Hx) _]. apply in_map_iff in Hidx.
    destruct Hidx as (f & <- & Hf). now exists f.
  - intros (f & Hf & Hx). split; [|simpl; tauto].
    exists (index f). split; [now apply in_map|assumption].
Qed.

Lemma get_loc_In (l : list string) (x : string) :
  In x l -> exists i, get_loc l x = Some i /\ nth_error l i = Some x.
Proof.
  induction l as [|y l IH]; simpl; [tauto|]. intros H.
  destruct (String.eqb_spec y x) as [->|Hne]; [now exists 0%nat|].
  destruct H as [H|H]; [congruence|].
  destruct (IH H) as (i & -> & Hi). now exists (S i).
Qed.

Lemma get_loc_not_In (l : list string) (x : string) :
  ~ In x l -> get_loc l x = None.
Proof.
  induction l as [|y l IH]; simpl; [reflexivity|]. intros H.
  destruct (String.eqb_spec y x) as [->|Hne]; [tauto|].
  rewrite IH by tauto. reflexivity.
Qed.

(** A column laid out on another index reads, at each label of that index,
    what it read at that label before. *)
Lemma cell_at_reindexed (old new : list string) (cells : list cell)
      (x : string) :
  In x new ->
  cell_at new (map (cell_at old cells) new) x = cell_at old cells x.
Proof.
  intros H. unfold cell_at at 1.
  destruct (get_loc_In new x H) as (i & -> & Hi).
  apply nth_error_split in Hi. destruct Hi as (l1 & l2 & -> & <-).
  rewrite map_app. cbn [map]. rewrite app_nth2; rewrite length_map; [|lia].
  now rewrite Nat.sub_diag.
Qed.

Lemma cell_at_missing (old : list string) (cells : list cell) (x : string) :
  ~ In x old -> cell_at old cells x = None.
Proof. intros H. unfold cell_at. now rewrite get_loc_not_In. Qed.

Lemma nth_error_flat_map {A B : Type} (g : A -> list B) (l : list A)
      (i j : nat) (a : A) :
  nth_error l i = Some a ->
  (j < length (g a))%nat ->
  nth_error (flat_map g l) (length (flat_map g (firstn i l)) + j)
  = nth_error (g a) j.
Proof.
  revert i. induction l as [|x l IH]; intros i Hi Hj;
    [destruct i; discriminate|].
  destruct i as [|i]; cbn [nth_error firstn flat_map] in *.
  - injection Hi as ->. cbn [length Nat.add]. now apply nth_error_app1.
  - rewrite length_app, <- Nat.add_assoc.
    rewrite nth_error_app2 by lia.
    replace (length (g x) + (length (flat_map g (firstn i l)) + j)
             - length (g x))%nat
      with (length (flat_map g (firstn i l)) + j)%nat by lia.
    now apply IH.
Qed.

Lemma length_flat_map_map {A B C : Type} (g : A -> list B)
      (h : A -> B -> C) (l : list A) :
  length (flat_map (fun a => map (h a) (g a)) l) = length (flat_map g l).
Proof.
  induction l as [|x l IH]; [reflexivity|].
  cbn [flat_map]. now rewrite !length_app, length_map, IH.
Qed.

Lemma length_flat_map_sum {A B : Type} (g : A -> list B) (l : list A) :
  length (flat_map g l) = list_sum (map (fun a => length (g a)) l).
Proof.
  induction l as [|x l IH]; [reflexivity|].
  cbn [flat_map map list_sum]. now rewrite length_app, IH.
Qed.

Lemma flat_map_reindex_names (joined : list string) (objs : list frame) :
  map fst (flat_map (fun f => map (reindex (index f) joined) (columns f)) objs)
  = flat_map (fun f => map fst (columns f)) objs.
Proof.
  induction objs as [|f objs IH]; [reflexivity|].
  cbn [flat_map]. rewrite map_app, IH, map_map. reflexivity.
Qed.

Lemma flat_map_names (objs : list frame) :
  map fst (flat_map columns objs)
  = flat_map (fun f => map fst (columns f)) objs.
Proof.
  induction objs as [|f objs IH]; [reflexivity|].
  cbn [flat_map]. now rewrite map_app, IH.
Qed.

Lemma is_unique_NoDup (l : list string) : is_unique l = true -> NoDup l.
Proof.
  induction l as [|x l IH]; simpl; [constructor|].
  rewrite Bool.andb_true_iff, Bool.negb_true_iff, mem_not_In.
  intros [Hx Hl]. constructor; auto.
Qed.

(** C2.  For one or more tables, each with its row labels distinct, the
    merge raises nothing and returns one table.  Its row labels are exactly
    the labels of the inputs, each once.  Its columns are the columns of the
    inputs in batch order: as many as the inputs have together, with their
    names in that order.  The column at position [j] of the table at
    position [i] reads, at a label of its own table, what it read there, and
    at any other label of the result the missing-value marker. *)
Theorem concat_outer_join (objs : list frame) :
  objs <> [] ->
  Forall (fun f => is_unique (index f) = true) objs ->
  exists t,
    pd_concat_axis1 objs = Ok t
    /\ (forall l, In l (index t) <-> exists f, In f objs /\ In l (index f))
    /\ NoDup (index t)
    /\ length (columns t)
       = list_sum (map (fun f => length (columns f)) objs)
    /\ map fst (columns t) = flat_map (fun f => map fst (columns f)) objs
    /\ (forall (i j : nat) (f : frame) (l : string),
           nth_error objs i = Some f ->
           (j < length (columns f))%nat ->
           In l (index t) ->
           (In l (index f) ->
            loc t l (columns_before objs i + j) = loc f l j)
           /\ (~ In l (index f) ->
               loc t l (columns_before objs i + j) = Some None)).
Proof.
  intros Hne Huniq. destruct objs as [|first rest]; [congruence|].
  unfold pd_concat_axis1.
  set (objs := first :: rest) in *.
  destruct (forallb (fun f => labels_eqb (index f) (index first)) objs)
    eqn:Hsame.
  - (* one and the same index everywhere *)
    rewrite forallb_forall in Hsame.
    assert (Hidx : forall f, In f objs -> index f = index first)
      by (intros f Hf; now apply labels_eqb_eq, Hsame).
    eexists. split; [reflexivity|]. cbn [index columns].
    repeat split.
    + intros Hl. exists first. split; [now left | assumption].
    + intros (f & Hf & Hl). now rewrite <- (Hidx f Hf).
    + apply is_unique_NoDup.
      exact (proj1 (Forall_forall _ _) Huniq first (or_introl eq_refl)).
    + apply length_flat_map_sum.
    + apply flat_map_names.
    + intros Hlf. unfold loc, columns_before. cbn [index columns].
      rewrite (nth_error_flat_map columns objs i j f) by assumption.
      rewrite (Hidx f) by (eapply nth_error_In; eassumption).
      reflexivity.
    + intros Hlf. exfalso. apply Hlf.
      rewrite (Hidx f) by (eapply nth_error_In; eassumption). assumption.
  - (* differing indexes: each table is laid out on the union *)
    assert (Hu : forallb (fun f => is_unique (index f)) objs = true)
      by (apply forallb_forall; intros f Hf;
          exact (proj1 (Forall_forall _ _) Huniq f Hf)).
    rewrite Hu.
    eexists. split; [reflexivity|]. cbn [index columns].
    set (joined := union_indexes (map index objs)).
    assert (Hcell : forall i j f l,
               nth_error objs i = Some f ->
               (j < length (columns f))%nat ->
               In l joined ->
               loc {| index := joined; index_name := None;
                      columns := flat_map
                                   (fun f => map (reindex (index f) joined)
                                                 (columns f)) objs |}
                   l (columns_before objs i + j)
               = Some (cell_at (index f)
                               (snd (nth j (columns f) ("", []))) l)).
    { intros i j f l Hi Hj Hl. unfold loc, columns_before. cbn [index columns].
      rewrite <- (length_flat_map_map columns
                    (fun f => reindex (index f) joined) (firstn i objs)).
      rewrite (nth_error_flat_map
                 (fun f => map (reindex (index f) joined) (columns f))
                 objs i j f Hi) by now rewrite length_map.
      rewrite nth_error_map.
      rewrite (nth_error_nth' (columns f) ("", []) Hj). cbn [option_map].
      rewrite (proj2 (mem_In l joined) Hl). cbn [reindex snd].
      now rewrite cell_at_reindexed. }
    repeat split.
    + intros Hl. now apply In_union_indexes.
    + intros Hl. now apply In_union_indexes.
    + apply NoDup_unseen.
    + rewrite length_flat_map_map. apply length_flat_map_sum.
    + apply flat_map_reindex_names.
    + intros Hlf. rewrite (Hcell i j f l) by assumption.
      unfold loc. rewrite (nth_error_nth' (columns f) ("", []))
        by assumption.
      now rewrite (proj2 (mem_In l (index f)) Hlf).
    + intros Hlf. rewrite (Hcell i j f l) by assumption.
      now rewrite cell_at_missing.
Qed.

(** Two tables whose row labels overlap in one label only. *)
Lemma concat_outer_join_witness :
  exists t,
    pd_concat_axis1
      [ {| index := ["10:00"; "10:05"]; index_name := None;
           columns := [("p101", [Some (JString "a"); Some (JString "b")])] |};
        {| index := ["10:05"; "10:10"]; index_name := None;
           columns := [("p103", [Some (JString "c"); Some (JString "d")])] |} ]
    = Ok t
    /\ index t = ["10:00"; "10:05"; "10:10"]
    /\ columns t
       = [("p101", [Some (JString "a"); Some (JString "b"); None]);
          ("p103", [None; Some (JString "c"); Some (JString "d")])].
Proof.
  destruct (concat_outer_join
              [ {| index := ["10:00"; "10:05"]; index_name := None;
                   columns := [("p101", [Some (JString "a");
                                         Some (JString "b")])] |};
                {| index := ["10:05"; "10:10"]; index_name := None;
                   columns := [("p103", [Some (JString "c");
                                         Some (JString "d")])] |} ])
    as (t & Ht & _).
  - discriminate.
  - repeat constructor.
  - exists t. split; [exact Ht|].
    vm_compute in Ht. injection Ht as <-. split; reflexivity.
Defined.

(** The merge of a run always has a table to work on: the chunker returns
    at least one batch, and the loop adds one table a batch. *)
Lemma sliced_requests_nonempty (points : list string) (n : Z)
      (batches : list (list string)) :
  sliced_requests points n = Ok batches -> batches <> [].
Proof.
  unfold sliced_requests, arange. destruct (n =? 0); [discriminate|].
  cbn [bind]. intros [= <-]. unfold array_split.
  cbn [seq map]. discriminate.
Qed.

Lemma outcomes_all_ok (w : world) (cfg : config) (T : string) :
  forall (batches : list (list string)) (k : nat),
    snd (outcomes w cfg T k batches) = None ->
    length (fst (outcomes w cfg T k batches)) = length batches.
Proof.
  induction batches as [|points rest IH]; intros k; [reflexivity|].
  cbn [outcomes]. destruct (outcome w cfg T k points); [|discriminate].
  specialize (IH (S k)).
  destruct (outcomes w cfg T (S k) rest) as [tables failure].
  cbn [fst snd length] in *. intros H. now rewrite IH.
Qed.

Lemma merge_input_nonempty (w : world) (cfg : config) (df : csv_frame)
      (points : list string) (batches : list (list string)) :
  requested_points df = Ok points ->
  sliced_requests points (chunk_size cfg) = Ok batches ->
  snd (outcomes w cfg (start_time_text (utcnow w 0) (timedelta cfg))
                0 batches) = None ->
  exists s1,
    run w cfg df = merge_and_upload w cfg s1
    /\ length (results s1) = length batches
    /\ results s1 <> [].
Proof.
  intros Hpoints Hbatches Hok.
  destruct (run_loop w cfg df points batches Hpoints Hbatches)
    as (s1 & Hres & _ & _ & _ & Hrun).
  cbn zeta in *. rewrite Hok in Hrun.
  pose proof (outcomes_all_ok w cfg _ batches 0 Hok) as Hlen.
  rewrite <- Hres in Hlen.
  exists s1. repeat split; try assumption.
  pose proof (sliced_requests_nonempty _ _ _ Hbatches).
  destruct (results s1); [|discriminate].
  destruct batches; [congruence | discriminate].
Qed.

(** ** ResultMerger: the index in local time *)

Lemma digit_of_digit_value (c : ascii) (x : Z) :
  digit_value c = Some x -> digit x = c /\ 0 <= x <= 9.
Proof.
  unfold digit_value, digit.
  destruct ((48 <=? Z.of_N (N_of_ascii c)) && (Z.of_N (N_of_ascii c) <=? 57))
    eqn:E; [|discriminate].
  intros [= <-]. apply Bool.andb_true_iff in E. destruct E as [E1 E2].
  apply Z.leb_le in E1, E2. split; [|lia].
  replace (48 + (Z.of_N (N_of_ascii c) - 48)) with (Z.of_N (N_of_ascii c))
    by lia.
  rewrite N2Z.id. apply ascii_N_embedding.
Qed.

Lemma pad2_two_digits (a b : ascii) (x : Z) :
  two_digits a b = Some x ->
  pad2 x = String a (String b "") /\ 0 <= x <= 99.
Proof.
  unfold two_digits.
  destruct (digit_value a) as [u|] eqn:Ea; [|discriminate].
  destruct (digit_value b) as [v|] eqn:Eb; [|discriminate].
  intros H. assert (x = 10 * u + v) as -> by congruence. clear H.
  destruct (digit_of_digit_value a u Ea) as [Ha Hu].
  destruct (digit_of_digit_value b v Eb) as [Hb Hv].
  split; [|lia]. unfold pad2.
  replace ((10 * u + v) / 10) with u by (Z.div_mod_to_equations; lia).
  replace ((10 * u + v) mod 10) with v by (Z.div_mod_to_equations; lia).
  now rewrite Ha, Hb.
Qed.

Lemma pad4_four_digits (a b c d : ascii) (x : Z) :
  four_digits a b c d = Some x ->
  pad4 x = String a (String b (String c (String d ""))) /\ 0 <= x <= 9999.
Proof.
  unfold four_digits.
  destruct (two_digits a b) as [u|] eqn:Eab; [|discriminate].
  destruct (two_digits c d) as [v|] eqn:Ecd; [|discriminate].
  intros H. assert (x = 100 * u + v) as -> by congruence. clear H.
  destruct (pad2_two_digits c d v Ecd) as [Hcd Hv].
  unfold two_digits in Eab.
  destruct (digit_value a) as [p|] eqn:Ea; [|discriminate].
  destruct (digit_value b) as [q|] eqn:Eb; [|discriminate].
  assert (u = 10 * p + q) as -> by congruence. clear Eab.
  destruct (digit_of_digit_value a p Ea) as [Ha Hp].
  destruct (digit_of_digit_value b q Eb) as [Hb Hq].
  split; [|lia]. unfold pad4.
  replace ((100 * (10 * p + q) + v) / 1000) with p
    by (Z.div_mod_to_equations; lia).
  replace ((100 * (10 * p + q) + v) / 100 mod 10) with q
    by (Z.div_mod_to_equations; lia).
  replace ((100 * (10 * p + q) + v) mod 100) with v
    by (Z.div_mod_to_equations; lia).
  now rewrite Ha, Hb, Hcd.
Qed.

(** The text of a wall-clock reading built from a civil date, a time of day
    and a fraction of a second shows that date and that time of day: the
    fraction is cut off. *)
Lemma isoformat_seconds_of_civil (y m d hh mi ss f : Z) :
  1 <= m <= 12 -> 1 <= d <= days_in_month y m ->
  0 <= hh <= 23 -> 0 <= mi <= 59 -> 0 <= ss <= 59 ->
  0 <= f < us_per_second ->
  isoformat_seconds (timestamp_of_civil y m d hh mi ss + f)
  = iso_text "T" y m d (hh * 3600 + mi * 60 + ss).
Proof.
  intros Hm Hd Hh Hi Hs Hf.
  unfold isoformat_seconds, timestamp_of_civil, us_per_second,
    seconds_per_day in *.
  replace ((days_from_civil y m d * 86400 + hh * 3600 + mi * 60 + ss)
           * 1000000 + f)
    with (f + (days_from_civil y m d * 86400 + hh * 3600 + mi * 60 + ss)
              * 1000000) by ring.
  rewrite Z.div_add by lia. rewrite (Z.div_small f) by lia. cbn [Z.add].
  replace (days_from_civil y m d * 86400 + hh * 3600 + mi * 60 + ss)
    with ((hh * 3600 + mi * 60 + ss) + days_from_civil y m d * 86400) by ring.
  rewrite Z.div_add, Z.mod_add by lia.
  rewrite Z.div_small, Z.mod_small by lia.
  cbn [Z.add]. now rewrite civil_from_days_from_civil.
Qed.

Lemma fraction_digits_range (n : nat) : forall (l : list ascii),
  0 <= fst (fst (fraction_digits n l)) < 10 ^ Z.of_nat n.
Proof.
  induction n as [|n IH]; intros l; [cbn; lia|].
  cbn [fraction_digits].
  assert (Hpow : 10 ^ Z.of_nat (S n) = 10 * 10 ^ Z.of_nat n)
    by (rewrite Nat2Z.inj_succ, Z.pow_succ_r by lia; reflexivity).
  assert (Hpos : 0 < 10 ^ Z.of_nat n) by (apply Z.pow_pos_nonneg; lia).
  destruct l as [|c rest]; [cbn [fst]; lia|].
  destruct (digit_value c) as [d|] eqn:Hd; [|cbn [fst]; lia].
  destruct (digit_of_digit_value c d Hd) as [_ Hrange].
  specialize (IH rest). destruct (fraction_digits n rest) as [[v k] rest'].
  cbn [fst] in *. nia.
Qed.

Lemma parse_fraction_range (l rest : list ascii) (us : Z) (width : nat) :
  parse_fraction l = Some (us, width, rest) ->
  0 <= us < us_per_second.
Proof.
  unfold parse_fraction, us_per_second. intros H.
  destruct l as [|c [|d l]]; try (injection H as <- _ _; lia).
  destruct (Ascii.eqb c "."); [|injection H as <- _ _; lia].
  destruct (digit_value d); [|discriminate].
  pose proof (fraction_digits_range 6 (d :: l)) as Hr.
  destruct (fraction_digits 6 (d :: l)) as [[v k] rest'].
  cbn [fst] in Hr. change (10 ^ Z.of_nat 6) with 1000000 in Hr.
  destruct rest' as [|e rest'']; [injection H as <- _ _; exact Hr|].
  destruct (digit_value e); [discriminate|]. injection H as <- _ _. exact Hr.
Qed.

(** A label that parses shows, as its first nineteen characters, the text
    of its own wall-clock reading. *)
Lemma parse_iso_wall (label : string) (p : parsed_time) :
  parse_iso label = Some p ->
  isoformat_seconds (wall p) = wall_clock_text label.
Proof.
  unfold parse_iso. intros H.
  do 19 (destruct label as [|? label]; [discriminate H|]).
  cbn [list_ascii_of_string] in H.
  destruct (four_digits a a0 a1 a2) as [y|] eqn:Ey; [|discriminate].
  destruct (two_digits a4 a5) as [m|] eqn:Em; [|discriminate].
  destruct (two_digits a7 a8) as [d|] eqn:Ed; [|discriminate].
  destruct (two_digits a10 a11) as [hh|] eqn:Eh; [|discriminate].
  destruct (two_digits a13 a14) as [mi|] eqn:Ei; [|discriminate].
  destruct (two_digits a16 a17) as [ss|] eqn:Es; [|discriminate].
  match type of H with
  | (if ?c then _ else _) = _ => destruct c eqn:Hc; [|discriminate]
  end.
  destruct (parse_fraction _) as [[[us width] rest]|] eqn:Hfrac;
    [|discriminate].
  destruct (parse_offset rest) as [[off z]|]; [|discriminate].
  injection H as <-. cbn [wall].
  pose proof (parse_fraction_range _ _ _ _ Hfrac) as Hf.
  repeat (apply Bool.andb_true_iff in Hc; destruct Hc as [Hc ?]).
  repeat match goal with
         | H : Ascii.eqb _ _ = true |- _ => apply Ascii.eqb_eq in H; subst
         | H : (_ <=? _) = true |- _ => apply Z.leb_le in H
         end.
  destruct (pad4_four_digits _ _ _ _ _ Ey) as [Hy ?].
  destruct (pad2_two_digits _ _ _ Em) as [Hm ?].
  destruct (pad2_two_digits _ _ _ Ed) as [Hd ?].
  destruct (pad2_two_digits _ _ _ Eh) as [Hh ?].
  destruct (pad2_two_digits _ _ _ Ei) as [Hi ?].
  destruct (pad2_two_digits _ _ _ Es) as [Hs ?].
  rewrite isoformat_seconds_of_civil by lia.
  unfold iso_text, wall_clock_text.
  replace ((hh * 3600 + mi * 60 + ss) / 3600) with hh
    by (Z.div_mod_to_equations; lia).
  replace ((hh * 3600 + mi * 60 + ss) mod 3600 / 60) with mi
    by (Z.div_mod_to_equations; lia).
  replace ((hh * 3600 + mi * 60 + ss) mod 60) with ss
    by (Z.div_mod_to_equations; lia).
  rewrite Hy, Hm, Hd, Hh, Hi, Hs. cbn [substring append].
  destruct label; reflexivity.
Qed.

Lemma iso_shape_eqb_refl (sh : iso_shape) : iso_shape_eqb sh sh = true.
Proof.
  unfold iso_shape_eqb. rewrite Ascii.eqb_refl, Nat.eqb_refl.
  destruct (zone sh); reflexivity.
Qed.

Lemma in_ns_bounds_datetime (t : timestamp) :
  in_ns_bounds t = true -> datetime_min <= t <= datetime_max.
Proof.
  unfold in_ns_bounds, ns_min, ns_max, datetime_min, datetime_max,
    us_per_second.
  intros H. apply Bool.andb_true_iff in H. destruct H as [H1 H2].
  apply Z.leb_le in H1, H2. lia.
Qed.

Lemma length_parse_all (labels : list string) (ps : list parsed_time) :
  parse_all labels = Some ps -> length ps = length labels.
Proof.
  revert ps. induction labels as [|l labels IH]; intros ps Hps;
    cbn [parse_all] in Hps.
  - now injection Hps as <-.
  - destruct (parse_iso l); [|discriminate].
    destruct (parse_all labels) as [ps'|]; [|discriminate].
    injection Hps as <-. cbn [length]. now rewrite (IH ps' eq_refl).
Qed.

(** What the labels of a list are read as, one by one. *)
Lemma parse_all_labels (labels : list string) :
  (forall label, In label labels -> exists p, parse_iso label = Some p) ->
  exists ps,
    parse_all labels = Some ps
    /\ map Some ps = map parse_iso labels.
Proof.
  induction labels as [|label labels IH]; intros H.
  - exists []. split; reflexivity.
  - destruct (H label (or_introl eq_refl)) as (p & Hp).
    destruct IH as (ps & Hps & Hmap); [intros l Hl; apply H; now right|].
    exists (p :: ps). cbn [parse_all map]. rewrite Hp, Hps, Hmap.
    split; reflexivity.
Qed.

Lemma parse_all_In (labels : list string) (ps : list parsed_time) :
  parse_all labels = Some ps ->
  forall p, In p ps -> exists label, In label labels /\ parse_iso label = Some p.
Proof.
  revert ps. induction labels as [|l labels IH]; intros ps H p Hin;
    cbn [parse_all] in H.
  - injection H as <-. destruct Hin.
  - destruct (parse_iso l) as [q|] eqn:Hq; [|discriminate].
    destruct (parse_all labels) as [ps'|]; [|discriminate].
    injection H as <-. destruct Hin as [<-|Hin].
    + exists l. split; [now left | assumption].
    + destruct (IH ps' eq_refl p Hin) as (label & Hl & Hp).
      exists label. split; [now right | assumption].
Qed.

(** [pd.to_datetime] on labels of one shape whose readings and instants
    fit the nanosecond range. *)
Lemma to_datetime_one_shape (labels : list string) (p : parsed_time)
      (ps : list parsed_time) :
  parse_all labels = Some (p :: ps) ->
  (forall q, In q ps -> shape q = shape p) ->
  (forall q, In q (p :: ps) ->
             in_ns_bounds (wall q) = true
             /\ in_ns_bounds (utc_instant q) = true) ->
  to_datetime labels
  = Some (Ok (match utcoffset p with
              | None => DatetimeIndex (map wall (p :: ps)) None
              | Some off =>
                  if forallb (fun q => option_Z_eqb (utcoffset q) (Some off)) ps
                  then DatetimeIndex (map utc_instant (p :: ps)) (Some off)
                  else ObjectIndex
              end)).
Proof.
  intros Hps Hshape Hbounds. unfold to_datetime.
  destruct labels as [|l labels]; [discriminate|]. rewrite Hps.
  assert (H1 : forallb (fun q => iso_shape_eqb (shape q) (shape p)) ps = true).
  { apply forallb_forall. intros q Hq. rewrite (Hshape q Hq).
    apply iso_shape_eqb_refl. }
  assert (H2 : forallb (fun q => in_ns_bounds (wall q)) (p :: ps) = true).
  { apply forallb_forall. intros q Hq. apply (Hbounds q Hq). }
  assert (H3 : forallb (fun q => in_ns_bounds (utc_instant q)) (p :: ps) = true).
  { apply forallb_forall. intros q Hq. apply (Hbounds q Hq). }
  rewrite H1, H2. destruct (utcoffset p) as [off|]; [|reflexivity].
  rewrite H3.
  destruct (forallb (fun q => option_Z_eqb (utcoffset q) (Some off)) ps);
    reflexivity.
Qed.

Lemma forallb_common_offset (off : Z) (ps : list parsed_time) :
  Forall (fun q => utcoffset q = Some off) ps ->
  forallb (fun q => option_Z_eqb (utcoffset q) (Some off)) ps = true.
Proof.
  intros Hall. apply forallb_forall. intros q Hq.
  rewrite (proj1 (Forall_forall _ _) Hall q Hq). cbn. apply Z.eqb_refl.
Qed.

(** Lines 98-102 on an index read as instants with a time zone whose local
    readings fit the nanosecond range. *)
Lemma normalize_index_instants (w : world) (t : frame)
      (utc : list timestamp) (off : Z) :
  to_datetime (index t) = Some (Ok (DatetimeIndex utc (Some off))) ->
  (forall u, In u utc -> in_ns_bounds (tz_localize_none w u) = true) ->
  normalize_index w t
  = Ok (with_index t (map isoformat_seconds (map (tz_localize_none w) utc))).
Proof.
  intros Hread Hlocal. unfold normalize_index. rewrite Hread.
  cbn [bind tz_convert].
  assert (H : forallb in_ns_bounds (map (tz_localize_none w) utc) = true).
  { apply forallb_forall. intros x Hx. apply in_map_iff in Hx.
    destruct Hx as (u & <- & Hu). now apply Hlocal. }
  now rewrite H.
Qed.

(** Whatever line 98 makes of the index, the table that comes out has the
    columns it had and an index named after the zone. *)
Lemma normalize_index_frame (w : world) (t t' : frame) :
  normalize_index w t = Ok t' ->
  index_name t' = Some "Europe/Tallinn" /\ columns t' = columns t.
Proof.
  unfold normalize_index. intros H.
  assert (Hother : forall r : result (list string),
             (labels <- r ;; Ok (with_index t labels)) = Ok t' ->
             index_name t' = Some "Europe/Tallinn" /\ columns t' = columns t).
  { intros [labels|e] Hr; [|discriminate]. cbn [bind] in Hr.
    injection Hr as <-. split; reflexivity. }
  destruct (to_datetime (index t)) as [[d|e]|]; try discriminate.
  - cbn [bind] in H. destruct (tz_convert d) as [utc|e]; [|discriminate].
    cbn [bind] in H. destruct (forallb _ _).
    + injection H as <-. split; reflexivity.
    + now apply Hother in H.
  - now apply Hother in H.
Qed.

Lemma localized_text_parsed (w : world) (label : string) (p : parsed_time)
      (off : Z) :
  parse_iso label = Some p -> utcoffset p = Some off ->
  localized_text w label
  = Some (isoformat_seconds (tz_localize_none w (utc_instant p))).
Proof. intros Hp Hoff. unfold localized_text. now rewrite Hp, Hoff. Qed.



Example normalize_sample_table :
  option_map index
    (match normalize_index world_ok (sample_table "p101") with
     | Ok t' => Some t'
     | Raise _ => None
     end)
  = Some ["2024-01-15T10:00:00"; "2024-01-15T10:05:00"].
Proof. reflexivity. Qed.

(** * Further properties of the script *)

(** ** The chunker for any chunk size *)

Lemma py_slice_all {A : Type} (l : list A) :
  py_slice l 0 (Z.of_nat (length l)) = l.
Proof. rewrite py_slice_tail by lia. reflexivity. Qed.

Lemma arange_negative_step (n len : Z) :
  n < 0 -> 0 <= len -> Z.to_nat (ceil_div (len - n) n) = 0%nat.
Proof.
  intros Hn Hlen. unfold ceil_div.
  assert (0 <= - (len - n) / n) by (Z.div_mod_to_equations; nia).
  lia.
Qed.

Lemma sliced_requests_any_size (L : list string) (n : Z) :
  (n <> 0 ->
   exists batches,
     sliced_requests L n = Ok batches
     /\ batches <> []
     /\ concat batches = L
     /\ (n < 0 -> batches = [L]))
  /\ (n = 0 -> exists e, sliced_requests L n = Raise e).
Proof.
  split.
  - intros Hn. unfold sliced_requests, arange.
    destruct (Z.eqb_spec n 0) as [->|_]; [lia|]. cbn [bind].
    eexists. split; [reflexivity|]. rewrite array_split_sub_arys.
    destruct (Z_lt_le_dec n 0) as [Hneg|Hpos].
    + rewrite arange_negative_step by lia.
      cbn [arange_from List.app sub_arys concat].
      rewrite py_slice_all, app_nil_r.
      split; [discriminate|]. split; [reflexivity|]. intros _. reflexivity.
    + destruct L as [|x L].
      * replace (Z.to_nat (ceil_div (Z.of_nat (length (@nil string)) - n) n))
          with 0%nat
          by (unfold ceil_div; cbn [length Z.of_nat];
              replace (- (0 - n)) with (1 * n) by lia;
              rewrite Z.div_mul by lia; reflexivity).
        cbn. split; [discriminate|]. split; [reflexivity|]. lia.
      * assert (Hlen : 0 < Z.of_nat (length (x :: L))) by (simpl; lia).
        destruct (arange_steps n _ ltac:(lia) Hlen) as [Hlo Hhi].
        pose proof (sub_arys_arange (x :: L) n ltac:(lia)
                      (Z.to_nat (ceil_div (Z.of_nat (length (x :: L)) - n) n))
                      0 ltac:(lia) ltac:(lia) ltac:(lia)) as H.
        cbn zeta in H. rewrite Z.add_0_l in H.
        destruct H as (Hcat & _ & _ & Hcount).
        split; [intros E; rewrite E in Hcount; discriminate|].
        split; [exact Hcat | lia].
  - intros ->. unfold sliced_requests, arange. cbn [Z.eqb bind].
    now eexists.
Qed.

(** X1.  Whatever the chunk size, zero apart, and whatever the list, empty
    or not, the chunker raises nothing, returns at least one batch, and the
    batches put end to end are the list: no identifier is lost, repeated or
    moved.  A negative chunk size is not refused: it gives the whole list as
    one batch.  A chunk size of zero is refused. *)
Theorem chunker_any_chunk_size (L : list string) (n : Z) :
  (n <> 0 ->
   exists batches,
     sliced_requests L n = Ok batches
     /\ batches <> []
     /\ concat batches = L
     /\ (n < 0 -> batches = [L]))
  /\ (n = 0 -> exists e, sliced_requests L n = Raise e).
Proof. exact (sliced_requests_any_size L n). Qed.

(** The batch at position [i]: [n] identifiers from position [i * n] on, or
    what is left of the list. *)
Lemma sub_arys_arange_nth {A : Type} (l : list A) (n : Z) :
  0 < n ->
  forall (k : nat) (st : Z) (i : nat),
    0 <= st ->
    st + n * Z.of_nat k < Z.of_nat (length l) ->
    Z.of_nat (length l) <= st + n * (Z.of_nat k + 1) ->
    (i <= k)%nat ->
    nth i (sub_arys l st (arange_from k (st + n) n ++ [Z.of_nat (length l)]))
        []
    = firstn (Z.to_nat n) (skipn (Z.to_nat (st + n * Z.of_nat i)) l).
Proof.
  intros Hn. induction k as [|k IH]; intros st i Hst Hlo Hhi Hi.
  - assert (i = 0%nat) as -> by lia.
    cbn [arange_from List.app sub_arys nth].
    rewrite py_slice_tail by lia.
    replace (st + n * Z.of_nat 0) with st by lia.
    symmetry. apply firstn_all2. rewrite length_skipn. lia.
  - cbn [arange_from List.app sub_arys]. destruct i as [|i]; cbn [nth].
    + rewrite py_slice_inner by lia.
      replace (st + n - st) with n by lia.
      replace (st + n * Z.of_nat 0) with st by lia. reflexivity.
    + rewrite IH by lia. do 2 f_equal. lia.
Qed.

(** X2.  For a non-empty list and a chunk size [n > 0] the chunker makes
    the least number of batches that size allows, [ceil(|L| / n)], and the
    batch at position [i] holds the [n] identifiers from position [i * n] of
    the list on, or those that are left: the identifier at position [p] goes
    out with batch [p / n]. *)
Theorem chunker_batch_positions (L : list string) (n : Z) :
  L <> [] -> 0 < n ->
  exists batches,
    sliced_requests L n = Ok batches
    /\ Z.of_nat (length batches) = ceil_div (Z.of_nat (length L)) n
    /\ forall i : nat,
         (i < length batches)%nat ->
         nth i batches []
         = firstn (Z.to_nat n) (skipn (i * Z.to_nat n) L).
Proof.
  intros HL Hn.
  assert (Hlen : 0 < Z.of_nat (length L))
    by (destruct L; [congruence | simpl; lia]).
  unfold sliced_requests, arange.
  destruct (Z.eqb_spec n 0) as [->|_]; [lia|]. cbn [bind].
  eexists. split; [reflexivity|]. rewrite array_split_sub_arys.
  destruct (arange_steps n _ Hn Hlen) as [Hlo Hhi].
  set (k := Z.to_nat (ceil_div (Z.of_nat (length L) - n) n)) in *.
  pose proof (sub_arys_arange L n Hn k 0 ltac:(lia) ltac:(lia) ltac:(lia))
    as H.
  cbn zeta in H. rewrite Z.add_0_l in H. destruct H as (_ & _ & _ & Hcount).
  split.
  - rewrite Hcount. unfold ceil_div. Z.div_mod_to_equations. nia.
  - intros i Hi. rewrite Hcount in Hi.
    pose proof (sub_arys_arange_nth L n Hn k 0 i ltac:(lia) ltac:(lia)
                  ltac:(lia) ltac:(lia)) as Hnth.
    rewrite Z.add_0_l in Hnth. rewrite Hnth. do 2 f_equal. lia.
Qed.

Lemma chunker_any_chunk_size_witness :
  exists batches,
    sliced_requests ["101"; "102"; "103"] (-2) = Ok batches
    /\ batches <> []
    /\ concat batches = ["101"; "102"; "103"]
    /\ (-2 < 0 -> batches = [["101"; "102"; "103"]]).
Proof.
  refine (proj1 (chunker_any_chunk_size ["101"; "102"; "103"] (-2)) _). lia.
Defined.

Lemma chunker_batch_positions_witness :
  exists batches,
    sliced_requests ["101"; "102"; "103"; "104"; "105"] 2 = Ok batches
    /\ Z.of_nat (length batches) = ceil_div 5 2
    /\ forall i : nat,
         (i < length batches)%nat ->
         nth i batches []
         = firstn 2 (skipn (i * 2) ["101"; "102"; "103"; "104"; "105"]).
Proof.
  apply (chunker_batch_positions ["101"; "102"; "103"; "104"; "105"] 2).
  - discriminate.
  - lia.
Defined.

(** ** Identifiers and URL quoting *)

Lemma string_forall_append (p : ascii -> bool) (a b : string) :
  string_forall p (a ++ b) = string_forall p a && string_forall p b.
Proof.
  induction a as [|c a IH]; simpl; [reflexivity|].
  now rewrite IH, Bool.andb_assoc.
Qed.

Lemma quote_char_quoted (c : ascii) :
  string_forall is_quoted_char (quote_char c) = true.
Proof. destruct c as [[] [] [] [] [] [] [] []]; reflexivity. Qed.

Lemma unquote_quote_char (c : ascii) (rest : string) :
  unquote_plus (quote_char c ++ rest) = String c (unquote_plus rest).
Proof. destruct c as [[] [] [] [] [] [] [] []]; reflexivity. Qed.

Lemma unquote_quote_plus (s : string) : unquote_plus (quote_plus s) = s.
Proof.
  induction s as [|c s IH]; [reflexivity|].
  cbn [quote_plus]. now rewrite unquote_quote_char, IH.
Qed.

Lemma contains_string_forall (p : ascii -> bool) (c : ascii) (s : string) :
  string_forall p s = true -> contains c s = true -> p c = true.
Proof.
  induction s as [|c' s IH]; simpl; [discriminate|].
  rewrite Bool.andb_true_iff, Bool.orb_true_iff.
  intros [Hc Hs] [E|E]; [|auto].
  apply Ascii.eqb_eq in E. now subst.
Qed.

(** X3.  What [quote_plus] writes holds only letters, digits, the four
    marks [_ . - ~], the plus sign and percent escapes.  A quoted path or
    value therefore never holds a slash, a question mark, an ampersand, an
    equals sign, a hash or a space, whatever the text quoted: the file path
    stays one segment of the URL and a value cannot break out of its
    parameter. *)
Theorem quote_plus_alphabet (s : string) :
  string_forall is_quoted_char (quote_plus s) = true
  /\ contains "/" (quote_plus s) = false
  /\ contains "?" (quote_plus s) = false
  /\ contains "&" (quote_plus s) = false
  /\ contains "=" (quote_plus s) = false
  /\ contains "#" (quote_plus s) = false
  /\ contains " " (quote_plus s) = false.
Proof.
  assert (H : string_forall is_quoted_char (quote_plus s) = true).
  { induction s as [|c s IH]; [reflexivity|].
    cbn [quote_plus]. now rewrite string_forall_append, quote_char_quoted. }
  split; [exact H|].
  repeat split;
    match goal with
    | |- contains ?c _ = false =>
        destruct (contains c (quote_plus s)) eqn:E; [|reflexivity];
        pose proof (contains_string_forall _ c _ H E); discriminate
    end.
Qed.

(** X4.  Quoting loses nothing: two texts with the same quoted form are the
    same text, so two different identifiers, windows or file paths never
    give the same URL part. *)
Theorem quote_plus_injective (a b : string) :
  quote_plus a = quote_plus b -> a = b.
Proof.
  intros H. rewrite <- (unquote_quote_plus a), <- (unquote_quote_plus b).
  now rewrite H.
Qed.

Lemma quote_plus_injective_witness :
  "in/points.csv" = "in/points.csv".
Proof.
  apply (quote_plus_injective "in/points.csv" "in/points.csv"). reflexivity.
Defined.

Lemma quote_plus_unreserved (s : string) :
  string_forall is_unreserved s = true -> quote_plus s = s.
Proof.
  induction s as [|c s IH]; [reflexivity|]. cbn [string_forall quote_plus].
  rewrite Bool.andb_true_iff. intros [Hc Hs].
  unfold quote_char. rewrite Hc. cbn [append]. now rewrite IH.
Qed.

Lemma all_digits_unreserved (s : string) :
  all_digits s = true -> string_forall is_unreserved s = true.
Proof.
  induction s as [|c s IH]; [reflexivity|]. cbn [all_digits string_forall].
  rewrite !Bool.andb_true_iff. intros [[H1 H2] Hs]. split; [|auto].
  unfold is_unreserved. apply Z.leb_le in H1, H2.
  assert ((48 <=? N_of_ascii c)%N = true) as -> by (apply N.leb_le; lia).
  assert ((N_of_ascii c <=? 57)%N = true) as -> by (apply N.leb_le; lia).
  reflexivity.
Qed.

Lemma format_0f_unreserved (x : spec_float) :
  string_forall is_unreserved (format_0f x) = true.
Proof.
  destruct x as [s|s| |s m e]; try (destruct s; reflexivity);
    [reflexivity|].
  cbn [format_0f]. rewrite string_forall_append.
  rewrite (all_digits_unreserved _ (all_digits_decimal _)).
  destruct s; reflexivity.
Qed.

(** X5.  Every identifier the extractor makes, whatever the entry it comes
    from, is written into the query as it is: quoting changes none of its
    characters. *)
Theorem identifier_quoted_verbatim (x : spec_float) :
  quote_plus (format_0f x) = format_0f x.
Proof. apply quote_plus_unreserved, format_0f_unreserved. Qed.

(** ** The shape of a query string *)

Lemma count_char_append (c : ascii) (a b : string) :
  count_char c (a ++ b) = (count_char c a + count_char c b)%nat.
Proof.
  induction a as [|x a IH]; simpl; [reflexivity|].
  destruct (Ascii.eqb x c); simpl; now rewrite IH.
Qed.

Lemma count_char_absent (c : ascii) (s : string) :
  contains c s = false -> count_char c s = 0%nat.
Proof.
  induction s as [|x s IH]; simpl; [reflexivity|].
  rewrite Bool.orb_false_iff. intros [-> Hs]. auto.
Qed.

Lemma count_char_quote_plus (s : string) :
  count_char "&" (quote_plus s) = 0%nat
  /\ count_char "=" (quote_plus s) = 0%nat.
Proof.
  destruct (quote_plus_alphabet s) as (_ & _ & _ & Hamp & Heq & _).
  split; now apply count_char_absent.
Qed.

(** The pairs [urlencode] writes for a dictionary. *)
Lemma urlencode_item_counts (kv : string * pyval) :
  Forall (fun pair => count_char "&" pair = 0%nat
                      /\ count_char "=" pair = 1%nat)
         (urlencode_item kv).
Proof.
  destruct kv as [k v]. unfold urlencode_item. cbn [fst snd].
  destruct (count_char_quote_plus k) as [Hk1 Hk2].
  destruct v as [v|elts].
  - destruct (count_char_quote_plus v) as [Hv1 Hv2].
    repeat constructor; rewrite !count_char_append; cbn [count_char];
      rewrite ?Hk1, ?Hk2, ?Hv1, ?Hv2; reflexivity.
  - apply Forall_forall. intros pair Hin. apply in_map_iff in Hin.
    destruct Hin as (elt & <- & _).
    destruct (count_char_quote_plus elt) as [Hv1 Hv2].
    split; rewrite !count_char_append; cbn [count_char];
      rewrite ?Hk1, ?Hk2, ?Hv1, ?Hv2; reflexivity.
Qed.

Lemma join_counts (pairs : list string) :
  Forall (fun pair => count_char "&" pair = 0%nat
                      /\ count_char "=" pair = 1%nat) pairs ->
  count_char "&" (join "&" pairs) = pred (length pairs)
  /\ count_char "=" (join "&" pairs) = length pairs.
Proof.
  induction 1 as [|pair rest [Hamp Heq] Hrest [IH1 IH2]]; [split; reflexivity|].
  destruct rest as [|next rest].
  - cbn [join length pred]. auto.
  - change (join "&" (pair :: next :: rest))
      with (pair ++ "&" ++ join "&" (next :: rest))%string.
    rewrite !count_char_append, IH1, IH2, Hamp, Heq.
    cbn [length pred]. split; reflexivity.
Qed.

(** X6.  Whatever the keys and the values of the dictionary, the text
    [urlencode] returns holds one equals sign for each pair it writes and
    one ampersand between two pairs, and none elsewhere: a value never adds a
    separator.  For a batch the pairs are the start of the window, one
    [scada_point] for each identifier of the batch, and the end. *)
Theorem urlencode_one_pair_per_value (query : dict) :
  count_char "=" (urlencode query) = length (flat_map urlencode_item query)
  /\ count_char "&" (urlencode query)
     = pred (length (flat_map urlencode_item query))
  /\ forall (T : string) (points : list string),
       length (flat_map urlencode_item (window_params T points))
       = (length points + 2)%nat.
Proof.
  assert (H : Forall (fun pair => count_char "&" pair = 0%nat
                                  /\ count_char "=" pair = 1%nat)
                     (flat_map urlencode_item query)).
  { apply Forall_flat_map. apply Forall_forall. intros kv _.
    apply urlencode_item_counts. }
  destruct (join_counts _ H) as [Hamp Heq].
  repeat split; try assumption.
  intros T points. cbn. rewrite length_app, length_map. simpl. lia.
Qed.

(** ** Identifiers *)

(** X7.  An entry whose value is a whole number [k], however the float
    holds it, becomes the digits of [k] exactly, after the minus sign of a
    negative entry: 101.0 is sent as 101. *)
Theorem format_0f_integer_exact (s : bool) (m : positive) (e k : Z) :
  (0 <= e /\ k = Z.pos m * 2 ^ e) \/ (e < 0 /\ Z.pos m = k * 2 ^ (- e)) ->
  format_0f (S754_finite s m e) = (sign_text s ++ decimal k)%string.
Proof.
  intros H. cbn [format_0f]. do 2 f_equal. unfold round_half_even.
  destruct H as [[He ->]|[He Hm]].
  - destruct (Z.leb_spec 0 e); [reflexivity | lia].
  - destruct (Z.leb_spec 0 e); [lia|].
    assert (Hd : 0 < 2 ^ (- e)) by (apply Z.pow_pos_nonneg; lia).
    rewrite Hm, Z.div_mul, Z.mod_mul by lia.
    cbn [Z.mul]. destruct (Z.ltb_spec 0 (2 ^ (- e))); [reflexivity | lia].
Qed.

Lemma format_0f_integer_exact_witness :
  format_0f (S754_finite false 7107243161944064 (-46)) = "101".
Proof.
  apply (format_0f_integer_exact false 7107243161944064 (-46) 101).
  right. split; [lia | reflexivity].
Defined.

Lemma decimal_not_empty (k : Z) : decimal k <> "".
Proof.
  unfold decimal, NilZero.string_of_uint.
  destruct (N.to_uint (Z.to_N k)); discriminate.
Qed.

Lemma decimal_starts_with_digit (k : Z) :
  exists c rest, decimal k = String c rest /\ is_digit c = true.
Proof.
  pose proof (all_digits_decimal k) as H.
  pose proof (decimal_not_empty k) as Hne.
  destruct (decimal k) as [|c rest]; [congruence|].
  exists c, rest. split; [reflexivity|].
  cbn [all_digits] in H. apply Bool.andb_true_iff in H. destruct H as [H _].
  unfold is_digit, digit_value. now rewrite H.
Qed.

(** X8.  Whatever the reference column holds, no identifier is the empty
    text and none is the text nan: a missing entry is dropped, never sent;
    and a column with no missing entry gives one identifier a row. *)
Theorem identifiers_never_empty_never_nan (df : csv_frame)
        (points : list string) :
  requested_points df = Ok points ->
  ~ In "" points
  /\ ~ In "nan" points
  /\ forall col,
       getitem_column df "FromMwAnalogPointRef" = Ok col ->
       forallb (fun x => negb (isna x)) col = true ->
       length points = length col.
Proof.
  unfold requested_points.
  destruct (getitem_column df "FromMwAnalogPointRef") as [col|e];
    [|discriminate].
  cbn [bind]. intros [= <-].
  assert (Hfmt : forall x, isna x = false ->
                           format_0f x <> "" /\ format_0f x <> "nan").
  { intros [s|s| |s m e] Hx; try discriminate Hx;
      try (destruct s; split; discriminate).
    cbn [format_0f].
    destruct (decimal_starts_with_digit (round_half_even m e))
      as (c & rest & -> & Hc).
    destruct s; cbn [sign_text append]; split; try discriminate.
    intros [= -> _]. discriminate Hc. }
  repeat split.
  - intros Hin. apply in_map_iff in Hin. destruct Hin as (x & Hx & Hin).
    apply filter_In in Hin. destruct Hin as [_ Hna].
    apply Bool.negb_true_iff in Hna. now destruct (Hfmt x Hna).
  - intros Hin. apply in_map_iff in Hin. destruct Hin as (x & Hx & Hin).
    apply filter_In in Hin. destruct Hin as [_ Hna].
    apply Bool.negb_true_iff in Hna. now destruct (Hfmt x Hna).
  - intros col' [= <-] Hall. rewrite length_map. unfold dropna.
    clear Hfmt. induction col as [|x col IH]; [reflexivity|].
    cbn [forallb] in Hall. apply Bool.andb_true_iff in Hall.
    destruct Hall as [Hx Hall]. cbn [filter]. rewrite Hx.
    cbn [length]. now rewrite IH.
Qed.

Lemma identifiers_never_empty_never_nan_witness :
  ~ In "" ["101"; "102"; "103"; "104"; "105"]
  /\ ~ In "nan" ["101"; "102"; "103"; "104"; "105"].
Proof.
  destruct (identifiers_never_empty_never_nan sample_df
              ["101"; "102"; "103"; "104"; "105"] eq_refl) as (H1 & H2 & _).
  split; assumption.
Defined.

(** ** The window and the clock *)

Lemma round_nsint64_slot (value unit q : Z) :
  0 < unit -> unit mod 2 = 0 ->
  2 * Z.abs (value - q * unit) < unit ->
  round_nsint64 value unit = q * unit.
Proof.
  intros Hu Heven Hnear. unfold round_nsint64. rewrite Heven. cbn [Z.eqb].
  pose proof (Z.div_mod value unit ltac:(lia)) as Hdm.
  pose proof (Z.mod_pos_bound value unit Hu) as Hr.
  pose proof (Z.div_mod unit 2 ltac:(lia)) as Hu2. rewrite Heven in Hu2.
  set (d := value / unit) in *. set (rem := value mod unit) in *.
  set (h := unit / 2) in *.
  destruct ((h <? rem) || ((rem =? h) && Z.odd d)) eqn:E; bool_to_prop.
  - replace q with (d + 1) by nia. reflexivity.
  - replace q with d by nia. reflexivity.
Qed.

Lemma round_nsint64_monotone (a b unit : Z) :
  0 < unit -> unit mod 2 = 0 -> a <= b ->
  round_nsint64 a unit <= round_nsint64 b unit.
Proof.
  intros Hu Heven Hab.
  destruct (round_nsint64_nearest a unit Hu Heven) as (Ha1 & Ha2 & Ha3).
  destruct (round_nsint64_nearest b unit Hu Heven) as (Hb1 & Hb2 & Hb3).
  set (ra := round_nsint64 a unit) in *.
  set (rb := round_nsint64 b unit) in *.
  apply Z.mod_divide in Ha1, Hb1; try lia.
  destruct Ha1 as [x Hx], Hb1 as [y Hy].
  destruct (Z_le_gt_dec ra rb) as [|Hgt]; [assumption|exfalso].
  assert (Hxy : y + 1 <= x) by nia.
  assert (Hstep : rb + unit <= ra) by nia.
  assert (Htie : ra = rb + unit /\ 2 * Z.abs (ra - a) = unit
                 /\ 2 * Z.abs (rb - b) = unit) by lia.
  destruct Htie as (E & Ta & Tb).
  specialize (Ha3 Ta). specialize (Hb3 Tb).
  rewrite Hx, Z.div_mul in Ha3 by lia. rewrite Hy, Z.div_mul in Hb3 by lia.
  assert (x = y + 1) by nia. subst x.
  rewrite Z.even_add in Ha3. rewrite Hb3 in Ha3. discriminate.
Qed.

(** X9.  The start of the window depends on the clock only through the
    five-minute slot the look-back instant falls in: two readings whose
    look-back instants lie less than two and a half minutes from the same
    multiple of five minutes give the same text, that of this multiple; and a
    later reading never gives an earlier start. *)
Theorem start_time_by_slot (now1 now2 td q : Z) :
  2 * Z.abs (now1 - timedelta_minutes td - q * freq_5T) < freq_5T ->
  2 * Z.abs (now2 - timedelta_minutes td - q * freq_5T) < freq_5T ->
  start_time_text now1 td = isoformat_seconds (q * freq_5T)
  /\ start_time_text now2 td = start_time_text now1 td
  /\ forall a b : Z,
       a <= b ->
       timestamp_round (a - timedelta_minutes td) freq_5T
       <= timestamp_round (b - timedelta_minutes td) freq_5T.
Proof.
  intros H1 H2. unfold start_time_text, timestamp_round.
  rewrite (round_nsint64_slot _ freq_5T q) by (try reflexivity; assumption).
  rewrite (round_nsint64_slot _ freq_5T q) by (try reflexivity; assumption).
  repeat split. intros a b Hab.
  apply round_nsint64_monotone; try reflexivity. lia.
Qed.

Lemma start_time_by_slot_witness :
  start_time_text 1705313280000000 5 = isoformat_seconds (5684377 * freq_5T)
  /\ start_time_text 1705313399000000 5 = start_time_text 1705313280000000 5.
Proof.
  destruct (start_time_by_slot 1705313280000000 1705313399000000 5 5684377)
    as (H1 & H2 & _).
  - vm_compute. reflexivity.
  - vm_compute. reflexivity.
  - split; assumption.
Defined.

(** X10.  The start of the window lies within two and a half minutes of
    the look-back instant, before or after it, so with a look-back of three
    minutes or more it is never after the reading of the clock. *)
Theorem start_time_not_in_future (now td : Z) :
  let r := timestamp_round (now - timedelta_minutes td) freq_5T in
  now - timedelta_minutes td - 150 * us_per_second <= r
  /\ r <= now - timedelta_minutes td + 150 * us_per_second
  /\ (3 <= td -> r <= now).
Proof.
  cbn zeta.
  destruct (round_nsint64_nearest (now - timedelta_minutes td) freq_5T)
    as (_ & Hnear & _); [reflexivity | reflexivity |].
  unfold timestamp_round.
  set (r := round_nsint64 (now - timedelta_minutes td) freq_5T) in *.
  unfold timedelta_minutes, freq_5T, us_per_second in *.
  repeat split; lia.
Qed.

Lemma start_time_not_in_future_witness :
  timestamp_round (1705313280000000 - timedelta_minutes 5) freq_5T
  <= 1705313280000000.
Proof.
  refine (proj2 (proj2 (start_time_not_in_future 1705313280000000 5)) _).
  lia.
Defined.

(** ** A run from end to end *)

Lemma getitem_column_missing (df : csv_frame) (name : string) :
  (forall c, In c df -> fst c <> name) ->
  getitem_column df name = Raise (KeyError name).
Proof.
  intros H. unfold getitem_column.
  destruct (find (fun c => String.eqb (fst c) name) df) as [c|] eqn:E;
    [|reflexivity].
  apply find_some in E. destruct E as [Hin Heq].
  apply String.eqb_eq in Heq. now destruct (H c Hin).
Qed.

(** X11.  When the source file has no column [FromMwAnalogPointRef] the run
    ends with the [KeyError] for that name, and when the chunk size is zero it
    ends with an error too.  In both cases the script has by then fetched and
    read the source file and done nothing else: the clock has not been read,
    nothing has been printed, no query has gone to the data API and nothing
    has been uploaded. *)
Theorem bad_input_fails_before_any_effect (w : world) (cfg : config)
        (df : csv_frame) :
  ((forall c, In c df -> fst c <> "FromMwAnalogPointRef") ->
   run w cfg df = (Raise (KeyError "FromMwAnalogPointRef"), initial_state))
  /\ (forall points,
         requested_points df = Ok points ->
         chunk_size cfg = 0 ->
         exists e, run w cfg df = (Raise e, initial_state)).
Proof.
  split.
  - intros H. apply run_no_points. unfold requested_points.
    now rewrite getitem_column_missing.
  - intros points Hpoints Hzero.
    destruct (proj2 (sliced_requests_any_size points 0) eq_refl) as [e He].
    exists e. apply (run_no_batches w cfg df points e Hpoints).
    now rewrite Hzero.
Qed.

Lemma bad_input_fails_before_any_effect_witness :
  run world_ok sample_cfg [("SomeOtherColumn", [S754_zero false])]
  = (Raise (KeyError "FromMwAnalogPointRef"), initial_state).
Proof.
  refine (proj1 (bad_input_fails_before_any_effect world_ok sample_cfg
                   [("SomeOtherColumn", [S754_zero false])]) _).
  intros c [<-|[]]. discriminate.
Defined.

(** X12.  In any run the queries sent are those of the first batches, in
    order and one each, and the batches put end to end are the identifiers of
    the file; a run that ends well has sent the query of every batch.  So no
    identifier is queried twice, and none is skipped before the run ends. *)
Theorem identifiers_queried_once_in_order (w : world) (cfg : config)
        (df : csv_frame) (points : list string)
        (batches : list (list string)) :
  requested_points df = Ok points ->
  sliced_requests points (chunk_size cfg) = Ok batches ->
  concat batches = points
  /\ exists k : nat,
       filter is_get (trace (snd (run w cfg df)))
       = map (fun b => Get (query_for cfg
                              (start_time_text (utcnow w 0) (timedelta cfg))
                              b))
             (firstn k batches)
       /\ (fst (run w cfg df) = Ok tt -> firstn k batches = batches).
Proof.
  intros Hpoints Hbatches. split.
  - destruct (Z.eq_dec (chunk_size cfg) 0) as [E|E].
    + destruct (proj2 (sliced_requests_any_size points _) E) as [e He].
      congruence.
    + destruct (proj1 (sliced_requests_any_size points _) E)
        as (bs & Hbs & _ & Hcat & _).
      congruence.
  - destruct (run_loop w cfg df points batches Hpoints Hbatches)
      as (s1 & _ & _ & Htrace & _ & Hrun).
    cbn zeta in *.
    set (T := start_time_text (utcnow w 0) (timedelta cfg)) in *.
    set (o := outcomes w cfg T 0 batches) in *.
    exists (dispatched o).
    assert (Hs1 : filter is_get (trace s1)
                  = map (fun b => Get (query_for cfg T b))
                        (firstn (dispatched o) batches)).
    { rewrite Htrace. cbn [filter is_get]. apply filter_get_dispatch. }
    rewrite Hrun. destruct (snd o) eqn:Hsnd.
    + split; [exact Hs1 | discriminate].
    + destruct (merge_and_upload_trace w cfg s1) as (evs & -> & Hevs).
      rewrite filter_app, Hs1, (filter_get_no_get evs Hevs), app_nil_r.
      split; [reflexivity|]. intros _.
      unfold dispatched. rewrite Hsnd. subst o.
      rewrite (outcomes_all_ok w cfg T batches 0 Hsnd).
      apply firstn_all.
Qed.

Lemma identifiers_queried_once_in_order_witness :
  concat [["101"; "102"]; ["103"; "104"]; ["105"]]
  = ["101"; "102"; "103"; "104"; "105"].
Proof.
  refine (proj1 (identifiers_queried_once_in_order world_ok sample_cfg
                   sample_df ["101"; "102"; "103"; "104"; "105"]
                   [["101"; "102"]; ["103"; "104"]; ["105"]] _ _));
    reflexivity.
Defined.

(** The merge and the upload on the state the loop leaves. *)
Lemma merge_and_upload_run (w : world) (cfg : config) (s : state) :
  merge_and_upload w cfg s
  = match pd_concat_axis1 (results s) with
    | Raise e => (Raise e, s)
    | Ok merged =>
        match normalize_index w merged with
        | Raise e => (Raise e, s)
        | Ok endresult =>
            match json_body (gitlab_put w) with
            | None =>
                (Raise (JSONDecodeError (content (gitlab_put w))),
                 {| params := params s; results := results s;
                    clock_reads := S (clock_reads s);
                    requests_sent := requests_sent s;
                    trace := trace s
                             ++ [PrintFrame endresult;
                                 Utcnow (utcnow w (clock_reads s));
                                 upload_event w cfg (clock_reads s)
                                              endresult] |})
            | Some reply =>
                (Ok tt,
                 {| params := params s; results := results s;
                    clock_reads := S (clock_reads s);
                    requests_sent := requests_sent s;
                    trace := trace s
                             ++ [PrintFrame endresult;
                                 Utcnow (utcnow w (clock_reads s));
                                 upload_event w cfg (clock_reads s) endresult;
                                 PrintJson reply; Print "Done!"] |})
            end
        end
    end.
Proof.
  unfold merge_and_upload, upload, upload_event.
  unfold mbind, get_results, lift, emit, read_clock, raise.
  destruct (pd_concat_axis1 (results s)) as [merged|e]; [|reflexivity].
  destruct (normalize_index w merged) as [endresult|e]; [|reflexivity].
  cbn [params results clock_reads requests_sent trace].
  destruct (json_body (gitlab_put w));
    cbn [params results clock_reads requests_sent trace];
    rewrite <- ?app_assoc; reflexivity.
Qed.



(** X14.  Nothing partial is ever uploaded.  If a run uploads a table at
    all, then every batch had yielded its table, the loop had made one table
    a batch, and the table uploaded is the merge of all of them with the
    index changed to local time and named Europe/Tallinn.  And a run uploads
    at most once. *)
Theorem upload_only_of_complete_merge (w : world) (cfg : config)
        (df : csv_frame) (target to_branch message : string) (table : frame) :
  In (Put target to_branch message table) (trace (snd (run w cfg df))) ->
  (exists points batches tables merged,
      requested_points df = Ok points
      /\ sliced_requests points (chunk_size cfg) = Ok batches
      /\ outcomes w cfg (start_time_text (utcnow w 0) (timedelta cfg))
                  0 batches = (tables, None)
      /\ length tables = length batches
      /\ pd_concat_axis1 tables = Ok merged
      /\ normalize_index w merged = Ok table
      /\ index_name table = Some "Europe/Tallinn")
  /\ (length (filter is_put (trace (snd (run w cfg df)))) <= 1)%nat.
Proof.
  intros Hin.
  destruct (requested_points df) as [points|e] eqn:Hpoints;
    [|rewrite (run_no_points w cfg df e Hpoints) in Hin; destruct Hin].
  destruct (sliced_requests points (chunk_size cfg)) as [batches|e] eqn:Hb;
    [|rewrite (run_no_batches w cfg df points e Hpoints Hb) in Hin;
      destruct Hin].
  destruct (run_loop w cfg df points batches Hpoints Hb)
    as (s1 & Hres & _ & Htrace & _ & Hrun).
  cbn zeta in *.
  set (T := start_time_text (utcnow w 0) (timedelta cfg)) in *.
  pose proof (no_put_dispatch cfg T 0
                (firstn (dispatched (outcomes w cfg T 0 batches)) batches))
    as Hnoput.
  assert (Hloop : forall ev, In ev (trace s1) -> is_put ev = false).
  { intros ev Hev. rewrite Htrace in Hev.
    destruct Hev as [<-|[<-|Hev]]; try reflexivity.
    rewrite forallb_forall in Hnoput. specialize (Hnoput ev Hev).
    apply Bool.andb_true_iff in Hnoput. destruct Hnoput as [Hp _].
    now apply Bool.negb_true_iff in Hp. }
  assert (Hfilter : filter is_put (trace s1) = []).
  { clear -Hloop. induction (trace s1) as [|ev tr IH]; [reflexivity|].
    cbn [filter]. rewrite (Hloop ev (or_introl eq_refl)).
    apply IH. intros ev' H. apply Hloop. now right. }
  destruct (outcomes w cfg T 0 batches) as [tables failure] eqn:Hout.
  cbn [fst snd] in *. rewrite Hrun in *.
  destruct failure as [e|].
  { cbn [snd] in Hin. pose proof (Hloop _ Hin) as Hc. discriminate Hc. }
  rewrite merge_and_upload_run in *. rewrite Hres in *.
  destruct (pd_concat_axis1 tables) as [merged|e] eqn:Hmerge;
    [|cbn [snd] in *; pose proof (Hloop _ Hin) as Hc; discriminate Hc].
  destruct (normalize_index w merged) as [endresult|e] eqn:Hnorm;
    [|cbn [snd] in *; pose proof (Hloop _ Hin) as Hc; discriminate Hc].
  assert (Hname : index_name endresult = Some "Europe/Tallinn")
    by apply (normalize_index_frame w merged endresult Hnorm).
  pose proof (outcomes_all_ok w cfg T batches 0) as Hlen.
  rewrite Hout in Hlen. cbn [fst snd] in Hlen. specialize (Hlen eq_refl).
  assert (Htable : table = endresult).
  { destruct (json_body (gitlab_put w)); cbn [snd trace] in Hin;
      apply in_app_or in Hin;
      (destruct Hin as [Hin|Hin];
       [pose proof (Hloop _ Hin) as Hc; discriminate Hc|]);
      unfold upload_event in Hin;
      repeat (destruct Hin as [Hin|Hin]; try discriminate; try contradiction);
      now injection Hin. }
  subst table. split.
  - exists points, batches, tables, merged. repeat split; assumption.
  - destruct (json_body (gitlab_put w)); cbn [snd trace];
      rewrite filter_app, Hfilter; cbn; lia.
Qed.

Lemma upload_only_of_complete_merge_witness :
  (length (filter is_put (trace (snd (run world_ok sample_cfg sample_df))))
   <= 1)%nat.
Proof.
  refine (proj2 (upload_only_of_complete_merge world_ok sample_cfg sample_df
                   "https://gitlab.local/api/v4/projects/7/repository/files/out%2Fdata.csv"
                   "main" "Automatic upload at: 2024-01-15 10:08:07 UTC"
                   (match normalize_index world_ok
                            (match pd_concat_axis1
                                     (fst (outcomes world_ok sample_cfg
                                             "2024-01-15T10:05:00" 0
                                             [["101"; "102"]; ["103"; "104"];
                                              ["105"]]))
                             with Ok t => t | Raise _ => sample_table "" end)
                    with Ok t => t | Raise _ => sample_table "" end)
                   _)).
  vm_compute. do 10 right. left. reflexivity.
Defined.


(** ** The calendar both ways *)

Lemma doe_year (doe : Z) :
  0 <= doe <= 146096 ->
  let yoe := (doe - doe / 1460 + doe / 36524 - doe / 146096) / 365 in
  let doy := doe - (365 * yoe + yoe / 4 - yoe / 100) in
  0 <= yoe <= 399 /\ 0 <= doy <= 365
  /\ (doy = 365 -> (yoe + 1) mod 4 = 0 /\ ((yoe + 1) mod 100 <> 0 \/ yoe = 399)).
Proof.
  intros H. cbn zeta. Z.div_mod_to_equations; lia.
Qed.

Lemma doy_month (doy : Z) :
  0 <= doy <= 365 ->
  let mp := (5 * doy + 2) / 153 in
  let d := doy - (153 * mp + 2) / 5 + 1 in
  0 <= mp <= 11 /\ 1 <= d <= 31
  /\ (mp = 1 \/ mp = 3 \/ mp = 6 \/ mp = 8 -> d <= 30)
  /\ (mp = 11 -> d <= 29 /\ (d = 29 -> doy = 365)).
Proof.
  intros H. cbn zeta. Z.div_mod_to_equations; lia.
Qed.

Lemma civil_from_days_valid (z : Z) :
  let '(y, m, d) := civil_from_days z in
  1 <= m <= 12 /\ 1 <= d <= days_in_month y m /\ days_from_civil y m d = z.
Proof.
  unfold civil_from_days. cbn zeta.
  set (era := (z + 719468) / 146097).
  set (doe := z + 719468 - era * 146097).
  assert (Hdoe : 0 <= doe <= 146096)
    by (subst doe era; Z.div_mod_to_equations; lia).
  destruct (doe_year doe Hdoe) as (Hyoe & Hdoy & Hleap).
  set (yoe := (doe - doe / 1460 + doe / 36524 - doe / 146096) / 365) in *.
  set (doy := doe - (365 * yoe + yoe / 4 - yoe / 100)) in *.
  destruct (doy_month doy Hdoy) as (Hmp & Hd & H30 & H29).
  set (mp := (5 * doy + 2) / 153) in *.
  set (d := doy - (153 * mp + 2) / 5 + 1) in *.
  set (m := if mp <? 10 then mp + 3 else mp - 9).
  assert (Hm : 1 <= m <= 12 /\ (m <= 2 <-> 10 <= mp)
               /\ (if 2 <? m then m - 3 else m + 9) = mp).
  { subst m. destruct (Z.ltb_spec mp 10).
    - destruct (Z.ltb_spec 2 (mp + 3)); lia.
    - destruct (Z.ltb_spec 2 (mp - 9)); lia. }
  destruct Hm as (Hm & Hm2 & Hmp').
  set (y := yoe + era * 400 + (if m <=? 2 then 1 else 0)).
  assert (Hy : (if m <=? 2 then y - 1 else y) = yoe + era * 400)
    by (subst y; destruct (Z.leb_spec m 2); lia).
  split; [exact Hm|]. split; [split; [lia|]|].
  - unfold days_in_month.
    destruct (Z.eqb_spec m 2) as [E|E].
    + assert (Hmp11 : mp = 11) by (subst m; destruct (Z.ltb_spec mp 10); lia).
      destruct (H29 Hmp11) as [Hd29 Hlast].
      destruct (is_leap y) eqn:El; [lia|].
      destruct (Z.eq_dec d 29) as [Ed|]; [|lia]. exfalso.
      destruct (Hleap (Hlast Ed)) as [L4 L100].
      assert (y = yoe + 1 + era * 400)
        by (subst y; destruct (Z.leb_spec m 2); lia).
      unfold is_leap in El.
      assert (y mod 4 = 0) by (Z.div_mod_to_equations; lia).
      assert (y mod 100 <> 0 \/ y mod 400 = 0)
        by (Z.div_mod_to_equations; lia).
      destruct (Z.eqb_spec (y mod 4) 0); [|lia].
      destruct (Z.eqb_spec (y mod 100) 0); destruct (Z.eqb_spec (y mod 400) 0);
        cbn in El; try discriminate; lia.
    + assert (Hmpm : (m = 4 \/ m = 6 \/ m = 9 \/ m = 11)
                     <-> (mp = 1 \/ mp = 3 \/ mp = 6 \/ mp = 8))
        by (subst m; destruct (Z.ltb_spec mp 10); lia).
      destruct ((m =? 4) || (m =? 6) || (m =? 9) || (m =? 11)) eqn:Eb;
        [|lia].
      repeat (rewrite Bool.orb_true_iff in Eb). rewrite !Z.eqb_eq in Eb.
      apply H30. apply Hmpm. tauto.
  - unfold days_from_civil. cbn zeta. rewrite Hy, Hmp'.
    replace ((yoe + era * 400) / 400) with era
      by (Z.div_mod_to_equations; lia).
    replace (yoe + era * 400 - era * 400) with yoe by lia.
    subst d doy doe. lia.
Qed.

Lemma digit_value_digit (a : Z) : 0 <= a <= 9 -> digit_value (digit a) = Some a.
Proof.
  intros H.
  assert (a = 0 \/ a = 1 \/ a = 2 \/ a = 3 \/ a = 4 \/ a = 5 \/ a = 6
          \/ a = 7 \/ a = 8 \/ a = 9) as Hc by lia.
  repeat (destruct Hc as [->|Hc]; [reflexivity|]). subst. reflexivity.
Qed.

Lemma two_digits_pad (x : Z) :
  0 <= x <= 99 -> two_digits (digit (x / 10)) (digit (x mod 10)) = Some x.
Proof.
  intros H. unfold two_digits.
  rewrite !digit_value_digit by (Z.div_mod_to_equations; lia).
  f_equal. Z.div_mod_to_equations; lia.
Qed.

Lemma four_digits_pad (x : Z) :
  0 <= x <= 9999 ->
  four_digits (digit (x / 1000)) (digit (x / 100 mod 10))
              (digit (x mod 100 / 10)) (digit (x mod 100 mod 10)) = Some x.
Proof.
  intros H. unfold four_digits.
  rewrite two_digits_pad by (Z.div_mod_to_equations; lia).
  unfold two_digits.
  rewrite !digit_value_digit by (Z.div_mod_to_equations; lia).
  f_equal. Z.div_mod_to_equations; lia.
Qed.

(** The text of a date and a time of day reads back as that date and that
    time of day, with no fraction and no offset. *)
Lemma parse_iso_iso_text (y m d sod : Z) :
  1 <= y <= 9999 -> 1 <= m <= 12 -> 1 <= d <= days_in_month y m ->
  0 <= sod < 86400 ->
  parse_iso (iso_text "T" y m d sod)
  = Some {| wall := (days_from_civil y m d * seconds_per_day + sod)
                    * us_per_second;
            utcoffset := None;
            shape := {| separator := "T"; fraction_width := 0%nat;
                        zone := NoZone |} |}.
Proof.
  intros Hy Hm Hd Hs.
  assert (Hd31 : d <= 31).
  { unfold days_in_month in Hd.
    repeat match type of Hd with
           | context [if ?b then _ else _] => destruct b
           end; lia. }
  unfold parse_iso, iso_text, pad4, pad2.
  cbn [append list_ascii_of_string].
  rewrite four_digits_pad by lia.
  rewrite !two_digits_pad by (Z.div_mod_to_equations; lia).
  cbn [Ascii.eqb Bool.eqb andb orb].
  repeat match goal with
         | |- context [(?a <=? ?b)] =>
             let H := fresh in
             assert (H : (a <=? b) = true)
               by (apply Z.leb_le; Z.div_mod_to_equations; lia);
             rewrite H; clear H
         end.
  cbn [andb parse_fraction parse_offset]. f_equal.
  unfold timestamp_of_civil, seconds_per_day.
  rewrite Z.add_0_r. f_equal. f_equal.
  Z.div_mod_to_equations; lia.
Qed.

(** The ISO text of a [datetime] reads back as the reading cut to the
    second, with no offset. *)
Lemma isoformat_seconds_reads_back (now : timestamp) :
  datetime_min <= now <= datetime_max ->
  parse_iso (isoformat_seconds now)
  = Some {| wall := now / us_per_second * us_per_second;
            utcoffset := None;
            shape := {| separator := "T"; fraction_width := 0%nat;
                        zone := NoZone |} |}.
Proof.
  intros Hrange. unfold isoformat_seconds.
  pose proof (civil_from_days_range (now / us_per_second / seconds_per_day))
    as Hr.
  pose proof (civil_from_days_valid (now / us_per_second / seconds_per_day))
    as Hv.
  destruct (civil_from_days (now / us_per_second / seconds_per_day))
    as [[y m] d].
  unfold datetime_min, datetime_max, us_per_second, seconds_per_day in *.
  destruct Hr as (Hy & _ & _); [Z.div_mod_to_equations; lia|].
  destruct Hv as (Hm & Hd & Hback).
  rewrite parse_iso_iso_text; try assumption;
    [|Z.div_mod_to_equations; lia].
  unfold seconds_per_day, us_per_second. rewrite Hback.
  do 2 f_equal. Z.div_mod_to_equations; lia.
Qed.

(** X16.  The time in the commit message is the second reading of the
    clock cut to the second, for every reading whose second lies inside the
    nanosecond range of pandas, 1677-09-21T00:12:44 to 2262-04-11T23:47:16:
    writing the reading as ISO text, reading the text back and writing it
    again loses the microseconds and nothing else.  For any other reading a
    [datetime] can hold, reading the text back raises
    [OutOfBoundsDatetime]. *)
Theorem commit_time_is_clock_reading (now : timestamp) :
  datetime_min <= now <= datetime_max ->
  (in_ns_bounds (now / us_per_second * us_per_second) = true ->
   commit_time_text now = Ok (timestamp_str now))
  /\ (in_ns_bounds (now / us_per_second * us_per_second) = false ->
      commit_time_text now = Raise OutOfBoundsDatetime).
Proof.
  intros Hrange. unfold commit_time_text.
  rewrite (isoformat_seconds_reads_back now Hrange). cbn [utcoffset wall].
  split; intros ->; [|reflexivity].
  unfold timestamp_str. now rewrite Z.div_mul by (unfold us_per_second; lia).
Qed.

Lemma commit_time_is_clock_reading_witness :
  commit_time_text 1705313287654321 = Ok "2024-01-15 10:08:07"
  /\ commit_time_text 10413792180000000 = Raise OutOfBoundsDatetime.
Proof.
  split.
  - refine (proj1 (commit_time_is_clock_reading 1705313287654321 _) _).
    + vm_compute. split; discriminate.
    + reflexivity.
  - refine (proj2 (commit_time_is_clock_reading 10413792180000000 _) _).
    + vm_compute. split; discriminate.
    + reflexivity.
Defined.


(** ** When the index can be changed to local time *)

Lemma option_Z_eqb_eq (a b : option Z) : option_Z_eqb a b = true -> a = b.
Proof.
  destruct a, b; cbn; try discriminate; try reflexivity.
  intros H. apply Z.eqb_eq in H. now subst.
Qed.

(** X17.  A table with no row cannot be changed to local time: line 98
    raises a [TypeError].  On a table whose row labels are ISO-8601
    timestamps of one shape, with readings and instants inside the
    nanosecond range of pandas, line 98 succeeds exactly when all labels
    state one and the same offset from UTC; with labels that state no offset
    it raises a [TypeError], and with labels whose offsets differ it raises
    too.  When it succeeds the table keeps its number of rows. *)
Theorem normalize_index_succeeds_iff (w : world) (t : frame) :
  (index t = [] -> exists msg, normalize_index w t = Raise (TypeError msg))
  /\ forall ps : list parsed_time,
       parse_all (index t) = Some ps ->
       ps <> [] ->
       (forall p q, In p ps -> In q ps -> shape p = shape q) ->
       (forall p, In p ps ->
                  in_ns_bounds (wall p) = true
                  /\ in_ns_bounds (utc_instant p) = true
                  /\ in_ns_bounds (tz_localize_none w (utc_instant p)) = true) ->
       ((exists t', normalize_index w t = Ok t')
        <-> exists off, Forall (fun p => utcoffset p = Some off) ps)
       /\ (Forall (fun p => utcoffset p = None) ps ->
           exists msg, normalize_index w t = Raise (TypeError msg))
       /\ (forall t', normalize_index w t = Ok t' ->
                      length (index t') = length (index t)).
Proof.
  split.
  { intros Hempty. unfold normalize_index, to_datetime. rewrite Hempty.
    cbn [bind tz_convert]. eexists. reflexivity. }
  intros ps Hps Hne Hshape Hbounds.
  pose proof (length_parse_all _ _ Hps) as Hlen.
  destruct ps as [|p ps]; [congruence|]. clear Hne.
  pose proof (to_datetime_one_shape (index t) p ps Hps) as Hread.
  specialize (Hread (fun q Hq => Hshape q p (or_intror Hq) (or_introl eq_refl))).
  specialize (Hread (fun q Hq => conj (proj1 (Hbounds q Hq))
                                      (proj1 (proj2 (Hbounds q Hq))))).
  destruct (utcoffset p) as [off|] eqn:Hoff.
  - destruct (forallb (fun q => option_Z_eqb (utcoffset q) (Some off)) ps)
      eqn:Hsame.
    + assert (Hnorm : normalize_index w t
                      = Ok (with_index t
                              (map isoformat_seconds
                                 (map (tz_localize_none w)
                                      (map utc_instant (p :: ps)))))).
      { apply (normalize_index_instants w t _ off Hread).
        intros u Hu. apply in_map_iff in Hu. destruct Hu as (q & <- & Hq).
        apply (Hbounds q Hq). }
      rewrite Hnorm. split; [split|split].
      * intros _. exists off. constructor; [assumption|].
        apply Forall_forall. intros q Hq.
        rewrite forallb_forall in Hsame.
        now apply option_Z_eqb_eq, Hsame.
      * intros _. now eexists.
      * intros Hnone. inversion Hnone; congruence.
      * intros t' Ht'. injection Ht' as <-. cbn [index with_index].
        cbn [map length] in *. rewrite !length_map. exact Hlen.
    + assert (Hnorm : normalize_index w t
                      = Raise (AttributeError
                                 "'Index' object has no attribute 'tz_convert'")).
      { unfold normalize_index. rewrite Hread. reflexivity. }
      rewrite Hnorm. split; [split|split].
      * intros [t' H]. discriminate.
      * intros [off' Hall]. exfalso.
        inversion Hall as [|? ? Hp Hrest]; subst.
        assert (off' = off) as -> by congruence.
        rewrite (forallb_common_offset off ps Hrest) in Hsame. discriminate.
      * intros Hnone. inversion Hnone; congruence.
      * intros t' H. discriminate.
  - assert (Hnorm : normalize_index w t
                    = Raise (TypeError
                               "Cannot convert tz-naive timestamps, use tz_localize to localize")).
    { unfold normalize_index. rewrite Hread. reflexivity. }
    rewrite Hnorm. split; [split|split].
    + intros [t' H]. discriminate.
    + intros [off Hall]. inversion Hall; congruence.
    + intros _. now eexists.
    + intros t' H. discriminate.
Qed.

(** Two labels of one shape, two and three hours ahead of UTC. *)
Lemma normalize_index_succeeds_iff_witness :
  ~ exists t',
      normalize_index world_ok
        {| index := ["2024-01-15T10:00:00+02:00"; "2024-01-15T10:05:00+03:00"];
           index_name := None; columns := [] |}
      = Ok t'.
Proof.
  intros H.
  pose proof (proj2 (normalize_index_succeeds_iff world_ok
                       {| index := ["2024-01-15T10:00:00+02:00";
                                    "2024-01-15T10:05:00+03:00"];
                          index_name := None; columns := [] |})
                    [ {| wall := 1705312800000000;
                         utcoffset := Some 7200;
                         shape := {| separator := "T";
                                     fraction_width := 0%nat;
                                     zone := ColonZone |} |};
                      {| wall := 1705313100000000;
                         utcoffset := Some 10800;
                         shape := {| separator := "T";
                                     fraction_width := 0%nat;
                                     zone := ColonZone |} |} ]
                    eq_refl) as Hw.
  destruct Hw as [[Hok _] _].
  - discriminate.
  - intros p q [<-|[<-|[]]] [<-|[<-|[]]]; reflexivity.
  - intros p [<-|[<-|[]]]; repeat split; vm_compute; reflexivity.
  - destruct (Hok H) as [off Hall].
    inversion Hall as [|? ? H1 Hrest]; subst.
    inversion Hrest as [|? ? H2 _]; subst.
    cbn in H1, H2. congruence.
Defined.

(** ** The body of a reply in the error message *)

Lemma repr_char_printable (q c : ascii) :
  q = squote \/ q = dquote ->
  string_forall is_printable (repr_char q c) = true.
Proof.
  intros [->| ->]; destruct c as [[] [] [] [] [] [] [] []]; reflexivity.
Qed.

Lemma repr_quote_cases (s : string) :
  repr_quote s = squote \/ repr_quote s = dquote.
Proof.
  unfold repr_quote. destruct (contains squote s && negb (contains dquote s));
    auto.
Qed.

(** X18.  Whatever bytes the data API sends, the error message shows them
    in printable ASCII on one line: a line break or any other control or
    non-ASCII byte of the body appears as an escape, never as itself. *)
Theorem repr_bytes_printable_one_line (body : string) :
  string_forall is_printable (repr_bytes body) = true
  /\ contains "010"%char (repr_bytes body) = false
  /\ contains "013"%char (repr_bytes body) = false.
Proof.
  assert (H : string_forall is_printable (repr_bytes body) = true).
  { unfold repr_bytes, repr_str.
    destruct (repr_quote_cases body) as [Hq|Hq]; rewrite Hq.
    all: cbn [string_forall]; rewrite string_forall_append.
    all: assert (Hc : forall q s, q = squote \/ q = dquote ->
                      string_forall is_printable (repr_chars q s) = true)
      by (intros q s Hq'; induction s as [|c s IH]; [reflexivity|];
          cbn [repr_chars]; rewrite string_forall_append;
          now rewrite repr_char_printable, IH).
    all: rewrite Hc by auto; reflexivity. }
  split; [exact H|].
  split;
    match goal with
    | |- contains ?c ?s = false =>
        destruct (contains c s) eqn:E; [|reflexivity];
        pose proof (contains_string_forall _ c _ H E); discriminate
    end.
Qed.

(** ** The source file: base64 *)

Lemma below_64_cases (P : Z -> Prop) :
  (forall n : nat, (n < 64)%nat -> P (Z.of_nat n)) ->
  forall v, 0 <= v < 64 -> P v.
Proof.
  intros H v Hv. rewrite <- (Z2Nat.id v) by lia. apply H. lia.
Qed.

Lemma b64_value_char v :
  0 <= v < 64 ->
  b64_value (b64_char v) = Some v /\ Ascii.eqb (b64_char v) "=" = false
  /\ is_ascii (b64_char v) = true.
Proof.
  revert v. apply below_64_cases. intros n Hn.
  do 64 (destruct n as [|n]; [vm_compute; auto|]). lia.
Qed.

Lemma byte_value_range a : 0 <= byte_value a < 256.
Proof.
  unfold byte_value. destruct a as [[] [] [] [] [] [] [] []]; vm_compute; split; congruence.
Qed.

Lemma byte_of_value a : byte_of (byte_value a) = a.
Proof.
  destruct a as [[] [] [] [] [] [] [] []]; reflexivity.
Qed.

Lemma lor_shiftl_small p q k :
  0 <= k -> 0 <= q < 2 ^ k -> Z.lor (Z.shiftl p k) q = p * 2 ^ k + q.
Proof.
  intros Hk Hq.
  assert (Hland : Z.land (Z.shiftl p k) q = 0).
  { apply Z.bits_inj'. intros n Hn.
    rewrite Z.land_spec, Z.bits_0.
    destruct (Z.ltb_spec n k).
    - rewrite Z.shiftl_spec_low by lia. reflexivity.
    - rewrite <- (Z.mod_small q (2 ^ k)) by lia.
      rewrite Z.mod_pow2_bits_high by lia. apply andb_false_r. }
  rewrite <- Z.lxor_lor by exact Hland.
  rewrite <- Z.add_nocarry_lxor by exact Hland.
  rewrite Z.shiftl_mul_pow2 by lia. reflexivity.
Qed.

Lemma emit_first a y :
  0 <= y < 256 ->
  byte_of (Z.lor (Z.shiftl (byte_value a / 4) 2)
                 (Z.shiftr (byte_value a mod 4 * 16 + y / 16) 4)) = a.
Proof.
  intros Hy. pose proof (byte_value_range a) as Hx.
  rewrite Z.shiftr_div_pow2 by lia.
  rewrite lor_shiftl_small.
  - replace (_ + _) with (byte_value a).
    + apply byte_of_value.
    + change (2 ^ 2) with 4. change (2 ^ 4) with 16.
      set (x := byte_value a) in *. Z.div_mod_to_equations. lia.
  - lia.
  - change (2 ^ 2) with 4. change (2 ^ 4) with 16.
    set (x := byte_value a) in *. Z.div_mod_to_equations. lia.
Qed.

Lemma left_first x y :
  0 <= x < 256 -> 0 <= y < 256 ->
  Z.land (x mod 4 * 16 + y / 16) 15 = y / 16.
Proof.
  intros Hx Hy. change 15 with (Z.ones 4).
  rewrite Z.land_ones by lia. change (2 ^ 4) with 16.
  Z.div_mod_to_equations. lia.
Qed.

Lemma emit_second b z :
  0 <= z < 256 ->
  byte_of (Z.lor (Z.shiftl (byte_value b / 16) 4)
                 (Z.shiftr (byte_value b mod 16 * 4 + z / 64) 2)) = b.
Proof.
  intros Hz. pose proof (byte_value_range b) as Hy.
  rewrite Z.shiftr_div_pow2 by lia.
  rewrite lor_shiftl_small.
  - replace (_ + _) with (byte_value b).
    + apply byte_of_value.
    + change (2 ^ 2) with 4. change (2 ^ 4) with 16.
      set (y := byte_value b) in *. Z.div_mod_to_equations. lia.
  - lia.
  - change (2 ^ 2) with 4. change (2 ^ 4) with 16.
    set (y := byte_value b) in *. Z.div_mod_to_equations. lia.
Qed.

Lemma left_second y z :
  0 <= y < 256 -> 0 <= z < 256 ->
  Z.land (y mod 16 * 4 + z / 64) 3 = z / 64.
Proof.
  intros Hy Hz. change 3 with (Z.ones 2).
  rewrite Z.land_ones by lia. change (2 ^ 2) with 4.
  Z.div_mod_to_equations. lia.
Qed.

Lemma emit_third c :
  byte_of (Z.lor (Z.shiftl (byte_value c / 64) 6) (byte_value c mod 64)) = c.
Proof.
  pose proof (byte_value_range c) as Hz.
  rewrite lor_shiftl_small.
  - replace (_ + _) with (byte_value c).
    + apply byte_of_value.
    + change (2 ^ 6) with 64.
      set (z := byte_value c) in *. Z.div_mod_to_equations. lia.
  - lia.
  - change (2 ^ 6) with 64.
    set (z := byte_value c) in *. Z.div_mod_to_equations. lia.
Qed.

Lemma a2b_base64_data v rest q l p w :
  0 <= v < 64 ->
  a2b_base64 (String (b64_char v) rest) q l p w =
  if q =? 0 then a2b_base64 rest 1 v 0 w
  else if q =? 1 then
    cons_byte (byte_of (Z.lor (Z.shiftl l 2) (Z.shiftr v 4)))
              (a2b_base64 rest 2 (Z.land v 15) 0 (w + 1))
  else if q =? 2 then
    cons_byte (byte_of (Z.lor (Z.shiftl l 4) (Z.shiftr v 2)))
              (a2b_base64 rest 3 (Z.land v 3) 0 (w + 1))
  else
    cons_byte (byte_of (Z.lor (Z.shiftl l 6) v))
              (a2b_base64 rest 0 0 0 (w + 1)).
Proof.
  intros Hv. destruct (b64_value_char v Hv) as (Hval & Hpad & _).
  cbn [a2b_base64]. rewrite Hpad, Hval. reflexivity.
Qed.

Ltac sextet :=
  match goal with
  | |- 0 <= _ < 64 =>
      repeat match goal with
             | |- context [byte_value ?a] =>
                 let H := fresh "H" in
                 let x := fresh "x" in
                 pose proof (byte_value_range a) as H;
                 set (x := byte_value a) in *; clearbody x
             end;
      Z.div_mod_to_equations; lia
  end.

Lemma a2b_base64_group a b c rest w :
  a2b_base64
    (String (b64_char (byte_value a / 4))
       (String (b64_char (byte_value a mod 4 * 16 + byte_value b / 16))
          (String (b64_char (byte_value b mod 16 * 4 + byte_value c / 64))
             (String (b64_char (byte_value c mod 64)) rest)))) 0 0 0 w =
  cons_byte a (cons_byte b (cons_byte c (a2b_base64 rest 0 0 0 (w + 1 + 1 + 1)))).
Proof.
  pose proof (byte_value_range a) as Ha.
  pose proof (byte_value_range b) as Hb.
  pose proof (byte_value_range c) as Hc.
  rewrite a2b_base64_data by sextet. change (0 =? 0) with true. cbv iota.
  rewrite a2b_base64_data by sextet.
  change (1 =? 0) with false. change (1 =? 1) with true. cbv iota.
  rewrite emit_first by lia. rewrite left_first by lia.
  rewrite a2b_base64_data by sextet.
  change (2 =? 0) with false. change (2 =? 1) with false.
  change (2 =? 2) with true. cbv iota.
  rewrite emit_second by lia. rewrite left_second by lia.
  rewrite a2b_base64_data by sextet.
  change (3 =? 0) with false. change (3 =? 1) with false.
  change (3 =? 2) with false. cbv iota.
  rewrite emit_third. reflexivity.
Qed.

Lemma list_ind3 (A : Type) (P : list A -> Prop) :
  P [] -> (forall a, P [a]) -> (forall a b, P [a; b]) ->
  (forall a b c l, P l -> P (a :: b :: c :: l)) ->
  forall l, P l.
Proof.
  intros H0 H1 H2 H3 l.
  assert (H : P l /\ (forall a, P (a :: l)) /\ (forall a b, P (a :: b :: l))).
  { induction l as [|x l (IH0 & IH1 & IH2)].
    - auto.
    - repeat split; auto. }
  apply H.
Qed.

Lemma a2b_base64_encoded data : forall t w,
  a2b_base64 (b64encode_bytes data ++ t) 0 0 0 w =
  fold_right cons_byte
    (if Z.of_nat (length data) mod 3 =? 0
     then a2b_base64 t 0 0 0 (w + Z.of_nat (length data))
     else Ok "")
    data.
Proof.
  induction data as [|a|a b|a b c l IH] using list_ind3; intros t w.
  - cbn. rewrite Z.add_0_r. reflexivity.
  - pose proof (byte_value_range a) as Ha.
    cbn [b64encode_bytes append fold_right length].
    rewrite a2b_base64_data by sextet. change (0 =? 0) with true. cbv iota.
    rewrite a2b_base64_data by sextet.
    change (1 =? 0) with false. change (1 =? 1) with true. cbv iota.
    replace (byte_value a mod 4 * 16)
      with (byte_value a mod 4 * 16 + 0 / 16) by (cbn; lia).
    rewrite emit_first by lia. reflexivity.
  - pose proof (byte_value_range a) as Ha.
    pose proof (byte_value_range b) as Hb.
    cbn [b64encode_bytes append fold_right length].
    rewrite a2b_base64_data by sextet. change (0 =? 0) with true. cbv iota.
    rewrite a2b_base64_data by sextet.
    change (1 =? 0) with false. change (1 =? 1) with true. cbv iota.
    rewrite emit_first by lia. rewrite left_first by lia.
    rewrite a2b_base64_data by sextet.
    change (2 =? 0) with false. change (2 =? 1) with false.
    change (2 =? 2) with true. cbv iota.
    replace (byte_value b mod 16 * 4)
      with (byte_value b mod 16 * 4 + 0 / 64) by (cbn; lia).
    rewrite emit_second by lia. reflexivity.
  - cbn [b64encode_bytes append fold_right length].
    rewrite a2b_base64_group, IH.
    replace (Z.of_nat (S (S (S (length l)))))
      with (Z.of_nat (length l) + 1 * 3) by lia.
    rewrite Z_mod_plus_full.
    replace (w + 1 + 1 + 1 + Z.of_nat (length l))
      with (w + (Z.of_nat (length l) + 1 * 3)) by lia.
    reflexivity.
Qed.

Lemma fold_cons_byte_ok data s :
  fold_right cons_byte (Ok s) data = Ok (string_of_list_ascii data ++ s)%string.
Proof.
  induction data as [|a l IH]; cbn; [reflexivity|].
  rewrite IH. reflexivity.
Qed.

Lemma b64_char_ascii v : 0 <= v < 64 -> is_ascii (b64_char v) = true.
Proof. intros Hv. apply (b64_value_char v Hv). Qed.

Lemma b64encode_bytes_ascii data :
  string_forall is_ascii (b64encode_bytes data) = true.
Proof.
  induction data as [|a|a b|a b c l IH] using list_ind3.
  - reflexivity.
  - cbn [b64encode_bytes string_forall].
    rewrite !b64_char_ascii by sextet. reflexivity.
  - cbn [b64encode_bytes string_forall].
    rewrite !b64_char_ascii by sextet. reflexivity.
  - cbn [b64encode_bytes string_forall].
    rewrite !b64_char_ascii by sextet. exact IH.
Qed.

Lemma a2b_base64_filter s : forall q l p w,
  a2b_base64 s q l p w = a2b_base64 (string_filter is_b64_char s) q l p w.
Proof.
  induction s as [|c s IH]; intros q l p w; [reflexivity|].
  cbn [string_filter]. unfold is_b64_char.
  destruct (Ascii.eqb c "=") eqn:Hpad.
  - cbn [orb a2b_base64]. rewrite Hpad.
    destruct ((2 <=? q) && (4 <=? q + (p + 1))); [reflexivity|]. apply IH.
  - cbn [orb]. destruct (b64_value c) as [v|] eqn:Hval.
    + cbn [a2b_base64]. rewrite Hpad, Hval.
      repeat match goal with |- context [if ?b then _ else _] => destruct b end;
        rewrite <- IH; reflexivity.
    + cbn [a2b_base64]. rewrite Hpad, Hval. apply IH.
Qed.

Lemma string_forall_app p s t :
  string_forall p (s ++ t) = string_forall p s && string_forall p t.
Proof.
  induction s as [|c s IH]; cbn; [reflexivity|].
  rewrite IH. apply andb_assoc.
Qed.

Lemma a2b_base64_round_trip data :
  a2b_base64 (b64encode data) 0 0 0 0 = Ok data.
Proof.
  unfold b64encode.
  rewrite <- (append_nil_r (b64encode_bytes _)).
  rewrite a2b_base64_encoded.
  match goal with
  | |- context [if ?b then ?x else ?y] =>
      replace (if b then x else y) with (@Ok string "")
        by (destruct b; reflexivity)
  end.
  rewrite fold_cons_byte_ok, append_nil_r.
  apply f_equal, string_of_list_ascii_of_string.
Qed.

(** X19. Line 54: [base64.b64decode] gives back the file.  A [content] whose
    alphabet and padding characters spell the standard base64 text of the
    file decodes to exactly the file, whatever ASCII characters outside the
    alphabet (line breaks, blanks) stand in between. *)
Theorem b64decode_recovers_file (data s : string) :
  string_forall is_ascii s = true ->
  string_filter is_b64_char s = b64encode data ->
  b64decode s = Ok data.
Proof.
  intros Hascii Hs. unfold b64decode. rewrite Hascii.
  rewrite a2b_base64_filter, Hs. apply a2b_base64_round_trip.
Qed.

Lemma b64decode_recovers_file_witness :
  b64decode "YS w=" = Ok "a,".
Proof.
  apply b64decode_recovers_file; reflexivity.
Defined.

(** X20. Line 54: decoding stops at the padding.  When the file's length is
    not a multiple of three, its base64 text ends in padding, and any ASCII
    text after it is dropped without an error. *)
Theorem b64decode_ignores_after_padding (data t : string) :
  Z.of_nat (String.length data) mod 3 <> 0 ->
  string_forall is_ascii t = true ->
  b64decode (b64encode data ++ t) = Ok data.
Proof.
  intros Hlen Ht. unfold b64decode, b64encode.
  rewrite string_forall_app, b64encode_bytes_ascii, Ht. cbn [andb].
  rewrite a2b_base64_encoded.
  assert (Hl : length (list_ascii_of_string data) = String.length data).
  { clear. induction data as [|c d IH]; cbn; [reflexivity|]. now rewrite IH. }
  rewrite Hl.
  destruct (Z.eqb_spec (Z.of_nat (String.length data) mod 3) 0) as [E|_];
    [contradiction|].
  rewrite fold_cons_byte_ok, append_nil_r.
  apply f_equal, string_of_list_ascii_of_string.
Qed.

Lemma b64decode_ignores_after_padding_witness :
  b64decode "YSw=YSw=" = Ok "a,".
Proof.
  apply (b64decode_ignores_after_padding "a," "YSw="); [cbn; lia | reflexivity].
Defined.


Lemma cons_byte_ok b r d :
  r = Ok d -> cons_byte b r = Ok (String b d).
Proof. intros ->. reflexivity. Qed.

Lemma cons_byte_raise b r e :
  r = Raise e -> cons_byte b r = Raise e.
Proof. intros ->. reflexivity. Qed.

Lemma a2b_base64_unpadded s : forall q l p w,
  contains "=" s = false -> 0 <= q < 4 ->
  (((q + Z.of_nat (String.length (string_filter is_b64_char s))) mod 4 = 0 ->
    exists d, a2b_base64 s q l p w = Ok d
              /\ Z.of_nat (String.length d)
                 = (q + Z.of_nat (String.length (string_filter is_b64_char s)))
                   / 4 * 3 - Z.max (q - 1) 0)
   /\ ((q + Z.of_nat (String.length (string_filter is_b64_char s))) mod 4 <> 0 ->
       exists msg, a2b_base64 s q l p w = Raise (ValueError msg))).
Proof.
  induction s as [|c s IH]; intros q l p w Hpad Hq.
  - cbn [string_filter String.length a2b_base64]. rewrite Z.add_0_r.
    assert (Hc : q = 0 \/ q = 1 \/ q = 2 \/ q = 3) by lia.
    destruct Hc as [-> | [-> | [-> | ->]]]; split; intros Hm;
      try (exfalso; revert Hm; cbn; congruence);
      try (cbn in Hm; congruence).
    + exists "". split; reflexivity.
    + eexists. reflexivity.
    + eexists. reflexivity.
    + eexists. reflexivity.
  - cbn [contains] in Hpad. apply orb_false_iff in Hpad as [Hc Hpad].
    assert (Hk : is_b64_char c
                 = match b64_value c with Some _ => true | None => false end)
      by (unfold is_b64_char; rewrite Hc; reflexivity).
    cbn [string_filter a2b_base64]. rewrite Hk, Hc.
    destruct (b64_value c) as [v|] eqn:Hval.
    + cbn [String.length]. rewrite Nat2Z.inj_succ.
      set (n := Z.of_nat (String.length (string_filter is_b64_char s))) in *.
      assert (Hn : 0 <= n) by (subst n; lia).
      assert (Hcase : q = 0 \/ q = 1 \/ q = 2 \/ q = 3) by lia.
      destruct Hcase as [-> | [-> | [-> | ->]]].
      * change (0 =? 0) with true. cbv iota.
        destruct (IH 1 v 0 w Hpad ltac:(lia)) as [IHok IHbad].
        replace (0 + Z.succ n) with (1 + n) by lia.
        split; intros Hm.
        -- destruct (IHok Hm) as (d & Hr & Hd). exists d. split; [exact Hr|].
           rewrite Hd. reflexivity.
        -- exact (IHbad Hm).
      * change (1 =? 0) with false. change (1 =? 1) with true. cbv iota.
        destruct (IH 2 (Z.land v 15) 0 (w + 1) Hpad ltac:(lia)) as [IHok IHbad].
        replace (1 + Z.succ n) with (2 + n) by lia.
        split; intros Hm.
        -- destruct (IHok Hm) as (d & Hr & Hd). eexists. split.
           ++ apply cons_byte_ok, Hr.
           ++ cbn [String.length]. rewrite Nat2Z.inj_succ, Hd.
              change (Z.max (2 - 1) 0) with 1. change (Z.max (1 - 1) 0) with 0.
              lia.
        -- destruct (IHbad Hm) as (msg & Hr). exists msg.
           apply cons_byte_raise, Hr.
      * change (2 =? 0) with false. change (2 =? 1) with false.
        change (2 =? 2) with true. cbv iota.
        destruct (IH 3 (Z.land v 3) 0 (w + 1) Hpad ltac:(lia)) as [IHok IHbad].
        replace (2 + Z.succ n) with (3 + n) by lia.
        split; intros Hm.
        -- destruct (IHok Hm) as (d & Hr & Hd). eexists. split.
           ++ apply cons_byte_ok, Hr.
           ++ cbn [String.length]. rewrite Nat2Z.inj_succ, Hd.
              change (Z.max (3 - 1) 0) with 2. change (Z.max (2 - 1) 0) with 1.
              lia.
        -- destruct (IHbad Hm) as (msg & Hr). exists msg.
           apply cons_byte_raise, Hr.
      * change (3 =? 0) with false. change (3 =? 1) with false.
        change (3 =? 2) with false. cbv iota.
        destruct (IH 0 0 0 (w + 1) Hpad ltac:(lia)) as [IHok IHbad].
        replace (3 + Z.succ n) with (0 + n + 1 * 4) by lia.
        rewrite Z_mod_plus_full, Z_div_plus_full by lia.
        split; intros Hm.
        -- destruct (IHok Hm) as (d & Hr & Hd). eexists. split.
           ++ apply cons_byte_ok, Hr.
           ++ cbn [String.length]. rewrite Nat2Z.inj_succ, Hd.
              change (Z.max (3 - 1) 0) with 2. change (Z.max (0 - 1) 0) with 0.
              lia.
        -- destruct (IHbad Hm) as (msg & Hr). exists msg.
           apply cons_byte_raise, Hr.
    + apply IH; assumption.
Qed.

(** X21. Line 54: a [content] without any padding character decodes if and
    only if its number of alphabet characters is a multiple of four, to
    three bytes for every four of them; otherwise [b64decode] raises
    [binascii.Error], a [ValueError]. *)
Theorem b64decode_unpadded (s : string) :
  string_forall is_ascii s = true ->
  contains "=" s = false ->
  (Z.of_nat (String.length (string_filter is_b64_char s)) mod 4 = 0 ->
   exists d, b64decode s = Ok d
             /\ Z.of_nat (String.length d)
                = Z.of_nat (String.length (string_filter is_b64_char s)) / 4 * 3)
  /\ (Z.of_nat (String.length (string_filter is_b64_char s)) mod 4 <> 0 ->
      exists msg, b64decode s = Raise (ValueError msg)).
Proof.
  intros Hascii Hpad. unfold b64decode. rewrite Hascii.
  destruct (a2b_base64_unpadded s 0 0 0 0 Hpad ltac:(lia)) as [Hok Hbad].
  rewrite Z.add_0_l in Hok, Hbad. split.
  - intros Hm. destruct (Hok Hm) as (d & Hr & Hd). exists d. split; [exact Hr|].
    rewrite Hd. change (Z.max (0 - 1) 0) with 0. lia.
  - exact Hbad.
Qed.

Lemma b64decode_unpadded_witness :
  exists msg, b64decode "YSw" = Raise (ValueError msg).
Proof.
  apply (b64decode_unpadded "YSw"); [reflexivity | reflexivity | cbn; lia].
Defined.
